(** * pymodaq: the detector control module (control_modules/daq_viewer.py)

    A shallow embedding of the acquisition worker [DAQ_Detector] and of the
    controller [DAQ_Viewer], with the properties of the acquisition-control
    specification stated and settled against it.

    Conventions of the embedding
    - Python integers are [Z].  The content of a NumPy array is kept as the
      list of its values, exact rationals [Qc] (no NaN, no infinities).
    - What the code calls on objects of other modules (the subscripts of the
      data objects, NumPy arithmetic, the methods of [DataToExport]) is not
      part of the sources: these calls are parameters of the embedding, see
      [Foreign].
    - A Qt signal emission, a call into the hardware plugin, a call into a
      data viewer and a logged exception are recorded, in program order, in
      a list of [signal]s returned next to the new state.
    - Python objects that the controller copies, aliases or mutates in place
      ([DataToExport]) live in an explicit store; see [DAQ_Viewer]. *)

From Stdlib Require Import QArith Qcanon.
From stdpp Require Import base numbers list strings gmap.

Open Scope Z_scope.

(** ** Data model *)

(** [DataDim]: the dimensionality tag of a data object ([data.dim]). *)
Inductive DataDim := Data0D | Data1D | Data2D | DataND.

#[global] Instance DataDim_eq_dec : EqDecision DataDim.
Proof. solve_decision. Defined.

(** The values of a NumPy array. *)
Abbreviation array := (list Qc).

(** [DataFromPlugins]: one named data object of a batch; [dfp_data] is the
    Python list of arrays it carries (one per channel). *)
Record DataFromPlugins := mk_dfp {
  dfp_name : string;
  dfp_dim : DataDim;
  dfp_origin : string;
  dfp_data : list (list Qc)
}.

#[global] Instance DataFromPlugins_eq_dec : EqDecision DataFromPlugins.
Proof. solve_decision. Defined.

(** The data object with another list of arrays. *)
Definition with_data (p : DataFromPlugins) (d : list (list Qc)) : DataFromPlugins :=
  {| dfp_name := dfp_name p; dfp_dim := dfp_dim p;
     dfp_origin := dfp_origin p; dfp_data := d |}.

(** [dat.origin = o] *)
Definition with_origin (p : DataFromPlugins) (o : string) : DataFromPlugins :=
  {| dfp_name := dfp_name p; dfp_dim := dfp_dim p;
     dfp_origin := o; dfp_data := dfp_data p |}.

(** A batch: the Python list handed over by one hardware callback. *)
Abbreviation batch := (list DataFromPlugins).

(** ** Arithmetic on arrays without rounding

    Elementwise arithmetic on one-dimensional arrays of exact numbers.  It
    is what the specification means by its formulas, and it is used to
    evaluate the embedding on examples; it is not NumPy's arithmetic, which
    rounds and wraps according to the type of the elements (see
    [Foreign]). *)

(** [c * a] with a number [c]. *)
Definition exact_scale (c : Qc) (a : array) : array := map (Qcmult c) a.

(** [a / c] with a number [c]. *)
Definition exact_div (a : array) (c : Qc) : array := map (λ x, (x / c)%Qc) a.

(** Elementwise binary operation with broadcasting: a length-one operand is
    stretched, equal lengths are combined pointwise, anything else raises
    [ValueError] ([None]). *)
Definition exact_binop (f : Qc → Qc → Qc) (a b : array) : option array :=
  match a, b with
  | [x], _ => Some (map (f x) b)
  | _, [y] => Some (map (λ x, f x y) a)
  | _, _ => if decide (length a = length b) then Some (zip_with f a b) else None
  end.

Definition exact_add : array → array → option array := exact_binop Qcplus.
Definition exact_sub : array → array → option array := exact_binop Qcminus.

(** Some value of the array is at or above [value]. *)
Definition exact_any_ge (channel : array) (value : Qc) : bool :=
  existsb (λ x, bool_decide (value ≤ x)%Qc) channel.

(** [DataToExport]: the object built by [show_data] from a batch
    ([dte_data], the raw data) and completed with what the viewers send
    back ([dte_fragments]). *)
Record DataToExport := mk_dte {
  dte_name : string;
  dte_data : list DataFromPlugins;
  dte_fragments : list (list DataFromPlugins)
}.

#[global] Instance DataToExport_eq_dec : EqDecision DataToExport.
Proof. solve_decision. Defined.

(** ** Foreign code

    The classes [DataFromPlugins] and [DataToExport] live in
    [pymodaq.utils.data] and the arrays are NumPy's; neither is part of the
    sources at hand.  What the acquisition code calls on them is taken as
    parameters; [None] stands for a raised exception. *)
Class Foreign := {
  (** [dat['data']] on a data object of a batch *)
  getitem_data : DataFromPlugins → option (list array);
  (** [dat['data'] = d]: the object as the assignment leaves it *)
  setitem_data : DataFromPlugins → list array → option DataFromPlugins;
  (** [c * a] with a Python integer [c] *)
  np_mul : Z → array → option array;
  (** [a + b] *)
  np_add : array → array → option array;
  (** [a / c] with a Python integer [c] *)
  np_truediv : array → Z → option array;
  (** [any(channel >= value)] *)
  np_any_ge : array → Qc → option bool;
  (** [self.average(other, weight)] on [DataToExport] objects *)
  dte_average : DataToExport → DataToExport → Z → option DataToExport;
  (** [self -= other] on [DataToExport] objects: what the left name is
      bound to afterwards ([None] if the call raised), and the content of
      [other] after the call *)
  dte_subtract : DataToExport → DataToExport → option DataToExport * DataToExport
}.

(** ** Signals, plugin calls and commands *)

(** [ThreadCommand]s understood by [DAQ_Detector.queue_command].  The
    command [ini_detector] is embedded as a function of its own (see
    [ini_detector]) and [close] is left out; [plugin_command] stands for
    every name that is only forwarded to the plugin ([update_scanner],
    [move_at_navigator], [update_com], [get_axis] and custom names). *)
Inductive command :=
| grab (Naverage : Z)
| single (Naverage : Z)
| stop_grab
| stop_all
| update_wait_time (wait_time : Z)
| plugin_command (name : string).

#[global] Instance command_eq_dec : EqDecision command.
Proof. solve_decision. Defined.

(** Everything the worker does that is visible outside of its own fields. *)
Inductive signal :=
| data_detector_sig (datas : option (list DataFromPlugins))
| data_detector_temp_sig (datas : option (list DataFromPlugins))
| status_sig (command : string)
| detector_grab_data (Naverage : Z) (live : bool) (wait_time : Z)
| detector_stop
| detector_call (name : string)
| msleep (wait_time : Z)
| logger_exception.

#[global] Instance signal_eq_dec : EqDecision signal.
Proof. solve_decision. Defined.

(** ** The worker: [DAQ_Detector] *)

(** The attributes set in [DAQ_Detector.__init__] that the acquisition code
    reads or writes; [live_mode_available] is the attribute of the plugin
    instance ([self.detector.live_mode_available]). *)
Record DAQ_Detector := mk_detector {
  waiting_for_data : bool;
  grab_state : bool;
  single_grab : bool;
  datas : option (list DataFromPlugins);
  ind_average : Z;
  Naverage : option Z;
  average_done : bool;
  hardware_averaging : bool;
  show_averaging : bool;
  wait_time : Z;
  live_mode_available : bool
}.

#[global] Instance DAQ_Detector_eq_dec : EqDecision DAQ_Detector.
Proof. solve_decision. Defined.

Definition set_waiting_for_data (v : bool) (w : DAQ_Detector) : DAQ_Detector :=
  mk_detector v (grab_state w) (single_grab w) (datas w) (ind_average w)
    (Naverage w) (average_done w) (hardware_averaging w) (show_averaging w)
    (wait_time w) (live_mode_available w).

Definition set_grab_state (v : bool) (w : DAQ_Detector) : DAQ_Detector :=
  mk_detector (waiting_for_data w) v (single_grab w) (datas w) (ind_average w)
    (Naverage w) (average_done w) (hardware_averaging w) (show_averaging w)
    (wait_time w) (live_mode_available w).

Definition set_single_grab (v : bool) (w : DAQ_Detector) : DAQ_Detector :=
  mk_detector (waiting_for_data w) (grab_state w) v (datas w) (ind_average w)
    (Naverage w) (average_done w) (hardware_averaging w) (show_averaging w)
    (wait_time w) (live_mode_available w).

Definition set_datas (v : option (list DataFromPlugins)) (w : DAQ_Detector) : DAQ_Detector :=
  mk_detector (waiting_for_data w) (grab_state w) (single_grab w) v (ind_average w)
    (Naverage w) (average_done w) (hardware_averaging w) (show_averaging w)
    (wait_time w) (live_mode_available w).

Definition set_ind_average (v : Z) (w : DAQ_Detector) : DAQ_Detector :=
  mk_detector (waiting_for_data w) (grab_state w) (single_grab w) (datas w) v
    (Naverage w) (average_done w) (hardware_averaging w) (show_averaging w)
    (wait_time w) (live_mode_available w).

Definition set_Naverage (v : option Z) (w : DAQ_Detector) : DAQ_Detector :=
  mk_detector (waiting_for_data w) (grab_state w) (single_grab w) (datas w) (ind_average w)
    v (average_done w) (hardware_averaging w) (show_averaging w)
    (wait_time w) (live_mode_available w).

Definition set_average_done (v : bool) (w : DAQ_Detector) : DAQ_Detector :=
  mk_detector (waiting_for_data w) (grab_state w) (single_grab w) (datas w) (ind_average w)
    (Naverage w) v (hardware_averaging w) (show_averaging w)
    (wait_time w) (live_mode_available w).

Definition set_wait_time (v : Z) (w : DAQ_Detector) : DAQ_Detector :=
  mk_detector (waiting_for_data w) (grab_state w) (single_grab w) (datas w) (ind_average w)
    (Naverage w) (average_done w) (hardware_averaging w) (show_averaging w)
    v (live_mode_available w).

(** *** Software averaging in [data_ready] *)

(** [((ind_average - 1) * old + new) / ind_average] on two arrays. *)
Definition incremental_mean `{Foreign} (ind_average : Z) (old new : array) : option array :=
  a ← np_mul (ind_average - 1) old;
  s ← np_add a new;
  np_truediv s ind_average.

(** The list comprehension
    [[((n-1) * self.datas[indpannel]['data'][ind] + datas[indpannel]['data'][ind]) / n
      for ind in range(len(datas[indpannel]['data']))]].
    [datas[indpannel]] is [dic], the item of the enumeration.  The range is
    evaluated first, then the expression for each index; [None] stands for
    the exception raised by a subscript, by an index out of range, by
    [self.datas] being [None] or by the arithmetic. *)
Definition averaged_channels `{Foreign} (n : Z) (held : option (list DataFromPlugins))
    (indpannel : nat) (dic : DataFromPlugins) : option (list array) :=
  new_data ← getitem_data dic;
  mapM (λ ind,
          b ← held; p ← b !! indpannel;
          old_data ← getitem_data p;
          old ← old_data !! ind;
          new_data ← getitem_data dic;
          new ← new_data !! ind;
          incremental_mean n old new)
       (seq 0 (length new_data)).

(** [self.datas[indpannel]['data'] = d] *)
Definition setitem `{Foreign} (held : option (list DataFromPlugins)) (indpannel : nat)
    (d : list array) : option (option (list DataFromPlugins)) :=
  b ← held; p ← b !! indpannel;
  p' ← setitem_data p d;
  Some (Some (<[indpannel := p']> b)).

(** The [for indpannel, dic in enumerate(datas)] loop: panels are updated
    one after the other; an exception leaves the panels already updated as
    they are and is reported by the boolean. *)
Fixpoint average_loop `{Foreign} (n : Z) (indpannel : nat) (new : list DataFromPlugins)
    (held : option (list DataFromPlugins)) : option (list DataFromPlugins) * bool :=
  match new with
  | [] => (held, false)
  | dic :: rest =>
      match averaged_channels n held indpannel dic ≫= setitem held indpannel with
      | Some held' => average_loop n (S indpannel) rest held'
      | None => (held, true)
      end
  end.

(** [DAQ_Detector.data_ready].  The backward-compatibility loop at the top
    rewrites the keys ['dim'] and ['type'] of items that are not
    [DataFromPlugins] objects; it is left out, the data objects of the
    embedding carrying their dimension tag from the start.  The incoming
    list is a different object from the one the worker holds (the plugin
    builds a new list per emission).  The exception of the averaging loop
    is caught and logged, and the function goes on with the test on
    [ind_average]. *)
Definition data_ready `{Foreign} (self : DAQ_Detector) (new : list DataFromPlugins)
    : DAQ_Detector * list signal :=
  let '(self, out) :=
    if negb (hardware_averaging self) then
      let self := set_ind_average (ind_average self + 1) self in
      let '(self, out) :=
        if decide (ind_average self = 1) then (set_datas (Some new) self, [])
        else
          let '(held, raised) := average_loop (ind_average self) 0 new (datas self) in
          let self := set_datas held self in
          if raised then (self, [logger_exception])
          else if show_averaging self then (self, [data_detector_temp_sig (datas self)])
          else (self, [])
      in
      if decide (Some (ind_average self) = Naverage self) then
        let self := set_average_done true self in
        (set_ind_average 0 self, out ++ [data_detector_sig (datas self)])
      else (self, out)
    else (self, [data_detector_sig (Some new)])
  in
  let self := set_waiting_for_data false self in
  (self, out ++ (if grab_state self then [] else [detector_stop])).

(** A run of callbacks: the outputs of each call are kept apart. *)
Fixpoint data_ready_all `{Foreign} (self : DAQ_Detector)
    (samples : list (list DataFromPlugins)) : DAQ_Detector * list (list signal) :=
  match samples with
  | [] => (self, [])
  | s :: rest =>
      let '(self, out) := data_ready self s in
      let '(self, outs) := data_ready_all self rest in
      (self, out :: outs)
  end.

(** The batches carried by the [data_detector_sig] emissions of one call. *)
Definition emitted (out : list signal) : list (option (list DataFromPlugins)) :=
  omap (λ s, match s with data_detector_sig d => Some d | _ => None end) out.

(** *** The arithmetic mean of a list of batches (specification side)

    The mean the specification asks for, in exact arithmetic. *)

Definition panel_sum (p q : DataFromPlugins) : DataFromPlugins :=
  with_data p (zip_with (zip_with Qcplus) (dfp_data p) (dfp_data q)).

Definition batch_sum (a b : batch) : batch := zip_with panel_sum a b.

Definition batch_div (b : batch) (c : Qc) : batch :=
  (λ p, with_data p ((λ a, exact_div a c) <$> dfp_data p)) <$> b.

(** Elementwise sum of all samples divided by their number; names and
    dimension tags are those of the first sample. *)
Definition arithmetic_mean (samples : list batch) : option batch :=
  match samples with
  | [] => None
  | s :: rest =>
      Some (batch_div (foldl batch_sum s rest) (Qc_of_Z (Z.of_nat (length samples))))
  end.
(** *** The acquisition loop of [grab_data] and the command dispatch

    [grab_data] runs [while True] around [QApplication.processEvents()].
    Whatever Qt delivers inside that call (a queued [queue_command], the
    plugin's [data_grabed_signal], possibly a nested [grab_data]) runs on
    the worker thread while the loop is suspended.  The embedding makes the
    suspension explicit: the worker thread is its [DAQ_Detector] object plus
    the stack of activations suspended in [processEvents], and it advances
    on one [event] at a time.  No fuel is needed: a loop that never ends is
    a run whose events never make it break. *)

(** The local variables of one [grab_data] activation. *)
Record frame := mk_frame {
  fr_Naverage : Z;
  fr_live : bool;
  fr_wait_time : Z    (* kwargs['wait_time'] *)
}.

#[global] Instance frame_eq_dec : EqDecision frame.
Proof. solve_decision. Defined.

(** An activation suspended in [processEvents()]: the loop of [grab_data],
    or the [stop_all] branch of [queue_command]. *)
Inductive activation :=
| in_grab_data (f : frame)
| in_stop_all.

#[global] Instance activation_eq_dec : EqDecision activation.
Proof. solve_decision. Defined.

(** The worker thread.  [outstanding] belongs to the hardware side: the
    number of [detector.grab_data] requests not yet answered by a callback. *)
Record Thread := mk_thread {
  worker : DAQ_Detector;
  stack : list activation;
  outstanding : nat
}.

#[global] Instance Thread_eq_dec : EqDecision Thread.
Proof. solve_decision. Defined.

(** What Qt hands to the worker thread. *)
Inductive event :=
| deliver_command (c : command)            (* a queued [queue_command] call *)
| deliver_data (d : list DataFromPlugins)  (* [data_grabed_signal] reaches [data_ready] *)
| events_done.                             (* the innermost [processEvents()] returns *)

(** [grab_data], from its first line to [status_sig.emit(ThreadCommand('grab'))]. *)
Definition grab_data_enter (N : Z) (live : bool) (self : DAQ_Detector)
    : DAQ_Detector * frame * list signal :=
  let self := set_ind_average 0 self in
  let self := set_Naverage (Some N) self in
  let self := if decide (1 < N) then set_average_done false self else self in
  let self := set_waiting_for_data false self in
  let kwargs_wait_time := if live_mode_available self then wait_time self else 0 in
  (self, mk_frame N live kwargs_wait_time, [status_sig "grab"]).

(** The loop body up to [processEvents()]: one request if none is awaited. *)
Definition loop_head (f : frame) (self : DAQ_Detector) : DAQ_Detector * list signal :=
  if negb (waiting_for_data self) then
    (set_waiting_for_data true self,
     [detector_grab_data (fr_Naverage f) (fr_live f) (fr_wait_time f)])
  else (self, []).

(** The loop body after [processEvents()]: the boolean tells whether one of
    the [break]s is taken. *)
Definition loop_tail (self : DAQ_Detector) : bool * list signal :=
  let '(brk, out) :=
    if single_grab self then
      if hardware_averaging self then (true, [])
      else if average_done self then (true, [])
      else (false, [])
    else (false, [msleep (wait_time self)])
  in
  if brk then (true, out)
  else if negb (grab_state self) then (true, out)
  else if live_mode_available self then (true, out)
  else (false, out).

(** Enter [grab_data] and run to the first [processEvents()]. *)
Definition enter_loop (N : Z) (live : bool) (self : DAQ_Detector) (m : Thread)
    : Thread * list signal :=
  let '(self, f, out1) := grab_data_enter N live self in
  let '(self, out2) := loop_head f self in
  (mk_thread self (in_grab_data f :: stack m) (outstanding m + length out2),
   out1 ++ out2).

(** [DAQ_Detector.queue_command] *)
Definition queue_command (c : command) (m : Thread) : Thread * list signal :=
  let self := worker m in
  match c with
  | grab N =>
      let self := set_single_grab false self in
      let self := set_grab_state true self in
      enter_loop N true self m
  | single N =>
      let self := set_single_grab true self in
      let self := set_grab_state true self in
      enter_loop N false self m
  | stop_grab =>
      (mk_thread (set_grab_state false self) (stack m) (outstanding m),
       [status_sig "Update_Status"])
  | stop_all =>
      (mk_thread (set_grab_state false self) (in_stop_all :: stack m) (outstanding m),
       [detector_stop])
  | update_wait_time t =>
      (mk_thread (set_wait_time t self) (stack m) (outstanding m), [])
  | plugin_command name => (m, [detector_call name])
  end.

(** One event on the worker thread. *)
Definition step `{Foreign} (m : Thread) (e : event) : Thread * list signal :=
  match e with
  | deliver_command c => queue_command c m
  | deliver_data d =>
      let '(self, out) := data_ready (worker m) d in
      (mk_thread self (stack m) (Nat.pred (outstanding m)), out)
  | events_done =>
      match stack m with
      | [] => (m, [])
      | in_stop_all :: rest =>
          (mk_thread (worker m) rest (outstanding m), [status_sig "Update_Status"])
      | in_grab_data f :: rest =>
          let '(brk, out) := loop_tail (worker m) in
          if brk then
            (mk_thread (worker m) rest (outstanding m), out ++ [status_sig "grab_stopped"])
          else
            let '(self, out2) := loop_head f (worker m) in
            (mk_thread self (stack m) (outstanding m + length out2), out ++ out2)
      end
  end.

Fixpoint run `{Foreign} (m : Thread) (es : list event) : Thread * list signal :=
  match es with
  | [] => (m, [])
  | e :: es =>
      let '(m, out) := step m e in
      let '(m, outs) := run m es in
      (m, out ++ outs)
  end.

(** Every state a run goes through, the first one included. *)
Fixpoint states `{Foreign} (m : Thread) (es : list event) : list Thread :=
  m :: match es with
       | [] => []
       | e :: es => states (fst (step m e)) es
       end.

(** The plugin answers requests: a callback is delivered only while a
    request is outstanding. *)
Definition answers_request (m : Thread) (e : event) : bool :=
  match e with
  | deliver_data _ => bool_decide (0 < outstanding m)%nat
  | _ => true
  end.

(** No [grab] or [single] command is dispatched while a request is still
    outstanding. *)
Definition no_regrab (m : Thread) (e : event) : bool :=
  match e with
  | deliver_command (grab _) | deliver_command (single _) =>
      bool_decide (outstanding m = 0%nat)
  | _ => true
  end.

Fixpoint along `{Foreign} (ok : Thread → event → bool) (m : Thread) (es : list event) : bool :=
  match es with
  | [] => true
  | e :: es => ok m e && along ok (fst (step m e)) es
  end.

(** Events that neither start a loop nor suspend in [processEvents()]. *)
Definition quiet (e : event) : bool :=
  match e with
  | deliver_data _ => true
  | deliver_command stop_grab => true
  | deliver_command (update_wait_time _) => true
  | deliver_command (plugin_command _) => true
  | _ => false
  end.

Definition is_grab_request (s : signal) : bool :=
  match s with detector_grab_data _ _ _ => true | _ => false end.

(** A worker right after [__init__] on an idle thread. *)
Definition idle_thread (wait : Z) (live_mode : bool) : Thread :=
  mk_thread (mk_detector false false false None 0 None false false false wait live_mode)
            [] 0.

(** The one-request discipline: at most one request is outstanding, and one
    is outstanding only while [waiting_for_data] is set. *)
Definition one_in_flight (m : Thread) : Prop :=
  (outstanding m ≤ 1)%nat ∧
  (waiting_for_data (worker m) = false → outstanding m = 0%nat).

(** *** Initialisation: [DAQ_Detector.ini_detector]

    The plugin class is foreign code; what matters here is where it may
    raise.  [ini_detector] is written in a small state-and-exception monad:
    the state is the local [status] dictionary with the worker object and
    the signals emitted so far, so that everything done before an exception
    is still there when the handler runs. *)

(** Python values stored in the [status] dictionary. *)
Inductive value :=
| VNone
| VBool (b : bool)
| VStr (s : string)
| VHandle (h : nat)          (* a controller object *)
| VAxis (a : list Qc).

#[global] Instance value_eq_dec : EqDecision value.
Proof. solve_decision. Defined.

(** The result of running foreign code. *)
Inductive outcome (A : Type) :=
| returns (a : A)
| raises (e : string).      (* [e] is [str(exception)] *)

Arguments returns {A} a.
Arguments raises {A} e.

(** What the plugin's [ini_detector] hands back: an [edict], or anything
    else, of which items 0 and 1 are read ([None] where the item access
    itself raises). *)
Inductive infos :=
| infos_edict (e : gmap string value)
| infos_other (item0 item1 : option value).

(** The behaviour of the plugin class selected by [get_viewer_plugins]. *)
Record Plugin := mk_plugin {
  get_viewer_plugins : outcome unit;              (* looking the class up *)
  class_ : outcome unit;                          (* [class_(self, params_state)] *)
  connect_signals : outcome unit;                 (* the two [connect] calls *)
  detector_ini_detector : option nat → outcome infos;
                                                  (* [self.detector.ini_detector(controller)] *)
  detector_controller : outcome value;            (* reading [self.detector.controller] *)
  class_hardware_averaging : outcome bool         (* reading [class_.hardware_averaging] *)
}.

Record ini_state := mk_ini_state {
  status : gmap string value;
  ini_self : DAQ_Detector;
  ini_out : list signal
}.

Definition Ini (A : Type) : Type := ini_state → ini_state * outcome A.

Definition ini_ret {A} (a : A) : Ini A := λ s, (s, returns a).

Definition ini_bind {A B} (m : Ini A) (k : A → Ini B) : Ini B :=
  λ s, match m s with
       | (s', returns a) => k a s'
       | (s', raises e) => (s', raises e)
       end.

Notation "x ←ᵢ m ; k" := (ini_bind m (λ x, k))
  (at level 100, m at next level, right associativity).
Notation "m ;ᵢ k" := (ini_bind m (λ _, k))
  (at level 100, right associativity).

(** [try: body except Exception as e: handler(e)] *)
Definition try_except {A} (body : Ini A) (handler : string → Ini A) : Ini A :=
  λ s, match body s with
       | (s', returns a) => (s', returns a)
       | (s', raises e) => handler e s'
       end.

(** Running foreign code inside the monad. *)
Definition call {A} (o : outcome A) : Ini A := λ s, (s, o).

(** [status[k] = v] *)
Definition status_set (k : string) (v : value) : Ini unit :=
  λ s, (mk_ini_state (<[k := v]> (status s)) (ini_self s) (ini_out s), returns tt).

(** [status = e] *)
Definition status_assign (e : gmap string value) : Ini unit :=
  λ s, (mk_ini_state e (ini_self s) (ini_out s), returns tt).

(** [status.update(e)] *)
Definition status_update (e : gmap string value) : Ini unit :=
  λ s, (mk_ini_state (e ∪ status s) (ini_self s) (ini_out s), returns tt).

(** [status[k]]; the key is missing: [KeyError]. *)
Definition status_get (k : string) : Ini value :=
  λ s, (s, match status s !! k with
           | Some v => returns v
           | None => raises "KeyError"
           end).

Definition ini_emit (sig : signal) : Ini unit :=
  λ s, (mk_ini_state (status s) (ini_self s) (ini_out s ++ [sig]), returns tt).

Definition set_hardware_averaging (v : bool) (w : DAQ_Detector) : DAQ_Detector :=
  mk_detector (waiting_for_data w) (grab_state w) (single_grab w) (datas w) (ind_average w)
    (Naverage w) (average_done w) v (show_averaging w)
    (wait_time w) (live_mode_available w).

Definition ini_set_hardware_averaging (v : bool) : Ini unit :=
  λ s, (mk_ini_state (status s) (set_hardware_averaging v (ini_self s)) (ini_out s),
        returns tt).

(** Item access on what the plugin returned: [infos[i]]. *)
Definition item (o : option value) : Ini value :=
  call (match o with Some v => returns v | None => raises "IndexError" end).

(** [edict(initialized=False, info="", x_axis=None, y_axis=None)] *)
Definition initial_status : gmap string value :=
  {[ "initialized" := VBool false; "info" := VStr ""; "x_axis" := VNone; "y_axis" := VNone ]}.

(** The body of the outer [try] of [ini_detector]. *)
Definition ini_detector_body (plugin : Plugin) (controller : option nat)
    : Ini (gmap string value) :=
  status_assign initial_status ;ᵢ
  call (get_viewer_plugins plugin) ;ᵢ
  call (class_ plugin) ;ᵢ
  i ←ᵢ try_except
        (call (connect_signals plugin) ;ᵢ
         i ←ᵢ call (detector_ini_detector plugin controller) ;
         c ←ᵢ call (detector_controller plugin) ;
         status_set "controller" c ;ᵢ
         ini_ret i)
        (λ e,
         ini_emit logger_exception ;ᵢ
         status_set "controller" VNone ;ᵢ
         ini_ret (infos_other (Some (VStr e)) (Some (VBool false)))) ;
  match i with
  | infos_edict e => status_update e
  | infos_other i0 i1 =>
      v0 ←ᵢ item i0 ;
      status_set "info" v0 ;ᵢ
      v1 ←ᵢ item i1 ;
      status_set "initialized" v1
  end ;ᵢ
  x ←ᵢ status_get "x_axis" ;
  (if decide (x = VNone) then ini_ret tt else ini_emit (status_sig "x_axis")) ;ᵢ
  y ←ᵢ status_get "y_axis" ;
  (if decide (y = VNone) then ini_ret tt else ini_emit (status_sig "y_axis")) ;ᵢ
  h ←ᵢ call (class_hardware_averaging plugin) ;
  ini_set_hardware_averaging h ;ᵢ
  (λ s, (s, returns (status s))).

(** [DAQ_Detector.ini_detector]: the outer handler logs and returns the
    [status] dictionary as it stands. *)
Definition ini_detector (plugin : Plugin) (self : DAQ_Detector) (controller : option nat)
    : ini_state * outcome (gmap string value) :=
  try_except (ini_detector_body plugin controller)
             (λ e, ini_emit logger_exception ;ᵢ (λ s, (s, returns (status s))))
             (mk_ini_state ∅ self []).
(** ** The controller: [DAQ_Viewer] *)

(** Modelled from the spec: [DataToExport.append] ([pymodaq.utils.data] is
    missing).  "Append to the open AggregatedExport": the export keeps an
    ordered list of fragments and a fragment is added at its end. *)
Definition dte_append (e : DataToExport) (fragment : list DataFromPlugins) : DataToExport :=
  mk_dte (dte_name e) (dte_data e) (dte_fragments e ++ [fragment]).

(** Pointwise combination of two lists that must have the same length. *)
Definition zip_with_opt {A B C} (f : A → B → option C) (l : list A) (k : list B)
    : option (list C) :=
  if decide (length l = length k) then mapM (λ ab, f ab.1 ab.2) (zip l k) else None.

(** [((n-1)*old + new)/n] in exact arithmetic. *)
Definition exact_incremental_mean (n : Z) (old new : array) : option array :=
  s ← exact_add (exact_scale (Qc_of_Z (n - 1)) old) new;
  Some (exact_div s (Qc_of_Z n)).

(** Modelled from the spec: [DataToExport.average] ([pymodaq.utils.data] is
    missing).  "The same incremental-mean formula":
    [newMean = ((n-1)*oldMean + sample)/n], channel by channel, with
    [other] as the old mean and [self] as the sample. *)
Definition spec_average (self other : DataToExport) (weight : Z) : option DataToExport :=
  d ← zip_with_opt
        (λ p q, with_data p <$>
                zip_with_opt (λ new old, exact_incremental_mean weight old new)
                             (dfp_data p) (dfp_data q))
        (dte_data self) (dte_data other);
  Some (mk_dte (dte_name self) d (dte_fragments self)).

(** Modelled from the spec: [DataToExport.__isub__] ([pymodaq.utils.data]
    is missing).  Background subtraction, channel by channel; the
    Background is only read. *)
Definition spec_subtract (self other : DataToExport)
    : option DataToExport * DataToExport :=
  (d ← zip_with_opt
         (λ p q, with_data p <$> zip_with_opt exact_sub (dfp_data p) (dfp_data q))
         (dte_data self) (dte_data other);
   Some (mk_dte (dte_name self) d (dte_fragments self)),
   other).

(** The foreign code used to evaluate the embedding on examples.  The
    subscripts raise: a [DataFromPlugins] object indexes its arrays by
    integers and raises [IndexError] for any other key, ['data'] included
    (the acquisition code reads these objects by attribute everywhere
    else).  The arithmetic is the exact one and the methods of
    [DataToExport] are those of the specification. *)
Definition spec_ops : Foreign :=
  {| getitem_data := λ _, None;
     setitem_data := λ _ _, None;
     np_mul := λ c a, Some (exact_scale (Qc_of_Z c) a);
     np_add := exact_add;
     np_truediv := λ a c, Some (exact_div a (Qc_of_Z c));
     np_any_ge := λ channel value, Some (exact_any_ge channel value);
     dte_average := spec_average;
     dte_subtract := spec_subtract |}.

#[global] Existing Instance spec_ops.

(** The entries of [self.settings] read by the acquisition code. *)
Record Settings := mk_settings {
  tcp_connected : bool;        (* main_settings / tcpip / tcp_connected *)
  live_averaging : bool;
  N_live_averaging : Z;
  refresh_time : Z;            (* milliseconds *)
  show_data_setting : bool;    (* main_settings / show_data *)
  stop_overshoot : bool;
  overshoot_value : Qc;
  Naverage_setting : Z         (* main_settings / Naverage *)
}.

Definition set_N_live_averaging (v : Z) (s : Settings) : Settings :=
  mk_settings (tcp_connected s) (live_averaging s) v (refresh_time s)
    (show_data_setting s) (stop_overshoot s) (overshoot_value s) (Naverage_setting s).

(** The part of [DAQ_Viewer_UI] the controller reads and writes. *)
Record UI := mk_ui {
  ui_data_ready : bool;
  ui_viewer_types : list DataDim
}.

(** The controller object.  A data viewer is represented by its type; the
    [DataToExport] objects that the controller creates, copies and mutates
    are the cells of [heap], and an attribute holding such an object holds
    its index.  [self.viewers] is [_viewers] when there is a UI and [None]
    otherwise. *)
Record DAQ_Viewer := mk_viewer {
  title : string;
  ui : option UI;
  _viewers : list DataDim;
  _viewer_types : list DataDim;
  settings : Settings;
  _grabing : bool;
  _do_bkg : bool;
  _take_bkg : bool;
  _grab_done : bool;
  _start_grab_time : Qc;
  _received_data : Z;
  _bkg : option nat;
  _current_data : option nat;
  _data_to_save_export : option nat;
  _do_save_data : bool;
  _send_to_tcpip : bool;
  _ind_continuous_grab : Z;
  heap : list DataToExport
}.

Definition set_ui (v : option UI) (self : DAQ_Viewer) : DAQ_Viewer :=
  mk_viewer (title self) v (_viewers self) (_viewer_types self) (settings self)
    (_grabing self) (_do_bkg self) (_take_bkg self) (_grab_done self)
    (_start_grab_time self) (_received_data self) (_bkg self) (_current_data self)
    (_data_to_save_export self) (_do_save_data self) (_send_to_tcpip self)
    (_ind_continuous_grab self) (heap self).

Definition set_viewers (v : list DataDim) (self : DAQ_Viewer) : DAQ_Viewer :=
  mk_viewer (title self) (ui self) v (_viewer_types self) (settings self)
    (_grabing self) (_do_bkg self) (_take_bkg self) (_grab_done self)
    (_start_grab_time self) (_received_data self) (_bkg self) (_current_data self)
    (_data_to_save_export self) (_do_save_data self) (_send_to_tcpip self)
    (_ind_continuous_grab self) (heap self).

Definition set_viewer_types (v : list DataDim) (self : DAQ_Viewer) : DAQ_Viewer :=
  mk_viewer (title self) (ui self) (_viewers self) v (settings self) (_grabing self)
    (_do_bkg self) (_take_bkg self) (_grab_done self) (_start_grab_time self)
    (_received_data self) (_bkg self) (_current_data self) (_data_to_save_export self)
    (_do_save_data self) (_send_to_tcpip self) (_ind_continuous_grab self) (heap self).

Definition set_settings (v : Settings) (self : DAQ_Viewer) : DAQ_Viewer :=
  mk_viewer (title self) (ui self) (_viewers self) (_viewer_types self) v
    (_grabing self) (_do_bkg self) (_take_bkg self) (_grab_done self)
    (_start_grab_time self) (_received_data self) (_bkg self) (_current_data self)
    (_data_to_save_export self) (_do_save_data self) (_send_to_tcpip self)
    (_ind_continuous_grab self) (heap self).

Definition set_grabing (v : bool) (self : DAQ_Viewer) : DAQ_Viewer :=
  mk_viewer (title self) (ui self) (_viewers self) (_viewer_types self)
    (settings self) v (_do_bkg self) (_take_bkg self) (_grab_done self)
    (_start_grab_time self) (_received_data self) (_bkg self) (_current_data self)
    (_data_to_save_export self) (_do_save_data self) (_send_to_tcpip self)
    (_ind_continuous_grab self) (heap self).

Definition set_take_bkg (v : bool) (self : DAQ_Viewer) : DAQ_Viewer :=
  mk_viewer (title self) (ui self) (_viewers self) (_viewer_types self)
    (settings self) (_grabing self) (_do_bkg self) v (_grab_done self)
    (_start_grab_time self) (_received_data self) (_bkg self) (_current_data self)
    (_data_to_save_export self) (_do_save_data self) (_send_to_tcpip self)
    (_ind_continuous_grab self) (heap self).

Definition set_grab_done (v : bool) (self : DAQ_Viewer) : DAQ_Viewer :=
  mk_viewer (title self) (ui self) (_viewers self) (_viewer_types self)
    (settings self) (_grabing self) (_do_bkg self) (_take_bkg self) v
    (_start_grab_time self) (_received_data self) (_bkg self) (_current_data self)
    (_data_to_save_export self) (_do_save_data self) (_send_to_tcpip self)
    (_ind_continuous_grab self) (heap self).

Definition set_start_grab_time (v : Qc) (self : DAQ_Viewer) : DAQ_Viewer :=
  mk_viewer (title self) (ui self) (_viewers self) (_viewer_types self)
    (settings self) (_grabing self) (_do_bkg self) (_take_bkg self) (_grab_done self)
    v (_received_data self) (_bkg self) (_current_data self)
    (_data_to_save_export self) (_do_save_data self) (_send_to_tcpip self)
    (_ind_continuous_grab self) (heap self).

Definition set_received_data (v : Z) (self : DAQ_Viewer) : DAQ_Viewer :=
  mk_viewer (title self) (ui self) (_viewers self) (_viewer_types self)
    (settings self) (_grabing self) (_do_bkg self) (_take_bkg self) (_grab_done self)
    (_start_grab_time self) v (_bkg self) (_current_data self)
    (_data_to_save_export self) (_do_save_data self) (_send_to_tcpip self)
    (_ind_continuous_grab self) (heap self).

Definition set_bkg (v : option nat) (self : DAQ_Viewer) : DAQ_Viewer :=
  mk_viewer (title self) (ui self) (_viewers self) (_viewer_types self)
    (settings self) (_grabing self) (_do_bkg self) (_take_bkg self) (_grab_done self)
    (_start_grab_time self) (_received_data self) v (_current_data self)
    (_data_to_save_export self) (_do_save_data self) (_send_to_tcpip self)
    (_ind_continuous_grab self) (heap self).

Definition set_current_data (v : option nat) (self : DAQ_Viewer) : DAQ_Viewer :=
  mk_viewer (title self) (ui self) (_viewers self) (_viewer_types self)
    (settings self) (_grabing self) (_do_bkg self) (_take_bkg self) (_grab_done self)
    (_start_grab_time self) (_received_data self) (_bkg self) v
    (_data_to_save_export self) (_do_save_data self) (_send_to_tcpip self)
    (_ind_continuous_grab self) (heap self).

Definition set_data_to_save_export (v : option nat) (self : DAQ_Viewer) : DAQ_Viewer :=
  mk_viewer (title self) (ui self) (_viewers self) (_viewer_types self)
    (settings self) (_grabing self) (_do_bkg self) (_take_bkg self) (_grab_done self)
    (_start_grab_time self) (_received_data self) (_bkg self) (_current_data self) v
    (_do_save_data self) (_send_to_tcpip self) (_ind_continuous_grab self) (heap self).

Definition set_do_save_data (v : bool) (self : DAQ_Viewer) : DAQ_Viewer :=
  mk_viewer (title self) (ui self) (_viewers self) (_viewer_types self)
    (settings self) (_grabing self) (_do_bkg self) (_take_bkg self) (_grab_done self)
    (_start_grab_time self) (_received_data self) (_bkg self) (_current_data self)
    (_data_to_save_export self) v (_send_to_tcpip self) (_ind_continuous_grab self)
    (heap self).

Definition set_send_to_tcpip (v : bool) (self : DAQ_Viewer) : DAQ_Viewer :=
  mk_viewer (title self) (ui self) (_viewers self) (_viewer_types self)
    (settings self) (_grabing self) (_do_bkg self) (_take_bkg self) (_grab_done self)
    (_start_grab_time self) (_received_data self) (_bkg self) (_current_data self)
    (_data_to_save_export self) (_do_save_data self) v (_ind_continuous_grab self)
    (heap self).

Definition set_ind_continuous_grab (v : Z) (self : DAQ_Viewer) : DAQ_Viewer :=
  mk_viewer (title self) (ui self) (_viewers self) (_viewer_types self)
    (settings self) (_grabing self) (_do_bkg self) (_take_bkg self) (_grab_done self)
    (_start_grab_time self) (_received_data self) (_bkg self) (_current_data self)
    (_data_to_save_export self) (_do_save_data self) (_send_to_tcpip self) v
    (heap self).

Definition set_heap (v : list DataToExport) (self : DAQ_Viewer) : DAQ_Viewer :=
  mk_viewer (title self) (ui self) (_viewers self) (_viewer_types self)
    (settings self) (_grabing self) (_do_bkg self) (_take_bkg self) (_grab_done self)
    (_start_grab_time self) (_received_data self) (_bkg self) (_current_data self)
    (_data_to_save_export self) (_do_save_data self) (_send_to_tcpip self)
    (_ind_continuous_grab self) v.

(** What the controller does that is visible outside of its own fields. *)
Inductive vsignal :=
| command_tcpip (data : list DataFromPlugins)
| overshoot_signal (b : bool)
| ui_update_viewers (viewer_types : list DataDim)
| viewer_show_data (ind : nat) (data : DataFromPlugins)
| viewer_show_data_temp (ind : nat) (data : DataFromPlugins)
| grab_done_signal (l : nat) (data : option DataToExport)
| save_data (l : nat) (data : option DataToExport)
| command_hardware (c : command)
| update_status (msg : string)
| custom_sig (name : string)
| viewer_logger_exception
| unhandled_exception.

#[global] Instance vsignal_eq_dec : EqDecision vsignal.
Proof. solve_decision. Defined.

(** [self.viewers] *)
Definition viewers (self : DAQ_Viewer) : option (list DataDim) :=
  match ui self with
  | Some _ => Some (_viewers self)
  | None => None
  end.

(** A new object on the heap. *)
Definition new_object (c : DataToExport) (self : DAQ_Viewer) : nat * DAQ_Viewer :=
  (length (heap self), set_heap (heap self ++ [c]) self).

(** [copy.deepcopy(obj)] *)
Definition deepcopy (l : nat) (self : DAQ_Viewer) : option (nat * DAQ_Viewer) :=
  c ← heap self !! l; Some (new_object c self).

(** [DAQ_Viewer.grab_data]; [now] is the reading of [time.perf_counter()]. *)
Definition grab_data (self : DAQ_Viewer) (now : Qc)
    (grab_state send_to_tcpip snap_state : bool) : DAQ_Viewer * list vsignal :=
  let self := set_grabing grab_state self in
  let self := set_send_to_tcpip send_to_tcpip self in
  let self := set_grab_done false self in
  let self := set_ui ((λ u, mk_ui false (ui_viewer_types u)) <$> ui self) self in
  let self := set_start_grab_time now self in
  if snap_state then
    (self, [update_status "Snap";
            command_hardware (single (Naverage_setting (settings self)))])
  else if negb grab_state then
    (self, [update_status "Stop Grab"; command_hardware stop_grab])
  else
    (self, [custom_sig "update_channels"; update_status "Continuous Grab";
            command_hardware (grab (Naverage_setting (settings self)))]).

(** [DAQ_Viewer.take_bkg] *)
Definition take_bkg (self : DAQ_Viewer) (now : Qc) : DAQ_Viewer * list vsignal :=
  let self := set_take_bkg true self in
  grab_data self now false false true.

(** The loop [for channel in channels['data']] of [_process_overshoot], on
    the list the subscript gave.  The boolean is [false] when an exception
    is raised; the alerts emitted before it are kept. *)
Fixpoint overshoot_channels `{Foreign} (value : Qc) (channels : list array)
    : list vsignal * bool :=
  match channels with
  | [] => ([], true)
  | channel :: rest =>
      match np_any_ge channel value with
      | None => ([], false)
      | Some b =>
          let '(out, ok) := overshoot_channels value rest in
          ((if b then [overshoot_signal true] else []) ++ out, ok)
      end
  end.

(** The loop [for channels in data] of [_process_overshoot]. *)
Fixpoint overshoot_loop `{Foreign} (value : Qc) (data : list DataFromPlugins)
    : list vsignal * bool :=
  match data with
  | [] => ([], true)
  | channels :: rest =>
      match getitem_data channels with
      | None => ([], false)
      | Some arrays =>
          let '(out, ok) := overshoot_channels value arrays in
          if ok then
            let '(out', ok') := overshoot_loop value rest in (out ++ out', ok')
          else (out, false)
      end
  end.

(** [DAQ_Viewer._process_overshoot]; the boolean is [false] when the
    function raises. *)
Definition _process_overshoot `{Foreign} (self : DAQ_Viewer) (data : list DataFromPlugins)
    : list vsignal * bool :=
  if stop_overshoot (settings self) then
    overshoot_loop (overshoot_value (settings self)) data
  else ([], true).

(** Modelled from the spec: [DAQ_Viewer_UI.update_viewers]
    ([daq_viewer_ui.py] is missing).  "Request surface reconfiguration":
    the UI ends up with one display surface per requested type and reports
    them back through the [viewers_changed] command, which sets
    [_viewer_types] and [viewers]. *)
Definition update_viewers (viewer_types : list DataDim) (self : DAQ_Viewer)
    : DAQ_Viewer * list vsignal :=
  let self := set_ui ((λ u, mk_ui (ui_data_ready u) viewer_types) <$> ui self) self in
  let self := set_viewer_types viewer_types self in
  (set_viewers viewer_types self, [ui_update_viewers viewer_types]).

(** [DAQ_Viewer._init_show_data]; the boolean is [false] when
    [_process_overshoot] raises, which ends the function. *)
Definition _init_show_data `{Foreign} (self : DAQ_Viewer) (data : list DataFromPlugins)
    : DAQ_Viewer * list vsignal * bool :=
  let '(out, ok) := _process_overshoot self data in
  if negb ok then (self, out, false) else
  let self := set_viewer_types (dfp_dim <$> data) self in
  match ui self with
  | Some u =>
      if decide (ui_viewer_types u ≠ _viewer_types self) then
        let '(self, out') := update_viewers (_viewer_types self) self in
        (self, out ++ out', true)
      else (self, out, true)
  | None => (self, out, true)
  end.

(** [DAQ_Viewer.set_data_to_viewers], from index [ind] on; the boolean is
    [false] when [self.viewers[ind]] raises [IndexError]. *)
Fixpoint set_data_to_viewers_from (viewers : list DataDim) (ind : nat)
    (data : list DataFromPlugins) (temp : bool) : list vsignal * bool :=
  match data with
  | [] => ([], true)
  | d :: rest =>
      match viewers !! ind with
      | None => ([], false)
      | Some _ =>
          let '(out, ok) := set_data_to_viewers_from viewers (S ind) rest temp in
          ((if temp then viewer_show_data_temp ind d else viewer_show_data ind d) :: out, ok)
      end
  end.

Definition set_data_to_viewers (self : DAQ_Viewer) (data : list DataFromPlugins)
    (temp : bool) : list vsignal * bool :=
  set_data_to_viewers_from (_viewers self) 0 data temp.

(** [DAQ_Viewer._save_export_data], the slot connected to
    [grab_done_signal]. *)
Definition _save_export_data (self : DAQ_Viewer) (l : nat) : DAQ_Viewer * list vsignal :=
  if _do_save_data self then
    (set_do_save_data false self, [save_data l (heap self !! l)])
  else (self, []).

(** [self.grab_done_signal.emit(obj)]: the connected slot runs at once. *)
Definition emit_grab_done (self : DAQ_Viewer) (l : nat) : DAQ_Viewer * list vsignal :=
  let '(self', out) := _save_export_data self l in
  (self', grab_done_signal l (heap self !! l) :: out).

(** [DAQ_Viewer._get_data_from_viewer] *)
Definition _get_data_from_viewer (self : DAQ_Viewer) (data : list DataFromPlugins)
    : DAQ_Viewer * list vsignal :=
  match _data_to_save_export self with
  | None => (self, [])
  | Some l =>
      let self := set_received_data (_received_data self + 1) self in
      let self :=
        if decide (length data ≠ 0%nat) then
          let data := (λ dat, with_origin dat (title self)) <$> data in
          set_heap (alter (λ e, dte_append e data) l (heap self)) self
        else self in
      match viewers self with
      | None => (self, [unhandled_exception])     (* [len(None)] *)
      | Some vs =>
          if decide (_received_data self = Z.of_nat (length vs)) then
            emit_grab_done (set_grab_done true self) l
          else (self, [])
      end
  end.

(** The live-averaging block of [show_data]; the boolean is [false] when an
    exception is raised. *)
Definition live_averaging_block `{Foreign} (self : DAQ_Viewer) : DAQ_Viewer * bool :=
  if live_averaging (settings self) then
    let self :=
      set_settings (set_N_live_averaging (_ind_continuous_grab self) (settings self)) self in
    match _data_to_save_export self ≫= λ l, deepcopy l self with
    | None => (self, false)
    | Some (lc, self) =>
        let self := set_current_data (Some lc) self in
        let self := set_ind_continuous_grab (_ind_continuous_grab self + 1) self in
        if decide (1 < _ind_continuous_grab self) then
          match (l ← _data_to_save_export self;
                 e ← heap self !! l;
                 c ← heap self !! lc;
                 dte_average e c (_ind_continuous_grab self)) with
          | Some r =>
              let '(lr, self) := new_object r self in
              (set_data_to_save_export (Some lr) self, true)
          | None => (self, false)
          end
        else (self, true)
    end
  else (self, true).

(** The background-capture block of [show_data]. *)
Definition take_bkg_block (self : DAQ_Viewer) : DAQ_Viewer * bool :=
  if _take_bkg self then
    match _data_to_save_export self ≫= λ l, deepcopy l self with
    | None => (self, false)
    | Some (lb, self) => (set_take_bkg false (set_bkg (Some lb) self), true)
    end
  else (self, true).

(** The refresh test of [show_data]; [now] and [now'] are the two readings
    of [time.perf_counter()]. *)
Definition refresh_block (self : DAQ_Viewer) (now now' : Qc) : DAQ_Viewer * bool :=
  if _grabing self then
    let refresh :=
      bool_decide (Qc_of_Z (refresh_time (settings self)) / Qc_of_Z 1000
                   < now - _start_grab_time self)%Qc in
    (if refresh then set_start_grab_time now' self else self, refresh)
  else (self, true).

(** The display branch of [show_data]: a deep copy of the export is made,
    the background is subtracted from the copy with [-=], and the copy is
    sent to the viewers.  Whatever [-=] does to its right operand is
    written to the Background. *)
Definition display_block `{Foreign} (self : DAQ_Viewer) : DAQ_Viewer * list vsignal * bool :=
  let self := set_received_data 0 self in
  match _data_to_save_export self ≫= λ l, deepcopy l self with
  | None => (self, [], false)
  | Some (data_to_plot, self) =>
      let '(self, ok) :=
        match _bkg self with
        | Some lb =>
            if _do_bkg self then
              match heap self !! data_to_plot, heap self !! lb with
              | Some p, Some b =>
                  let '(r, b') := dte_subtract p b in
                  let self := set_heap (<[lb := b']> (heap self)) self in
                  match r with
                  | Some r => (set_heap (<[data_to_plot := r]> (heap self)) self, true)
                  | None => (self, false)
                  end
              | _, _ => (self, false)
              end
            else (self, true)
        | None => (self, true)
        end in
      if ok then
        match heap self !! data_to_plot with
        | Some p =>
            let '(out, ok) := set_data_to_viewers self (dte_data p) false in
            (self, out, ok)
        | None => (self, [], false)
        end
      else (self, [], false)
  end.

(** The second half of [show_data], from [if self._take_bkg:] to the end. *)
Definition show_data_finish `{Foreign} (self : DAQ_Viewer) (now now' : Qc)
    : DAQ_Viewer * list vsignal :=
  let '(self, ok) := take_bkg_block self in
  if negb ok then (self, [viewer_logger_exception]) else
  let '(self, refresh) := refresh_block self now now' in
  if bool_decide (is_Some (ui self)) && show_data_setting (settings self) && refresh then
    let '(self, out, ok) := display_block self in
    (self, out ++ (if ok then [] else [viewer_logger_exception]))
  else
    let self := set_grab_done true self in
    match _data_to_save_export self with
    | Some l => emit_grab_done self l
    | None => (self, [viewer_logger_exception])
    end.

(** [DAQ_Viewer.show_data].  An exception anywhere in the body is caught by
    the enclosing [try] and logged. *)
Definition show_data `{Foreign} (self : DAQ_Viewer) (now now' : Qc)
    (data : list DataFromPlugins) : DAQ_Viewer * list vsignal :=
  let out_tcp :=
    if tcp_connected (settings self) && _send_to_tcpip self
    then [command_tcpip data] else [] in
  let self := set_ui ((λ u, mk_ui true (ui_viewer_types u)) <$> ui self) self in
  let '(self, out_init, ok) := _init_show_data self data in
  if negb ok then (self, out_tcp ++ out_init ++ [viewer_logger_exception]) else
  let '(l, self) := new_object (mk_dte (title self) data []) self in
  let self := set_data_to_save_export (Some l) self in
  let '(self, ok) := live_averaging_block self in
  if negb ok then (self, out_tcp ++ out_init ++ [viewer_logger_exception]) else
  let '(self, out) := show_data_finish self now now' in
  (self, out_tcp ++ out_init ++ out).

(** The guard of the display branch, read on the state before the call. *)
Definition displays (self : DAQ_Viewer) (now : Qc) : bool :=
  bool_decide (is_Some (ui self)) && show_data_setting (settings self)
  && snd (refresh_block self now now).

(** A run of viewer echoes: the outputs of each call are kept apart. *)
Fixpoint get_data_from_viewers (self : DAQ_Viewer) (fragments : list (list DataFromPlugins))
    : DAQ_Viewer * list (list vsignal) :=
  match fragments with
  | [] => (self, [])
  | f :: rest =>
      let '(self, out) := _get_data_from_viewer self f in
      let '(self, outs) := get_data_from_viewers self rest in
      (self, out :: outs)
  end.

(** The exports carried by the [grab_done_signal] emissions of one call. *)
Definition grab_dones (out : list vsignal) : list (nat * option DataToExport) :=
  omap (λ s, match s with grab_done_signal l d => Some (l, d) | _ => None end) out.

(** The data objects handed to the viewers by one call. *)
Definition shown (out : list vsignal) : list DataFromPlugins :=
  omap (λ s, match s with viewer_show_data _ d => Some d | _ => None end) out.

(** The number of overshoot alerts fired by one call. *)
Definition alerts (out : list vsignal) : nat :=
  length (filter (λ s, s = overshoot_signal true) out).

(** *** Auxiliary notions used to state the properties of [show_data] *)

(** [show_data] up to the live-averaging block: the export is a new
    object built from the batch. *)
Definition export_built (self : DAQ_Viewer) (data : list DataFromPlugins)
    (u' : option UI) (vs' : list DataDim) : DAQ_Viewer :=
  let s0 := set_ui ((λ u, mk_ui true (ui_viewer_types u)) <$> ui self) self in
  let s1 := set_viewers vs' (set_viewer_types (dfp_dim <$> data) (set_ui u' s0)) in
  set_data_to_save_export (Some (length (heap self)))
    (set_heap (heap self ++ [mk_dte (title self) data []]) s1).

(** What [_get_data_from_viewer] does to [dat.origin] before appending. *)
Definition tagged (self : DAQ_Viewer) (fragment : list DataFromPlugins)
    : list DataFromPlugins :=
  (λ dat, with_origin dat (title self)) <$> fragment.

(** The objects the attributes [_data_to_save_export] and [_bkg] refer
    to. *)
Definition stored_export (self : DAQ_Viewer) : option DataToExport :=
  _data_to_save_export self ≫= (heap self !!.).

Definition stored_background (self : DAQ_Viewer) : option DataToExport :=
  _bkg self ≫= (heap self !!.).

(** The Background, when there is one, is an object of the store. *)
Definition background_in_store (self : DAQ_Viewer) : Prop :=
  ∀ lb, _bkg self = Some lb → (lb < length (heap self))%nat.

(** What one echo leaves in the export: a fragment that is not empty is
    tagged and appended, an empty one is only counted. *)
Definition appended (self : DAQ_Viewer) (e : DataToExport)
    (fragment : list DataFromPlugins) : DataToExport :=
  if decide (length fragment ≠ 0%nat) then dte_append e (tagged self fragment) else e.

(** What the first half of [show_data] leaves untouched. *)
Definition carried_over (self s : DAQ_Viewer) : Prop :=
  (is_Some (ui s) ↔ is_Some (ui self)) ∧
  title s = title self ∧
  _grabing s = _grabing self ∧
  _start_grab_time s = _start_grab_time self ∧
  refresh_time (settings s) = refresh_time (settings self) ∧
  show_data_setting (settings s) = show_data_setting (settings self) ∧
  _take_bkg s = _take_bkg self ∧
  _do_bkg s = _do_bkg self ∧
  _bkg s = _bkg self ∧
  _do_save_data s = _do_save_data self ∧
  (∀ l0 c, heap self !! l0 = Some c → heap s !! l0 = Some c).

(** *** Sample states and batches *)

(** A controller with a UI and one 0D viewer, nothing acquired yet. *)
Definition default_settings : Settings :=
  mk_settings false false 0 50 true false (Qc_of_Z 0) 1.

Definition viewer_with_ui : DAQ_Viewer :=
  mk_viewer "Testing" (Some (mk_ui false [Data0D])) [Data0D] [Data0D] default_settings
    false false false false (Qc_of_Z 0) 0 None None None false false 0 [].

(** The same controller without a UI. *)
Definition viewer_without_ui : DAQ_Viewer :=
  mk_viewer "Testing" None [] [] default_settings
    false false false false (Qc_of_Z 0) 0 None None None false false 0 [].

(** A batch made of one 0D data object with one channel of value [v]. *)
Definition batch0D (v : Z) : list DataFromPlugins :=
  [mk_dfp "CH0" Data0D "" [[Qc_of_Z v]]].

(** Signals that neither report an export, nor hand data to a viewer, nor
    log an exception. *)
Definition internal (s : vsignal) : bool :=
  match s with
  | command_tcpip _ | overshoot_signal _ | ui_update_viewers _ => true
  | _ => false
  end.

(** The exception logged by [show_data]'s handler is among the outputs. *)
Definition raised (out : list vsignal) : bool :=
  existsb (λ s, bool_decide (s = viewer_logger_exception)) out.

(** The exports handed to saving ([_save_data]) by one call. *)
Definition saved (out : list vsignal) : list (nat * option DataToExport) :=
  omap (λ s, match s with save_data l d => Some (l, d) | _ => None end) out.

(** ** Further definitions *)

(** The events of a snap answered by the plugin: each sample is delivered
    and [processEvents()] returns. *)
Definition answered (samples : list (list DataFromPlugins)) : list event :=
  s ← samples; [deliver_data s; events_done].

(** The number of [detector.grab_data] requests among some outputs. *)
Definition requests (out : list signal) : nat :=
  length (filter (λ s, is_grab_request s = true) out).


(** The events of a plugin that streams: one callback after the other,
    without [processEvents()] returning in between. *)
Definition streamed (samples : list (list DataFromPlugins)) : list event :=
  deliver_data <$> samples.



(** *** Data objects that answer the subscript

    Plugins written before [DataFromPlugins] hand over dictionaries, on
    which [dat['data']] gives the list of arrays and the assignment
    replaces it.  The two definitions below say that the foreign code
    behaves that way, and that its arithmetic does not round. *)

Definition subscripts_answer `{Foreign} : Prop :=
  (∀ p, getitem_data p = Some (dfp_data p)) ∧
  (∀ p d, setitem_data p d = Some (with_data p d)).

Definition arithmetic_exact `{Foreign} : Prop :=
  (∀ c a, np_mul c a = Some (exact_scale (Qc_of_Z c) a)) ∧
  (∀ a b, np_add a b = exact_add a b) ∧
  (∀ a c, np_truediv a c = Some (exact_div a (Qc_of_Z c))) ∧
  (∀ channel value, np_any_ge channel value = Some (exact_any_ge channel value)).

(** Such foreign code, to evaluate the embedding on examples. *)
Definition dict_ops : Foreign :=
  {| getitem_data := λ p, Some (dfp_data p);
     setitem_data := λ p d, Some (with_data p d);
     np_mul := λ c a, Some (exact_scale (Qc_of_Z c) a);
     np_add := exact_add;
     np_truediv := λ a c, Some (exact_div a (Qc_of_Z c));
     np_any_ge := λ channel value, Some (exact_any_ge channel value);
     dte_average := spec_average;
     dte_subtract := spec_subtract |}.

(** The shape of a batch: the lengths of the arrays of each data object. *)
Definition shape (b : batch) : list (list nat) :=
  (λ p, length <$> dfp_data p) <$> b.

(** The incremental formula on two arrays of the same length, and on two
    data objects of the same shape (closed forms used by the proofs). *)
Definition mean2 (n : Z) (old new : array) : array :=
  zip_with (λ o x, (Qc_of_Z (n - 1) * o + x) / Qc_of_Z n)%Qc old new.

Definition panel_mean (n : Z) (p q : DataFromPlugins) : DataFromPlugins :=
  with_data p (zip_with (mean2 n) (dfp_data p) (dfp_data q)).

(** The arrays of a batch that hold a value at or above [value]. *)
Definition overshooting (value : Qc) (data : list DataFromPlugins) : list array :=
  filter (λ channel, exact_any_ge channel value = true) (data ≫= dfp_data).

(** ** Properties of the worker's [data_ready] *)

Section Averaging.

Context `{ops : Foreign}.

(** What [data_ready] does to the fields of a software-averaging worker,
    whatever the shape of the incoming batch. *)
Lemma data_ready_software (self : DAQ_Detector) (new : batch) :
  hardware_averaging self = false →
  let reached := bool_decide (Some (ind_average self + 1) = Naverage self) in
  ∃ d' out,
    data_ready self new
    = (mk_detector false (grab_state self) (single_grab self) d'
         (if reached then 0 else ind_average self + 1) (Naverage self)
         (if reached then true else average_done self)
         false (show_averaging self) (wait_time self) (live_mode_available self),
       out ++ (if grab_state self then [] else [detector_stop])) ∧
    emitted out = (if reached then [d'] else []) ∧
    existsb is_grab_request out = false ∧
    detector_stop ∉ out.
Proof.
  intros Hhw reached. subst reached.
  destruct self as [wfd gs sg dd ia Na ad hw sa wt lm]. simpl in *. subst hw.
  unfold data_ready. cbn [hardware_averaging negb set_ind_average ind_average
    waiting_for_data grab_state single_grab datas Naverage average_done
    show_averaging wait_time live_mode_available].
  assert (Hin : ∀ (a b : signal) l, a ≠ b → a ∉ l → a ∉ l ++ [b]).
  { intros a b l Hab Hl Hx. apply elem_of_app in Hx as [Hx|Hx]; [done|].
    apply elem_of_cons in Hx as [Hx|Hx]; [done|]. by apply elem_of_nil in Hx. }
  assert (Hfin : ∀ (d' : option batch) (pre : list signal),
    existsb is_grab_request pre = false → detector_stop ∉ pre → emitted pre = [] →
    ∃ d'' out,
      (let '(self, out0) :=
         if decide (Some (ia + 1) = Na)
         then (set_ind_average 0 (set_average_done true
                 (mk_detector wfd gs sg d' (ia + 1) Na ad false sa wt lm)),
               pre ++ [data_detector_sig d'])
         else (mk_detector wfd gs sg d' (ia + 1) Na ad false sa wt lm, pre)
       in (set_waiting_for_data false self,
           out0 ++ (if grab_state self then [] else [detector_stop])))
      = (mk_detector false gs sg d''
           (if bool_decide (Some (ia + 1) = Na) then 0 else ia + 1) Na
           (if bool_decide (Some (ia + 1) = Na) then true else ad) false sa wt lm,
         out ++ (if gs then [] else [detector_stop])) ∧
      emitted out = (if bool_decide (Some (ia + 1) = Na) then [d''] else []) ∧
      existsb is_grab_request out = false ∧ detector_stop ∉ out).
  { intros d' pre Hp1 Hp2 Hp3.
    case_bool_decide as Hn; [rewrite decide_True by done|rewrite decide_False by done].
    - exists d', (pre ++ [data_detector_sig d']). split; [reflexivity|].
      unfold emitted in *. rewrite omap_app, Hp3, existsb_app, Hp1.
      repeat split; try done. by apply Hin.
    - exists d', pre. by split. }
  destruct (decide (ia + 1 = 1)) as [E|E]; cbn [set_datas set_ind_average ind_average
    waiting_for_data grab_state single_grab datas Naverage average_done
    hardware_averaging show_averaging wait_time live_mode_available].
  - apply (Hfin (Some new) []); [done|apply not_elem_of_nil|done].
  - destruct (average_loop (ia + 1) 0 new dd) as [held [|]] eqn:El;
      cbn [set_datas set_ind_average ind_average
        waiting_for_data grab_state single_grab datas Naverage average_done
        hardware_averaging show_averaging wait_time live_mode_available].
    + apply (Hfin held [logger_exception]); [done| |done].
      apply not_elem_of_cons; split; [done|apply not_elem_of_nil].
    + destruct sa.
      * apply (Hfin held [data_detector_temp_sig held]); [done| |done].
        apply not_elem_of_cons; split; [done|apply not_elem_of_nil].
      * apply (Hfin held []); [done|apply not_elem_of_nil|done].
Qed.

Lemma emitted_app (o1 o2 : list signal) : emitted (o1 ++ o2) = emitted o1 ++ emitted o2.
Proof. unfold emitted. apply omap_app. Qed.

Lemma requests_app (o1 o2 : list signal) :
  requests (o1 ++ o2) = (requests o1 + requests o2)%nat.
Proof. unfold requests. by rewrite filter_app, length_app. Qed.

Lemma no_request_filter (o : list signal) :
  existsb is_grab_request o = false → requests o = 0%nat.
Proof.
  unfold requests. induction o as [|s o IH]; [done|]. simpl. intros H.
  apply orb_false_iff in H as [Hs Ho]. rewrite filter_cons, decide_False by congruence.
  by apply IH.
Qed.

(** With subscripts that raise, the averaging loop raises in its first turn
    and leaves the data held by the worker as they are. *)
Lemma average_loop_raises (n : Z) (indpannel : nat) (new : batch) (held : option batch) :
  (∀ p, getitem_data p = None) →
  average_loop n indpannel new held = (held, bool_decide (new ≠ [])).
Proof.
  intros Hraise. destruct new as [|dic rest]; [done|].
  simpl. unfold averaged_channels. rewrite Hraise. reflexivity.
Qed.

(** What one callback does to such a worker. *)
Lemma data_ready_raising (self : DAQ_Detector) (new : batch) :
  (∀ p, getitem_data p = None) →
  hardware_averaging self = false →
  datas (fst (data_ready self new))
  = (if decide (ind_average self + 1 = 1) then Some new else datas self).
Proof.
  intros Hraise Hhw. destruct self as [wfd gs sg dd ia Na ad hw sa wt lm].
  simpl in *. subst hw. unfold data_ready. simpl.
  destruct (decide (ia + 1 = 1)); simpl.
  - by case_decide.
  - rewrite average_loop_raises by done.
    case_bool_decide; simpl; [by case_decide|].
    destruct sa; simpl; by case_decide.
Qed.

Lemma data_ready_all_counts (samples : list batch) :
  ∀ (self : DAQ_Detector) (N : Z),
    hardware_averaging self = false →
    Naverage self = Some N →
    0 ≤ ind_average self →
    ind_average self + Z.of_nat (length samples) = N →
    samples ≠ [] →
    ∃ self' outs,
      data_ready_all self samples = (self', outs) ∧
      emitted <$> outs = replicate (length samples - 1) [] ++ [[datas self']] ∧
      ind_average self' = 0 ∧
      average_done self' = true ∧
      Forall (λ out, requests out = 0%nat) outs.
Proof.
  induction samples as [|s rest IH]; intros self N Hhw HN Hk Hlen Hne; [done|].
  destruct (data_ready_software self s Hhw) as (d' & out & Hrun & Hem & Hrq & _).
  assert (Hreq : requests (out ++ (if grab_state self then [] else [detector_stop])) = 0%nat).
  { rewrite requests_app, (no_request_filter _ Hrq). by destruct (grab_state self). }
  assert (Hemit : emitted (out ++ (if grab_state self then [] else [detector_stop]))
                  = emitted out).
  { rewrite emitted_app. destruct (grab_state self); simpl; by rewrite app_nil_r. }
  simpl. rewrite Hrun. rewrite HN in *.
  destruct rest as [|s' rest].
  - simpl in *. rewrite bool_decide_eq_true_2 in * by (f_equal; lia).
    eexists _, _. split; [reflexivity|]. simpl. rewrite Hemit, Hem.
    repeat split; try done. by constructor.
  - rewrite bool_decide_eq_false_2 in *
      by (intros [= E]; simpl in Hlen; lia).
    destruct (IH (mk_detector false (grab_state self) (single_grab self) d'
                    (ind_average self + 1) (Some N) (average_done self) false
                    (show_averaging self) (wait_time self) (live_mode_available self)) N)
      as (self' & outs & Hall & Houts & Hi & Ha & Hr); try done.
    + simpl. lia.
    + simpl in *. lia.
    + rewrite Hall. eexists _, _. split; [reflexivity|].
      rewrite fmap_cons, Houts, Hemit, Hem.
      repeat split; try done; [|by constructor].
      simpl. by rewrite Nat.sub_0_r.
Qed.

End Averaging.

(** C1, evaluated where the code departs from it.  A software-averaging
    worker in a snap with target 2 receives the batches [1] and [3], data
    objects whose subscript ['data'] raises.  The first callback stores its batch.
    The second one enters the averaging loop, which raises at its first
    subscript: the exception is logged, the stored batch stays as it is,
    and, the target being reached, it is emitted.  The single emission of
    the cycle therefore carries [1], the first sample, whereas the
    arithmetic mean of the two samples is [2]; the counter is back to 0. *)
Theorem software_average_emits_first_sample :
  let self0 := worker (fst (@step spec_ops (idle_thread 0 false)
                              (deliver_command (single 2)))) in
  let r := @data_ready_all spec_ops self0 [batch0D 1; batch0D 3] in
  snd r = [[]; [logger_exception; data_detector_sig (Some (batch0D 1))]] ∧
  arithmetic_mean [batch0D 1; batch0D 3] = Some (batch0D 2) ∧
  ind_average (fst r) = 0 ∧
  average_done (fst r) = true.
Proof.
  cbv zeta. apply (bool_decide_unpack _). vm_compute. exact I.
Qed.

(** ** Properties of the acquisition loop *)

Section Loop.

Context `{ops : Foreign}.

Lemma data_ready_grab_state (self : DAQ_Detector) (d : batch) :
  grab_state (fst (data_ready self d)) = grab_state self.
Proof.
  destruct self as [wfd gs sg dd ia Na ad hw sa wt lm]. unfold data_ready. simpl.
  destruct hw; simpl; [reflexivity|].
  case_decide; simpl.
  - case_decide; reflexivity.
  - destruct (average_loop _ _ _ _) as [held [|]]; simpl.
    + case_decide; reflexivity.
    + destruct sa; simpl; case_decide; reflexivity.
Qed.

Lemma data_ready_no_request (self : DAQ_Detector) (d : batch) :
  existsb is_grab_request (snd (data_ready self d)) = false.
Proof.
  destruct self as [wfd gs sg dd ia Na ad hw sa wt lm]. unfold data_ready. simpl.
  destruct hw; simpl; [by destruct gs|].
  case_decide; simpl.
  - case_decide; simpl; by destruct gs.
  - destruct (average_loop _ _ _ _) as [held [|]]; simpl.
    + case_decide; simpl; by destruct gs.
    + destruct sa; simpl; case_decide; simpl; by destruct gs.
Qed.

Lemma data_ready_clears_waiting (self : DAQ_Detector) (d : batch) :
  waiting_for_data (fst (data_ready self d)) = false.
Proof.
  destruct self as [wfd gs sg dd ia Na ad hw sa wt lm]. unfold data_ready. simpl.
  destruct hw; simpl; [reflexivity|].
  case_decide; simpl.
  - case_decide; reflexivity.
  - destruct (average_loop _ _ _ _) as [held [|]]; simpl.
    + case_decide; reflexivity.
    + destruct sa; simpl; case_decide; reflexivity.
Qed.

(** With the grabbing flag cleared, every path through the loop tail ends
    in a [break], and none of them asks the hardware for data. *)
Lemma loop_tail_stopped (self : DAQ_Detector) :
  grab_state self = false →
  fst (loop_tail self) = true ∧ existsb is_grab_request (snd (loop_tail self)) = false.
Proof.
  intros Hg. unfold loop_tail.
  destruct (single_grab self), (hardware_averaging self), (average_done self);
    simpl; rewrite ?Hg; simpl; done.
Qed.

Lemma quiet_step (m : Thread) (e : event) :
  quiet e = true →
  grab_state (worker m) = false →
  stack (fst (step m e)) = stack m ∧
  grab_state (worker (fst (step m e))) = false ∧
  existsb is_grab_request (snd (step m e)) = false.
Proof.
  intros Hq Hg. destruct e as [[]| |]; try discriminate; simpl.
  - done.
  - done.
  - done.
  - pose proof (data_ready_grab_state (worker m) d) as H1.
    pose proof (data_ready_no_request (worker m) d) as H2.
    destruct (data_ready (worker m) d) as [self out]. simpl in *.
    by rewrite H1.
Qed.

Lemma quiet_run (es : list event) :
  ∀ m : Thread,
    forallb quiet es = true →
    grab_state (worker m) = false →
    stack (fst (run m es)) = stack m ∧
    grab_state (worker (fst (run m es))) = false ∧
    existsb is_grab_request (snd (run m es)) = false.
Proof.
  induction es as [|e es IH]; intros m Hq Hg; [done|].
  simpl in Hq. apply andb_prop in Hq as [Hq Hqs].
  destruct (quiet_step m e Hq Hg) as (Hs & Hg' & Hr).
  simpl. destruct (step m e) as [m1 out]. simpl in *.
  destruct (IH m1 Hqs Hg') as (Hs1 & Hg1 & Hr1).
  destruct (run m1 es) as [m2 outs]. simpl in *.
  rewrite existsb_app, Hr, Hr1. split; [congruence|done].
Qed.

Lemma run_app (es1 es2 : list event) (m : Thread) :
  run m (es1 ++ es2)
  = (fst (run (fst (run m es1)) es2), snd (run m es1) ++ snd (run (fst (run m es1)) es2)).
Proof.
  revert m. induction es1 as [|e es1 IH]; intros m; simpl.
  - by destruct (run m es2).
  - destruct (step m e) as [m1 out]. rewrite IH.
    destruct (run m1 es1) as [m2 out2]. simpl. by rewrite app_assoc.
Qed.

End Loop.

(** C4. While a [grab_data] loop is suspended in [processEvents()], once
    [stop_grab] has been processed (followed by any callbacks and commands
    that do not start a new grab), the loop breaks as soon as
    [processEvents()] returns: its activation is removed, [grab_stopped] is
    reported, and from the processing of [stop_grab] on the plugin receives
    no [grab_data] request. *)
Theorem stop_grab_ends_loop `{ops : Foreign}
    (m : Thread) (f : frame) (rest : list activation) (es : list event) :
  stack m = in_grab_data f :: rest →
  forallb quiet es = true →
  ∃ m' out,
    run m (deliver_command stop_grab :: es ++ [events_done]) = (m', out) ∧
    stack m' = rest ∧
    existsb is_grab_request out = false ∧
    last out = Some (status_sig "grab_stopped").
Proof.
  intros Hst Hq.
  set (m1 := mk_thread (set_grab_state false (worker m)) (stack m) (outstanding m)).
  assert (Hg1 : grab_state (worker m1) = false) by (by destruct m as [[] ? ?]).
  destruct (quiet_run es m1 Hq Hg1) as (Hs2 & Hg2 & Hr2).
  change (run m (deliver_command stop_grab :: es ++ [events_done]))
    with (let '(m0, outs) := run m1 (es ++ [events_done]) in
          (m0, [status_sig "Update_Status"] ++ outs)).
  rewrite run_app.
  destruct (run m1 es) as [m2 out2]. simpl in Hs2, Hg2, Hr2.
  cbn [fst snd run].
  assert (Hst2 : stack m2 = in_grab_data f :: rest) by (by rewrite Hs2).
  destruct (loop_tail_stopped (worker m2) Hg2) as (Hb & Hr3).
  unfold step. rewrite Hst2.
  destruct (loop_tail (worker m2)) as [brk out3]. simpl in Hb, Hr3. subst brk.
  eexists _, _. split; [reflexivity|]. simpl. split; [done|]. split.
  - rewrite !existsb_app, Hr2, Hr3. reflexivity.
  - rewrite app_nil_r, !app_assoc.
    change (last ((status_sig "Update_Status" :: out2 ++ out3) ++ [status_sig "grab_stopped"])
            = Some (status_sig "grab_stopped")).
    apply last_snoc.
Qed.

(** Witness of C4: a live loop waiting for data receives [stop_grab], then a
    late callback, and [processEvents()] returns. *)
Lemma stop_grab_ends_loop_witness :
  let m := fst (step (idle_thread 0 false) (deliver_command (grab 1))) in
  ∃ m' out,
    run m (deliver_command stop_grab :: [deliver_data []] ++ [events_done]) = (m', out) ∧
    stack m' = [] ∧
    existsb is_grab_request out = false ∧
    last out = Some (status_sig "grab_stopped").
Proof.
  apply (stop_grab_ends_loop _ (mk_frame 1 true 0) [] [deliver_data []]); reflexivity.
Defined.

Section InFlight.

Context `{ops : Foreign}.

Lemma loop_head_in_flight (f : frame) (self : DAQ_Detector) (n : nat) :
  (n ≤ 1)%nat → (waiting_for_data self = false → n = 0%nat) →
  let '(self', out) := loop_head f self in
  (n + length out ≤ 1)%nat ∧
  (waiting_for_data self' = false → (n + length out)%nat = 0%nat).
Proof.
  intros Hn Hw. unfold loop_head.
  destruct self as [[|] gs sg dd ia Na ad hw sa wt lm]; simpl in *.
  - split; [lia|]. intros E; discriminate.
  - rewrite (Hw eq_refl). simpl. split; [lia|]. intros E; discriminate.
Qed.

Lemma step_in_flight (m : Thread) (e : event) :
  no_regrab m e = true → one_in_flight m → one_in_flight (fst (step m e)).
Proof.
  intros Hok [Hn Hw]. unfold one_in_flight.
  destruct e as [[N|N| | |t|name]|d|]; simpl in *.
  - apply bool_decide_eq_true_1 in Hok. rewrite Hok.
    unfold enter_loop, grab_data_enter, loop_head. simpl.
    split; [lia|]. intros E; discriminate.
  - apply bool_decide_eq_true_1 in Hok. rewrite Hok.
    unfold enter_loop, grab_data_enter, loop_head. simpl.
    split; [lia|]. intros E; discriminate.
  - done.
  - done.
  - done.
  - done.
  - pose proof (data_ready_clears_waiting (worker m) d) as Hc.
    destruct (data_ready (worker m) d) as [self out]. simpl in *. lia.
  - destruct (stack m) as [|[f|] rest]; simpl; [done| |done].
    destruct (loop_tail (worker m)) as [[|] out]; simpl; [done|].
    pose proof (loop_head_in_flight f (worker m) (outstanding m) Hn Hw) as Hh.
    destruct (loop_head f (worker m)) as [self out2]. simpl. exact Hh.
Qed.

End InFlight.

(** C3 (as amended). Starting with no request outstanding, and as long as no
    [grab] or [single] command is dispatched while a request is outstanding,
    every state of the worker thread has at most one hardware request in
    flight, and a request is in flight only while [waiting_for_data] is set:
    the loop sets the flag only when it is clear and [data_ready] clears it. *)
Theorem at_most_one_request_in_flight `{ops : Foreign} (m : Thread) (es : list event) :
  outstanding m = 0%nat →
  along no_regrab m es = true →
  Forall one_in_flight (states m es).
Proof.
  intros H0 Hok.
  assert (Hinv : one_in_flight m) by (split; [lia|done]).
  clear H0. revert m Hok Hinv.
  induction es as [|e es IH]; intros m Hok Hinv; simpl.
  - by constructor.
  - simpl in Hok. apply andb_prop in Hok as [He Hes].
    constructor; [done|]. apply IH; [done|]. by apply step_in_flight.
Qed.

(** Witness of C3: a live grab answered twice by the hardware, then stopped. *)
Lemma at_most_one_request_in_flight_witness :
  Forall one_in_flight
    (states (idle_thread 0 false)
       [deliver_command (grab 1); deliver_data []; events_done;
        deliver_data []; deliver_command stop_grab; events_done]).
Proof.
  apply (at_most_one_request_in_flight (idle_thread 0 false)); reflexivity.
Defined.

(** Counterexample to C3 as stated: [grab_data] clears [waiting_for_data] on
    entry, so after [grab], [stop_grab] and the end of the first loop, a
    second [grab] issues a request while the first one is still unanswered:
    two requests are outstanding and no [data_ready] ran in between. *)
Lemma regrab_overlaps_outstanding_request :
  let es := [deliver_command (grab 1); deliver_command stop_grab; events_done;
             deliver_command (grab 1)] in
  outstanding (idle_thread 0 false) = 0%nat ∧
  filter (λ s, is_grab_request s = true) (snd (run (idle_thread 0 false) es))
    = [detector_grab_data 1 true 0; detector_grab_data 1 true 0] ∧
  outstanding (fst (run (idle_thread 0 false) es)) = 2%nat ∧
  ¬ Forall (λ m, (outstanding m ≤ 1)%nat) (states (idle_thread 0 false) es).
Proof.
  intros es. repeat split; try reflexivity.
  intros H. rewrite Forall_forall in H.
  assert (Hm : (outstanding (fst (run (idle_thread 0 false) es)) ≤ 1)%nat).
  { apply H. apply list_elem_of_In. vm_compute. tauto. }
  vm_compute in Hm. lia.
Qed.

(** ** Properties of the initialisation *)

Section Initialisation.

Lemma initial_status_initialized : initial_status !! "initialized" = Some (VBool false).
Proof. reflexivity. Qed.

Lemma initial_status_controller : initial_status !! "controller" = None.
Proof. reflexivity. Qed.

(** Whatever the plugin does, [ini_detector] returns a status. *)
Lemma ini_detector_returns (plugin : Plugin) (self : DAQ_Detector) (controller : option nat) :
  ∃ s st, ini_detector plugin self controller = (s, returns st) ∧ st = status s.
Proof.
  unfold ini_detector, try_except.
  destruct (ini_detector_body plugin controller _) as [s [st|e]] eqn:E.
  - eexists _, _. split; [reflexivity|].
    revert E. unfold ini_detector_body, ini_bind, try_except, call, status_assign,
      status_set, status_update, status_get, ini_emit, ini_set_hardware_averaging,
      ini_ret, item.
    repeat (match goal with
            | |- context [match ?o with returns _ => _ | raises _ => _ end] => destruct o
            | |- context [match ?o with infos_edict _ => _ | infos_other _ _ => _ end] => destruct o
            | |- context [match ?o with Some _ => _ | None => _ end] => destruct o
            | |- context [if ?b then _ else _] => destruct b
            end; simpl);
      intros E; inversion E; reflexivity.
  - eexists _, _. split; reflexivity.
Qed.

End Initialisation.

(** C9 (as amended).  If plugin construction or the plugin's own
    initialiser raises, [ini_detector] still returns normally and the
    status it returns has [initialized = False].  What the status says
    about the controller depends on where the exception came from: when
    looking up or constructing the plugin raises, the status has no
    [controller] entry at all (the key is never written, reading it
    raises); when the plugin was constructed and its initialiser raises,
    the handler writes [controller = None]. *)
Theorem ini_detector_failure_is_a_status
    (plugin : Plugin) (self : DAQ_Detector) (controller : option nat) :
  (∃ e, class_ plugin = raises e) ∨
  (∃ e, detector_ini_detector plugin controller = raises e) →
  ∃ s st,
    ini_detector plugin self controller = (s, returns st) ∧
    st !! "initialized" = Some (VBool false) ∧
    ((∃ e, get_viewer_plugins plugin = raises e) ∨ (∃ e, class_ plugin = raises e) →
     st !! "controller" = None) ∧
    (get_viewer_plugins plugin = returns tt → class_ plugin = returns tt →
     st !! "controller" = Some VNone).
Proof.
  intros Hfail.
  destruct plugin as [lookup construct connect init ctrl hw]. simpl in Hfail.
  unfold ini_detector, ini_detector_body, try_except, ini_bind, call, status_assign,
    status_set, status_update, status_get, ini_emit, ini_set_hardware_averaging,
    ini_ret, item. simpl.
  destruct lookup as [[]|e0]; simpl.
  2: { eexists _, _. split; [reflexivity|]. simpl.
       split; [reflexivity|]. split; [done|]. intros [=]. }
  destruct construct as [[]|e1]; simpl.
  2: { eexists _, _. split; [reflexivity|]. simpl.
       split; [reflexivity|]. split; [done|]. intros _ [=]. }
  destruct Hfail as [[e He]|[e He]]; [discriminate|].
  rewrite He.
  destruct connect as [[]|e2]; simpl;
    destruct hw as [h|e3]; simpl;
    eexists _, _; (split; [reflexivity|]); simpl;
    (split; [reflexivity|]); (split; [|done]);
    intros [[? [=]]|[? [=]]].
Qed.

(** Witness of C9: a plugin whose initialiser raises. *)
Lemma ini_detector_failure_is_a_status_witness :
  let plugin := mk_plugin (returns tt) (returns tt) (returns tt)
                  (λ _, raises "no such device") (returns (VHandle 1)) (returns false) in
  ∃ s st,
    ini_detector plugin (worker (idle_thread 0 false)) None = (s, returns st) ∧
    st !! "initialized" = Some (VBool false) ∧
    ((∃ e, get_viewer_plugins plugin = raises e) ∨ (∃ e, class_ plugin = raises e) →
     st !! "controller" = None) ∧
    (get_viewer_plugins plugin = returns tt → class_ plugin = returns tt →
     st !! "controller" = Some VNone).
Proof.
  intros plugin. apply (ini_detector_failure_is_a_status plugin). right. eexists. reflexivity.
Defined.

(** Counterexample to C9 as stated: the constructor of the plugin raises.
    [ini_detector] returns a status that has [initialized = False] but no
    [controller] entry: the handle is not null, it is missing. *)
Lemma constructor_failure_leaves_no_controller_entry :
  let plugin := mk_plugin (returns tt) (raises "no such device") (returns tt)
                  (λ _, returns (infos_other None None)) (returns VNone) (returns false) in
  let st := status (fst (ini_detector plugin (worker (idle_thread 0 false)) None)) in
  snd (ini_detector plugin (worker (idle_thread 0 false)) None) = returns st ∧
  st !! "initialized" = Some (VBool false) ∧
  st !! "controller" = None ∧
  st !! "controller" ≠ Some VNone ∧
  dom st = {["initialized"; "info"; "x_axis"; "y_axis"]}.
Proof.
  cbv zeta. repeat split; try reflexivity; try discriminate.
Qed.

(** ** Properties of the controller *)

(** C8 (as amended). Whatever the mode, the controller's [grab_data] clears
    the completion flag (and the UI's [data_ready]) and sets the start
    timestamp to the current time; the count of received fragments is left
    as it was: it is [show_data] that resets it before handing data to the
    viewers. *)
Theorem grab_data_resets_cycle_bookkeeping
    (self : DAQ_Viewer) (now : Qc) (grab_state send_to_tcpip snap_state : bool) :
  let self' := fst (grab_data self now grab_state send_to_tcpip snap_state) in
  _grab_done self' = false ∧
  _start_grab_time self' = now ∧
  (ui_data_ready <$> ui self') = ((λ _, false) <$> ui self) ∧
  _received_data self' = _received_data self.
Proof.
  unfold grab_data. destruct snap_state, grab_state; simpl;
    (repeat split; try reflexivity); by destruct (ui self).
Qed.

(** Counterexample to C8 as stated: two fragments were counted in the last
    cycle; after [grab_data] the count is still 2, not 0. *)
Lemma grab_data_keeps_received_count :
  let self := set_received_data 2 viewer_with_ui in
  _received_data (fst (grab_data self (Qc_of_Z 7) false false true)) = 2 ∧
  _received_data (fst (grab_data self (Qc_of_Z 7) true false false)) = 2 ∧
  _received_data (fst (grab_data self (Qc_of_Z 7) false false false)) = 2.
Proof. repeat split; reflexivity. Qed.

Section Overshoot.

Context `{ops : Foreign}.

Lemma alerts_app (o1 o2 : list vsignal) : alerts (o1 ++ o2) = (alerts o1 + alerts o2)%nat.
Proof. unfold alerts. by rewrite filter_app, length_app. Qed.

(** With subscripts that raise, the overshoot check raises on the first
    data object, before any comparison. *)
Lemma process_overshoot_raises (self : DAQ_Viewer) (data : list DataFromPlugins) :
  (∀ p, getitem_data p = None) →
  stop_overshoot (settings self) = true →
  _process_overshoot self data = ([], bool_decide (data = [])).
Proof.
  intros Hraise Hen. unfold _process_overshoot. rewrite Hen.
  destruct data as [|p data]; [done|]. simpl. by rewrite Hraise.
Qed.

End Overshoot.

(** C5, evaluated where the code departs from it.  Overshoot checking is
    enabled with threshold 3 and the batch holds one 0D data object with
    the value 5, above the threshold.  [_process_overshoot] subscripts the
    data object with ['data'], which raises: no alert is fired.  In
    [show_data] the exception ends the call: it is logged, nothing is sent
    to the viewer, no export is built and none is reported. *)
Theorem overshoot_check_raises_without_alert :
  let self := set_settings (mk_settings false false 0 50 true true (Qc_of_Z 3) 1)
                viewer_with_ui in
  exact_any_ge [Qc_of_Z 5] (overshoot_value (settings self)) = true ∧
  @_process_overshoot spec_ops self (batch0D 5) = ([], false) ∧
  alerts (snd (@show_data spec_ops self (Qc_of_Z 0) (Qc_of_Z 0) (batch0D 5))) = 0%nat ∧
  snd (@show_data spec_ops self (Qc_of_Z 0) (Qc_of_Z 0) (batch0D 5))
  = [viewer_logger_exception] ∧
  _data_to_save_export (fst (@show_data spec_ops self (Qc_of_Z 0) (Qc_of_Z 0) (batch0D 5)))
  = None.
Proof.
  cbv zeta. apply (bool_decide_unpack _). vm_compute. exact I.
Qed.

Section LiveAveraging.

Context `{ops : Foreign}.

Lemma lookup_new_object (h : list DataToExport) (c : DataToExport) :
  (h ++ [c]) !! length h = Some c.
Proof. by rewrite list_lookup_middle. Qed.

Lemma lookup_old_object (h : list DataToExport) (c d : DataToExport) (l : nat) :
  h !! l = Some d → (h ++ [c]) !! l = Some d.
Proof. intros H. by apply lookup_app_l_Some. Qed.

(** The live-averaging block averages the export built from the incoming
    batch with a deep copy of that very export: whatever was stored by
    earlier calls does not enter the result. *)
Lemma live_averaging_block_current_only (self : DAQ_Viewer) (l : nat) (e : DataToExport) :
  live_averaging (settings self) = true →
  _data_to_save_export self = Some l →
  heap self !! l = Some e →
  1 ≤ _ind_continuous_grab self →
  ∀ self', live_averaging_block self = (self', true) →
    ∃ l' r, _data_to_save_export self' = Some l' ∧
            heap self' !! l' = Some r ∧
            dte_average e e (_ind_continuous_grab self + 1) = Some r ∧
            _ind_continuous_grab self' = _ind_continuous_grab self + 1.
Proof.
  intros Hl He Hh Hn self'. unfold live_averaging_block, deepcopy, new_object.
  rewrite Hl. simpl. rewrite He. simpl. rewrite Hh. simpl.
  rewrite decide_True by lia.
  rewrite He. simpl. rewrite (lookup_old_object (heap self) e e l Hh). simpl.
  rewrite lookup_new_object. simpl.
  destruct (dte_average e e _) as [r|] eqn:Er; simpl; [|discriminate].
  intros E. injection E as <-. simpl.
  exists (length (heap self ++ [e])), r. by rewrite lookup_new_object.
Qed.

End LiveAveraging.

(** C6, evaluated where the code departs from it (with the averaging
    method of the specification): live averaging is on, the batches [1] and
    then [3] arrive.  After the second call the stored export holds [3],
    the last batch, whereas the cumulative mean of the two batches is [2];
    the cycle counter went from 0 to 2. *)
Theorem live_averaging_keeps_last_batch :
  let self0 := set_settings (mk_settings false true 0 50 true false (Qc_of_Z 0) 1)
                 viewer_without_ui in
  let self1 := fst (@show_data spec_ops self0 (Qc_of_Z 0) (Qc_of_Z 0) (batch0D 1)) in
  let self2 := fst (@show_data spec_ops self1 (Qc_of_Z 1) (Qc_of_Z 1) (batch0D 3)) in
  (dte_data <$> (_data_to_save_export self2 ≫= (heap self2 !!.))) = Some (batch0D 3) ∧
  arithmetic_mean [batch0D 1; batch0D 3] = Some (batch0D 2) ∧
  _ind_continuous_grab self2 = 2.
Proof.
  cbv zeta. apply (bool_decide_unpack _). vm_compute. exact I.
Qed.

(** ** The pipeline of [show_data], block by block *)

Section Pipeline.

Context `{ops : Foreign}.

#[local] Arguments refresh_block : simpl never.
#[local] Arguments _process_overshoot : simpl never.
#[local] Arguments _init_show_data : simpl never.
#[local] Arguments live_averaging_block : simpl never.
#[local] Arguments take_bkg_block : simpl never.
#[local] Arguments display_block : simpl never.
#[local] Arguments show_data_finish : simpl never.
#[local] Arguments emit_grab_done : simpl never.

Lemma internal_app (o1 o2 : list vsignal) :
  forallb internal (o1 ++ o2) = forallb internal o1 && forallb internal o2.
Proof. induction o1 as [|s o1 IH]; simpl; [done|]. by rewrite IH, andb_assoc. Qed.

Lemma internal_quiet (out : list vsignal) :
  forallb internal out = true →
  grab_dones out = [] ∧ shown out = [] ∧ saved out = [] ∧ raised out = false.
Proof.
  induction out as [|s out IH]; [done|]. simpl. intros H.
  apply andb_prop in H as [Hs Ho]. destruct (IH Ho) as (H1 & H2 & H3 & H4).
  unfold grab_dones, shown, saved, raised in *. simpl.
  destruct s; try discriminate; simpl; rewrite ?H1, ?H2, ?H3, ?H4; done.
Qed.

Lemma overshoot_channels_internal (value : Qc) (channels : list array) :
  forallb internal (fst (overshoot_channels value channels)) = true.
Proof.
  induction channels as [|ch chs IH]; [done|]. simpl.
  destruct (np_any_ge ch value) as [b|]; [|done].
  destruct (overshoot_channels value chs) as [out ok]. simpl in *.
  by destruct b.
Qed.

Lemma process_overshoot_internal (self : DAQ_Viewer) (data : list DataFromPlugins) :
  forallb internal (fst (_process_overshoot self data)) = true.
Proof.
  unfold _process_overshoot. destruct (stop_overshoot _); [|done].
  induction data as [|p data IH]; [done|]. simpl.
  destruct (getitem_data p) as [arrays|]; [|done].
  pose proof (overshoot_channels_internal (overshoot_value (settings self)) arrays) as Hc.
  destruct (overshoot_channels _ arrays) as [out [|]]; [|done].
  destruct (overshoot_loop _ data) as [out' ok']. simpl in *.
  by rewrite internal_app, Hc, IH.
Qed.

(** [_init_show_data] only touches the UI, the viewers and their types,
    and does nothing when the overshoot check raises. *)
Lemma init_show_data_shape (self : DAQ_Viewer) (data : list DataFromPlugins) :
  ∃ u' vs' out,
    forallb internal out = true ∧
    (_init_show_data self data = (self, out, false) ∨
     _init_show_data self data
     = (set_viewers vs' (set_viewer_types (dfp_dim <$> data) (set_ui u' self)), out, true) ∧
     (is_Some u' ↔ is_Some (ui self)) ∧
     (ui self = None → vs' = _viewers self) ∧
     (∀ u, ui self = Some u → _viewers self = ui_viewer_types u →
           vs' = dfp_dim <$> data)).
Proof.
  pose proof (process_overshoot_internal self data) as Hint.
  unfold _init_show_data.
  destruct (_process_overshoot self data) as [out0 [|]]; simpl in Hint; cbn [negb].
  2: { exists (ui self), (_viewers self), out0. split; [done|]. by left. }
  destruct self as [ti u vs vt se gr db tb gd st rd bk cd de ds tcp icg hp].
  unfold update_viewers.
  cbn [ui set_viewer_types _viewer_types set_ui set_viewers fmap option_fmap option_map].
  destruct u as [u|].
  - case_decide as Hd.
    + eexists (Some _), _, _. split; cycle 1.
      * right. split; [reflexivity|]. split; [done|].
        split; [done|]. done.
      * by rewrite internal_app, Hint.
    + eexists (Some u), vs, _. split; cycle 1.
      * right. split; [reflexivity|].
        split; [done|]. split; [done|].
        intros u0 [= <-] Hc. simpl in Hc. subst vs.
        destruct (decide (ui_viewer_types u = dfp_dim <$> data)) as [E|E]; [exact E|].
        contradiction.
      * done.
  - eexists None, vs, _. split; cycle 1.
    + right. split; [reflexivity|].
      split; [by split; intros [? ?]|]. done.
    + done.
Qed.

Lemma live_averaging_block_off (self : DAQ_Viewer) :
  live_averaging (settings self) = false → live_averaging_block self = (self, true).
Proof. intros H. unfold live_averaging_block. by rewrite H. Qed.

Lemma take_bkg_block_off (self : DAQ_Viewer) :
  _take_bkg self = false → take_bkg_block self = (self, true).
Proof. intros H. unfold take_bkg_block. by rewrite H. Qed.

Lemma take_bkg_block_on (self : DAQ_Viewer) (l : nat) (e : DataToExport) :
  _take_bkg self = true →
  _data_to_save_export self = Some l →
  heap self !! l = Some e →
  take_bkg_block self
  = (set_take_bkg false
       (set_bkg (Some (length (heap self))) (set_heap (heap self ++ [e]) self)), true).
Proof.
  intros Ht Hl He. unfold take_bkg_block, deepcopy, new_object.
  rewrite Ht, Hl. simpl. rewrite He. reflexivity.
Qed.

Lemma refresh_block_shape (self : DAQ_Viewer) (now now' : Qc) :
  ∃ t, refresh_block self now now'
       = (set_start_grab_time t self, snd (refresh_block self now now)).
Proof.
  destruct self as [ti u vs vt se gr db tb gd st rd bk cd de ds tcp icg hp].
  unfold refresh_block. cbn [_grabing _start_grab_time settings set_start_grab_time].
  destruct gr; [|by exists st].
  destruct (bool_decide _); [by exists now' | by exists st].
Qed.

Lemma refresh_snd_eq (s s' : DAQ_Viewer) (now n1 n2 : Qc) :
  _grabing s = _grabing s' →
  _start_grab_time s = _start_grab_time s' →
  refresh_time (settings s) = refresh_time (settings s') →
  snd (refresh_block s now n1) = snd (refresh_block s' now n2).
Proof.
  intros Hg Ht Hr. unfold refresh_block. rewrite Hg, Ht, Hr.
  destruct (_grabing s'); [|done]. by destruct (bool_decide _).
Qed.

Lemma take_bkg_block_shape (self : DAQ_Viewer) (l : nat) (e : DataToExport) :
  _data_to_save_export self = Some l →
  heap self !! l = Some e →
  ∃ s1, take_bkg_block self = (s1, true) ∧
        (s1 = self ∨
         s1 = set_take_bkg false
                (set_bkg (Some (length (heap self))) (set_heap (heap self ++ [e]) self))).
Proof.
  intros Hl He. destruct (_take_bkg self) eqn:Ht.
  - eexists. split; [by apply (take_bkg_block_on self l e)|]. by right.
  - eexists. split; [by apply take_bkg_block_off|]. by left.
Qed.

Lemma set_data_to_viewers_from_quiet (vs : list DataDim) (data : list DataFromPlugins)
    (temp : bool) (ind : nat) :
  let out := fst (set_data_to_viewers_from vs ind data temp) in
  grab_dones out = [] ∧ saved out = [] ∧ raised out = false.
Proof.
  revert ind. induction data as [|d data IH]; intros ind; [done|].
  cbn [set_data_to_viewers_from]. destruct (vs !! ind); [|done].
  specialize (IH (S ind)). destruct (set_data_to_viewers_from vs (S ind) data temp) as [out ok].
  simpl in *. destruct IH as (H1 & H2 & H3).
  unfold grab_dones, saved, raised in *. destruct temp; simpl; by rewrite ?H1, ?H2, ?H3.
Qed.

Lemma set_data_to_viewers_from_all (vs : list DataDim) (data : list DataFromPlugins)
    (ind : nat) :
  (ind + length data ≤ length vs)%nat →
  ∃ out, set_data_to_viewers_from vs ind data false = (out, true) ∧ shown out = data.
Proof.
  revert ind. induction data as [|d data IH]; intros ind Hlen.
  - by exists [].
  - simpl in Hlen. cbn [set_data_to_viewers_from].
    destruct (lookup_lt_is_Some_2 vs ind) as [v Hv]; [lia|].
    rewrite Hv. destruct (IH (S ind)) as (out & -> & Hout); [lia|].
    eexists. split; [reflexivity|]. unfold shown in *. simpl. f_equal. exact Hout.
Qed.

(** The display branch allocates the object handed to the viewers and
    resets the count of received fragments; nothing else changes. *)
Lemma display_block_shape (self : DAQ_Viewer) (l : nat) (e : DataToExport) :
  _data_to_save_export self = Some l →
  heap self !! l = Some e →
  _bkg self ≠ Some l →
  ∃ h' out ok,
    display_block self = (set_heap h' (set_received_data 0 self), out, ok) ∧
    grab_dones out = [] ∧ saved out = [] ∧ raised out = false ∧
    h' !! l = Some e ∧
    (∀ l0 c, heap self !! l0 = Some c → _bkg self ≠ Some l0 → h' !! l0 = Some c).
Proof.
  intros Hl He Hbk.
  assert (Hlt : (l < length (heap self))%nat) by (by eapply lookup_lt_Some).
  destruct self as [ti u vs vt se gr db tb gd st rd bk cd de ds tcp icg hp].
  simpl in Hl, He, Hbk, Hlt. subst de.
  unfold display_block, deepcopy, new_object, set_data_to_viewers.
  cbn -[set_data_to_viewers_from]. rewrite He.
  cbn -[set_data_to_viewers_from].
  assert (Hkeep : ∀ l0 c, hp !! l0 = Some c → (hp ++ [e]) !! l0 = Some c)
    by (intros; by apply lookup_old_object).
  assert (Hplain : ∃ h' out ok,
    (match (hp ++ [e]) !! length hp with
     | Some p =>
         let '(out, ok) := set_data_to_viewers_from vs 0 (dte_data p) false in
         (mk_viewer ti u vs vt se gr db tb gd st 0 bk cd (Some l) ds tcp icg (hp ++ [e]),
          out, ok)
     | None =>
         (mk_viewer ti u vs vt se gr db tb gd st 0 bk cd (Some l) ds tcp icg (hp ++ [e]),
          [], false)
     end)
    = (mk_viewer ti u vs vt se gr db tb gd st 0 bk cd (Some l) ds tcp icg h',
       out, ok) ∧
    grab_dones out = [] ∧ saved out = [] ∧ raised out = false ∧
    h' !! l = Some e ∧
    (∀ l0 c, hp !! l0 = Some c → bk ≠ Some l0 → h' !! l0 = Some c)).
  { rewrite lookup_new_object.
    pose proof (set_data_to_viewers_from_quiet vs (dte_data e) false 0) as Hq.
    destruct (set_data_to_viewers_from vs 0 (dte_data e) false) as [out ok].
    exists (hp ++ [e]), out, ok. repeat split; try apply Hq; auto. }
  destruct bk as [lb|]; [|exact Hplain].
  destruct db; [|exact Hplain].
  assert (Hne : lb ≠ l) by congruence.
  rewrite lookup_new_object. cbn -[set_data_to_viewers_from].
  destruct ((hp ++ [e]) !! lb) as [b|] eqn:Eb; cbn -[set_data_to_viewers_from].
  2: { exists (hp ++ [e]), [], false. repeat split; auto. }
  destruct (dte_subtract e b) as [[r|] b']; cbn -[set_data_to_viewers_from].
  - assert (Hcopy : (<[length hp:=r]> (<[lb:=b']> (hp ++ [e]))) !! length hp = Some r).
    { apply list_lookup_insert_eq. rewrite length_insert, length_app. simpl. lia. }
    rewrite Hcopy.
    pose proof (set_data_to_viewers_from_quiet vs (dte_data r) false 0) as Hq.
    destruct (set_data_to_viewers_from vs 0 (dte_data r) false) as [out ok].
    eexists _, out, ok. split; [reflexivity|]. repeat split; try apply Hq.
    + rewrite !list_lookup_insert_ne by lia. auto.
    + intros l0 c Hc Hl0.
      assert (l0 < length hp)%nat by (by eapply lookup_lt_Some).
      rewrite !list_lookup_insert_ne by (try lia; congruence). auto.
  - eexists _, [], false. split; [reflexivity|]. repeat split; auto.
    + rewrite list_lookup_insert_ne by done. auto.
    + intros l0 c Hc Hl0. rewrite list_lookup_insert_ne by congruence. auto.
Qed.

Lemma refresh_block_snap (self : DAQ_Viewer) (now now' : Qc) :
  _grabing self = false → refresh_block self now now' = (self, true).
Proof. intros H. unfold refresh_block. by rewrite H. Qed.

Lemma set_data_to_viewers_from_ok (vs : list DataDim) (data : list DataFromPlugins)
    (ind : nat) (out : list vsignal) :
  set_data_to_viewers_from vs ind data false = (out, true) → shown out = data.
Proof.
  revert ind out. induction data as [|d data IH]; intros ind out; simpl.
  - by intros [= <-].
  - destruct (vs !! ind); [|discriminate].
    destruct (set_data_to_viewers_from vs (S ind) data false) as [out' ok] eqn:E.
    intros [= <- ->]. unfold shown in *. simpl. f_equal. by apply (IH (S ind)).
Qed.

(** The display branch without background subtraction. *)
Lemma display_block_plain (self : DAQ_Viewer) (l : nat) (e : DataToExport) :
  _data_to_save_export self = Some l →
  heap self !! l = Some e →
  _do_bkg self = false ∨ _bkg self = None →
  display_block self
  = (set_heap (heap self ++ [e]) (set_received_data 0 self),
     fst (set_data_to_viewers_from (_viewers self) 0 (dte_data e) false),
     snd (set_data_to_viewers_from (_viewers self) 0 (dte_data e) false)).
Proof.
  intros Hl He Hb.
  destruct self as [ti u vs vt se gr db tb gd st rd bk cd de ds tcp icg hp].
  simpl in Hl, He, Hb. subst de.
  unfold display_block, deepcopy, new_object, set_data_to_viewers.
  cbn -[set_data_to_viewers_from]. rewrite He. cbn -[set_data_to_viewers_from].
  assert (Hgoal :
    (match (hp ++ [e]) !! length hp with
     | Some p =>
         let '(out, ok) := set_data_to_viewers_from vs 0 (dte_data p) false in
         (mk_viewer ti u vs vt se gr db tb gd st 0 bk cd (Some l) ds tcp icg (hp ++ [e]),
          out, ok)
     | None =>
         (mk_viewer ti u vs vt se gr db tb gd st 0 bk cd (Some l) ds tcp icg (hp ++ [e]),
          [], false)
     end)
    = (mk_viewer ti u vs vt se gr db tb gd st 0 bk cd (Some l) ds tcp icg (hp ++ [e]),
       (set_data_to_viewers_from vs 0 (dte_data e) false).1,
       (set_data_to_viewers_from vs 0 (dte_data e) false).2)).
  { rewrite lookup_new_object. by destruct (set_data_to_viewers_from _ _ _ _). }
  destruct Hb as [-> | ->]; [destruct bk|]; exact Hgoal.
Qed.

(** The display branch with background subtraction: the difference is
    written into the copy made for the viewers, and the Background holds
    what [-=] left in its right operand. *)
Lemma display_block_subtract (self : DAQ_Viewer) (l lb : nat) (e b : DataToExport) :
  _data_to_save_export self = Some l →
  heap self !! l = Some e →
  _do_bkg self = true →
  _bkg self = Some lb →
  heap self !! lb = Some b →
  display_block self
  = match fst (dte_subtract e b) with
    | Some r =>
        (set_heap (<[lb := snd (dte_subtract e b)]> (heap self) ++ [r])
           (set_received_data 0 self),
         fst (set_data_to_viewers_from (_viewers self) 0 (dte_data r) false),
         snd (set_data_to_viewers_from (_viewers self) 0 (dte_data r) false))
    | None =>
        (set_heap (<[lb := snd (dte_subtract e b)]> (heap self) ++ [e])
           (set_received_data 0 self), [], false)
    end.
Proof.
  intros Hl He Hdb Hbk Hb.
  assert (Hlt : (lb < length (heap self))%nat) by (by eapply lookup_lt_Some).
  destruct self as [ti u vs vt se gr db tb gd st rd bk cd de ds tcp icg hp].
  simpl in Hl, He, Hdb, Hbk, Hb, Hlt. subst de db bk.
  unfold display_block, deepcopy, new_object, set_data_to_viewers.
  cbn -[set_data_to_viewers_from]. rewrite He. cbn -[set_data_to_viewers_from].
  rewrite lookup_new_object, (lookup_old_object hp e b lb Hb).
  destruct (dte_subtract e b) as [[r|] b']; cbn -[set_data_to_viewers_from].
  - rewrite insert_app_l by done.
    rewrite insert_app_r_alt by (rewrite length_insert; lia).
    rewrite length_insert, Nat.sub_diag. cbn -[set_data_to_viewers_from].
    assert (Hcopy : (<[lb:=b']> hp ++ [r]) !! length hp = Some r).
    { rewrite <- (length_insert hp lb b'). apply lookup_new_object. }
    rewrite Hcopy. by destruct (set_data_to_viewers_from _ _ _ _).
  - by rewrite insert_app_l.
Qed.

(** What the display branch does, in terms of the objects: the export is
    left alone, the viewers receive the data of the export or of the
    difference, and the Background holds what [-=] left in it. *)
Lemma display_block_outcome (self : DAQ_Viewer) (l : nat) (e : DataToExport) :
  _data_to_save_export self = Some l →
  heap self !! l = Some e →
  (∀ lb, _bkg self = Some lb → (lb < length (heap self))%nat ∧ lb ≠ l) →
  ∃ s' out ok,
    display_block self = (s', out, ok) ∧
    _data_to_save_export s' = Some l ∧ heap s' !! l = Some e ∧
    _bkg s' = _bkg self ∧ _take_bkg s' = _take_bkg self ∧
    _received_data s' = 0 ∧
    ui s' = ui self ∧ _viewers s' = _viewers self ∧ title s' = title self ∧
    _do_save_data s' = _do_save_data self ∧
    grab_dones out = [] ∧ saved out = [] ∧ raised out = false ∧
    (∀ l0 c, heap self !! l0 = Some c → _bkg self ≠ Some l0 → heap s' !! l0 = Some c) ∧
    (ok = true →
     match (if _do_bkg self then stored_background self else None) with
     | Some b =>
         ∃ r, fst (dte_subtract e b) = Some r ∧ shown out = dte_data r ∧
              stored_background s' = Some (snd (dte_subtract e b))
     | None => shown out = dte_data e ∧ stored_background s' = stored_background self
     end).
Proof.
  intros Hl He Hwf.
  assert (Hlt : (l < length (heap self))%nat) by (by eapply lookup_lt_Some).
  assert (Hq : ∀ x, let r := set_data_to_viewers_from (_viewers self) 0 (dte_data x) false in
               grab_dones (fst r) = [] ∧ saved (fst r) = [] ∧ raised (fst r) = false)
    by (intros x; apply set_data_to_viewers_from_quiet).
  assert (Hok : ∀ x, snd (set_data_to_viewers_from (_viewers self) 0 (dte_data x) false)
                     = true →
                shown (fst (set_data_to_viewers_from (_viewers self) 0 (dte_data x) false))
                = dte_data x).
  { intros x Hx. apply (set_data_to_viewers_from_ok (_viewers self) _ 0).
    rewrite <- Hx. by destruct (set_data_to_viewers_from _ _ _ _). }
  destruct (_do_bkg self) eqn:Hdb; [destruct (_bkg self) as [lb|] eqn:Hbk|].
  - destruct (Hwf lb eq_refl) as [Hlb Hne].
    destruct (lookup_lt_is_Some_2 (heap self) lb Hlb) as [b Hb].
    rewrite (display_block_subtract self l lb e b) by done.
    assert (Hsb : stored_background self = Some b)
      by (unfold stored_background; rewrite Hbk; exact Hb).
    rewrite Hsb.
    assert (Hkeep : ∀ x l0 c, heap self !! l0 = Some c → Some lb ≠ Some l0 →
               (<[lb:=snd (dte_subtract e b)]> (heap self) ++ [x]) !! l0 = Some c).
    { intros x l0 c Hc Hl0. apply lookup_old_object.
      rewrite list_lookup_insert_ne by congruence. done. }
    assert (Hnew : ∀ x, (<[lb:=snd (dte_subtract e b)]> (heap self) ++ [x]) !! lb
                        = Some (snd (dte_subtract e b))).
    { intros x. apply lookup_old_object. by apply list_lookup_insert_eq. }
    destruct (fst (dte_subtract e b)) as [r|] eqn:Er.
    + eexists _, _, _. split; [reflexivity|].
      destruct (Hq r) as (H1 & H2 & H3).
      destruct self. cbn in *. subst.
      split_and!; try done.
      all: try solve [ apply Hkeep; [done|congruence]
                     | intros l0 c Hc Hl0; by apply Hkeep ].
      intros Hx. exists r. split_and!; [done|by apply Hok|].
      unfold stored_background. cbn. apply Hnew.
    + eexists _, _, _. split; [reflexivity|].
      destruct self. cbn in *. subst.
      split_and!; try done.
      all: try solve [ apply Hkeep; [done|congruence]
                     | intros l0 c Hc Hl0; by apply Hkeep ].
  - rewrite (display_block_plain self l e) by (by try right).
    eexists _, _, _. split; [reflexivity|].
    destruct (Hq e) as (H1 & H2 & H3).
    assert (Hsb : stored_background self = None)
      by (unfold stored_background; by rewrite Hbk).
    destruct self. cbn in *. subst.
    split_and!; try done.
    all: try solve [ by apply lookup_old_object
                   | intros; by apply lookup_old_object ].
    intros Hx. split; [by apply Hok|]. unfold stored_background. cbn. done.
  - rewrite (display_block_plain self l e) by (by try left).
    eexists _, _, _. split; [reflexivity|].
    destruct (Hq e) as (H1 & H2 & H3).
    destruct self as [ti u vs vt se gr db tb gd st rd bk cd de ds tcp icg hp].
    cbn in *. subst.
    split_and!; try done.
    all: try solve [ by apply lookup_old_object
                   | intros; by apply lookup_old_object ].
    intros Hx. split; [by apply Hok|].
    unfold stored_background. cbn. destruct bk as [lb|]; [|done]. cbn.
    destruct (Hwf lb eq_refl) as [Hlb _].
    by rewrite lookup_app_l.
Qed.

(** The display path of the second half of [show_data]: the export stays
    open, nothing is reported on [grab_done_signal]; of the objects of the
    store only the Background can have been written. *)
Lemma show_data_finish_display (self : DAQ_Viewer) (now now' : Qc)
    (l : nat) (e : DataToExport) :
  displays self now = true →
  _data_to_save_export self = Some l →
  heap self !! l = Some e →
  _bkg self ≠ Some l →
  ∃ s' out,
    show_data_finish self now now' = (s', out) ∧
    _data_to_save_export s' = Some l ∧
    heap s' !! l = Some e ∧
    _received_data s' = 0 ∧
    grab_dones out = [] ∧ saved out = [] ∧
    ui s' = ui self ∧ _viewers s' = _viewers self ∧ title s' = title self ∧
    _do_save_data s' = _do_save_data self ∧
    _bkg s' ≠ Some l ∧
    (∀ l0 c, heap self !! l0 = Some c → _bkg s' ≠ Some l0 → heap s' !! l0 = Some c).
Proof.
  intros Hd Hl He Hbk.
  assert (Hlt : (l < length (heap self))%nat) by (by eapply lookup_lt_Some).
  destruct (take_bkg_block_shape self l e Hl He) as (s1 & Ht & Hs1).
  unfold show_data_finish. rewrite Ht. cbn [negb].
  destruct (refresh_block_shape s1 now now') as (t & ->).
  assert (Hguard : bool_decide (is_Some (ui (set_start_grab_time t s1)))
                   && show_data_setting (settings (set_start_grab_time t s1))
                   && snd (refresh_block s1 now now) = true).
  { unfold displays in Hd. rewrite <- Hd.
    destruct Hs1 as [-> | ->]; f_equal; by apply refresh_snd_eq. }
  rewrite Hguard.
  assert (Hl1 : _data_to_save_export (set_start_grab_time t s1) = Some l)
    by (by destruct Hs1 as [-> | ->]).
  assert (He1 : heap (set_start_grab_time t s1) !! l = Some e).
  { destruct Hs1 as [-> | ->]; [done|]. cbn. by apply lookup_old_object. }
  assert (Hbk1 : _bkg (set_start_grab_time t s1) ≠ Some l).
  { destruct Hs1 as [-> | ->]; [done|]. cbn. intros [=]. lia. }
  destruct (display_block_shape _ l e Hl1 He1 Hbk1)
    as (h' & out & ok & -> & Hg & Hsv & Hr & Hl' & Hkeep).
  eexists _, _. split; [reflexivity|].
  unfold grab_dones, saved in *. rewrite !omap_app, Hg, Hsv.
  destruct Hs1 as [-> | ->]; cbn in *; repeat split;
    try done; try (by destruct ok);
    try (intros l0 c Hc Hl0; apply Hkeep; [by try apply lookup_old_object|done]).
Qed.

(** The other path: the export is reported at once, as it was built. *)
Lemma show_data_finish_direct (self : DAQ_Viewer) (now now' : Qc)
    (l : nat) (e : DataToExport) :
  displays self now = false →
  _data_to_save_export self = Some l →
  heap self !! l = Some e →
  ∃ s' out,
    show_data_finish self now now' = (s', out) ∧
    _grab_done s' = true ∧
    grab_dones out = [(l, Some e)] ∧
    saved out = (if _do_save_data self then [(l, Some e)] else []) ∧
    raised out = false ∧
    _data_to_save_export s' = Some l ∧
    heap s' !! l = Some e.
Proof.
  intros Hd Hl He.
  destruct (take_bkg_block_shape self l e Hl He) as (s1 & Ht & Hs1).
  unfold show_data_finish. rewrite Ht. cbn [negb].
  destruct (refresh_block_shape s1 now now') as (t & ->).
  assert (Hguard : bool_decide (is_Some (ui (set_start_grab_time t s1)))
                   && show_data_setting (settings (set_start_grab_time t s1))
                   && snd (refresh_block s1 now now) = false).
  { unfold displays in Hd. rewrite <- Hd.
    destruct Hs1 as [-> | ->]; f_equal; by apply refresh_snd_eq. }
  rewrite Hguard.
  unfold emit_grab_done, _save_export_data.
  destruct self as [ti u vs vt se gr db tb gd st rd bk cd de ds tcp icg hp].
  simpl in Hl, He. subst de.
  destruct Hs1 as [-> | ->]; cbn.
  - rewrite He. destruct ds; eexists _, _; (split; [reflexivity|]); cbn; by rewrite ?He.
  - rewrite (lookup_old_object _ _ e) by done.
    destruct ds; eexists _, _; (split; [reflexivity|]); cbn;
      by rewrite ?(lookup_old_object _ _ e).
Qed.

Lemma displays_eq (s s' : DAQ_Viewer) (now : Qc) :
  (is_Some (ui s) ↔ is_Some (ui s')) →
  show_data_setting (settings s) = show_data_setting (settings s') →
  _grabing s = _grabing s' →
  _start_grab_time s = _start_grab_time s' →
  refresh_time (settings s) = refresh_time (settings s') →
  displays s now = displays s' now.
Proof.
  intros Hu Hs Hg Ht Hr. unfold displays.
  rewrite (bool_decide_ext _ _ Hu), Hs. f_equal. by apply refresh_snd_eq.
Qed.

(** The three possible outcomes of the live-averaging block. *)
Lemma live_averaging_block_shape (self : DAQ_Viewer) (l : nat) (e : DataToExport) :
  _data_to_save_export self = Some l →
  heap self !! l = Some e →
  let n := _ind_continuous_grab self in
  let sA :=
    set_ind_continuous_grab (n + 1)
      (set_current_data (Some (length (heap self)))
         (set_heap (heap self ++ [e])
            (set_settings (set_N_live_averaging n (settings self)) self))) in
  live_averaging_block self = (self, true) ∧ live_averaging (settings self) = false
  ∨ live_averaging_block self = (sA, true) ∧ live_averaging (settings self) = true
  ∨ live_averaging_block self = (sA, false)
  ∨ ∃ r, live_averaging_block self
         = (set_data_to_save_export (Some (S (length (heap self))))
              (set_heap (heap self ++ [e; r]) sA), true) ∧
         live_averaging (settings self) = true ∧
         dte_average e e (n + 1) = Some r.
Proof.
  intros Hl He n sA.
  destruct (live_averaging (settings self)) eqn:Hla.
  2: { left. split; [by apply live_averaging_block_off|done]. }
  right. unfold live_averaging_block, deepcopy, new_object. rewrite Hla.
  cbn. rewrite Hl. cbn. rewrite He. cbn. rewrite Hl. cbn.
  case_decide; [|by left].
  rewrite (lookup_old_object (heap self) e e l He). cbn.
  rewrite lookup_new_object. cbn. fold n.
  destruct (dte_average e e (n + 1)) as [r|] eqn:Er; [|by right; left].
  right; right. exists r. rewrite length_app, <- app_assoc. cbn.
  rewrite Nat.add_1_r. done.
Qed.

Lemma lookup_second_new (h : list DataToExport) (a b : DataToExport) :
  (h ++ [a; b]) !! S (length h) = Some b.
Proof.
  change [a; b] with ([a] ++ [b]). rewrite app_assoc.
  replace (S (length h)) with (length (h ++ [a])) by (rewrite length_app; cbn; lia).
  apply lookup_new_object.
Qed.

Lemma raised_app (o1 o2 : list vsignal) : raised (o1 ++ o2) = raised o1 || raised o2.
Proof. unfold raised. apply existsb_app. Qed.

Lemma grab_dones_app (o1 o2 : list vsignal) :
  grab_dones (o1 ++ o2) = grab_dones o1 ++ grab_dones o2.
Proof. unfold grab_dones. apply omap_app. Qed.

Lemma saved_app (o1 o2 : list vsignal) : saved (o1 ++ o2) = saved o1 ++ saved o2.
Proof. unfold saved. apply omap_app. Qed.

Lemma shown_app (o1 o2 : list vsignal) : shown (o1 ++ o2) = shown o1 ++ shown o2.
Proof. unfold shown. apply omap_app. Qed.

Lemma out_tcp_internal (self : DAQ_Viewer) (data : list DataFromPlugins) :
  forallb internal
    (if tcp_connected (settings self) && _send_to_tcpip self
     then [command_tcpip data] else []) = true.
Proof. by destruct (_ && _). Qed.

Lemma raised_pre_exception (pre : list vsignal) :
  raised (pre ++ [viewer_logger_exception]) = true.
Proof. rewrite raised_app. cbn. by rewrite orb_true_r. Qed.

(** The second half of [show_data] when nothing is raised, in terms of the
    objects: what the viewers receive, what is reported and saved, and what
    the export and the Background hold afterwards. *)
Lemma show_data_finish_outcome (self : DAQ_Viewer) (now now' : Qc)
    (l : nat) (e : DataToExport) :
  _data_to_save_export self = Some l →
  heap self !! l = Some e →
  (_take_bkg self = false →
   ∀ lb, _bkg self = Some lb → (lb < length (heap self))%nat ∧ lb ≠ l) →
  raised (snd (show_data_finish self now now')) = false →
  let bk := if _take_bkg self then Some e else stored_background self in
  ∃ s' out,
    show_data_finish self now now' = (s', out) ∧
    _take_bkg s' = false ∧
    _data_to_save_export s' = Some l ∧ heap s' !! l = Some e ∧
    (∀ lb, _bkg s' = Some lb → lb ≠ l) ∧
    ui s' = ui self ∧ _viewers s' = _viewers self ∧ title s' = title self ∧
    (if displays self now then
       _received_data s' = 0 ∧ _do_save_data s' = _do_save_data self ∧
       grab_dones out = [] ∧ saved out = [] ∧
       match (if _do_bkg self then bk else None) with
       | Some b =>
           ∃ r, fst (dte_subtract e b) = Some r ∧ shown out = dte_data r ∧
                stored_background s' = Some (snd (dte_subtract e b))
       | None => shown out = dte_data e ∧ stored_background s' = bk
       end
     else
       _grab_done s' = true ∧
       shown out = [] ∧ grab_dones out = [(l, Some e)] ∧
       saved out = (if _do_save_data self then [(l, Some e)] else []) ∧
       stored_background s' = bk).
Proof.
  intros Hl He Hwf Hr bk.
  assert (Hlt : (l < length (heap self))%nat) by (by eapply lookup_lt_Some).
  (* the state after the capture block *)
  assert (Hcap : ∃ s1, take_bkg_block self = (s1, true) ∧
    _take_bkg s1 = false ∧ _data_to_save_export s1 = Some l ∧ heap s1 !! l = Some e ∧
    (∀ lb, _bkg s1 = Some lb → (lb < length (heap s1))%nat ∧ lb ≠ l) ∧
    stored_background s1 = bk ∧
    ui s1 = ui self ∧ _viewers s1 = _viewers self ∧ title s1 = title self ∧
    _do_save_data s1 = _do_save_data self ∧ _do_bkg s1 = _do_bkg self ∧
    _grabing s1 = _grabing self ∧ _start_grab_time s1 = _start_grab_time self ∧
    settings s1 = settings self).
  { subst bk. destruct (_take_bkg self) eqn:Ht.
    - rewrite (take_bkg_block_on self l e Ht Hl He). eexists. split; [reflexivity|].
      destruct self. cbn in *.
      split_and!; try done.
      + by apply lookup_old_object.
      + intros lb [= <-]. rewrite length_app. simpl. lia.
      + unfold stored_background. cbn. apply lookup_new_object.
    - rewrite (take_bkg_block_off self Ht). exists self. split_and!; try done.
      by apply Hwf. }
  destruct Hcap as (s1 & Hcap & Ht1 & Hl1 & He1 & Hwf1 & Hbk1 & Hu1 & Hv1 & Hti1 &
                    Hds1 & Hdb1 & Hg1 & Hst1 & Hse1).
  unfold show_data_finish in *. rewrite Hcap in *. cbn [negb] in *.
  destruct (refresh_block_shape s1 now now') as (t & Hrf).
  rewrite Hrf in *.
  assert (Hguard : bool_decide (is_Some (ui (set_start_grab_time t s1)))
                   && show_data_setting (settings (set_start_grab_time t s1))
                   && snd (refresh_block s1 now now) = displays self now).
  { unfold displays. cbn. rewrite Hu1, Hse1. f_equal. apply refresh_snd_eq; congruence. }
  rewrite Hguard in *.
  set (s2 := set_start_grab_time t s1) in *.
  assert (Hs2 : _take_bkg s2 = false ∧ _data_to_save_export s2 = Some l ∧
                heap s2 = heap s1 ∧ _bkg s2 = _bkg s1 ∧ ui s2 = ui s1 ∧
                _viewers s2 = _viewers s1 ∧ title s2 = title s1 ∧
                _do_save_data s2 = _do_save_data s1 ∧ _do_bkg s2 = _do_bkg s1)
    by (subst s2; by destruct s1).
  destruct Hs2 as (Ht2 & Hl2 & Hh2 & Hb2 & Hu2 & Hv2 & Hti2 & Hds2 & Hdb2).
  assert (Hsb2 : stored_background s2 = bk)
    by (unfold stored_background in *; by rewrite Hb2, Hh2).
  destruct (displays self now).
  - assert (He2 : heap s2 !! l = Some e) by (by rewrite Hh2).
    assert (Hwf2 : ∀ lb, _bkg s2 = Some lb → (lb < length (heap s2))%nat ∧ lb ≠ l)
      by (rewrite Hb2, Hh2; exact Hwf1).
    destruct (display_block_outcome s2 l e Hl2 He2 Hwf2) as
      (s' & out & ok & Hdisp & H1 & H2 & H3 & H4 & H5 & H6 & H7 & H8 & H9 &
       H10 & H11 & H12 & _ & Hshown).
    rewrite Hdisp in *. cbn [snd] in Hr.
    assert (ok = true) as ->.
    { destruct ok; [done|]. by rewrite raised_pre_exception in Hr. }
    specialize (Hshown eq_refl).
    eexists _, _. split; [reflexivity|]. rewrite app_nil_r.
    rewrite Hdb2, Hsb2, Hdb1 in Hshown.
    split_and!; try congruence.
    intros lb Hlb. rewrite H3, Hb2 in Hlb. by apply Hwf1.
  - unfold emit_grab_done, _save_export_data in *.
    assert (Hgd : heap (set_grab_done true s2) !! l = Some e)
      by (destruct s2; cbn in *; congruence).
    assert (Hd2 : _data_to_save_export (set_grab_done true s2) = Some l)
      by (by destruct s2).
    rewrite Hd2 in *.
    assert (Hds' : _do_save_data (set_grab_done true s2) = _do_save_data self)
      by (destruct s2; cbn in *; congruence).
    rewrite Hds', Hgd in *.
    destruct (_do_save_data self); eexists _, _; (split; [reflexivity|]).
    + destruct s2. cbn in *. subst.
      split_and!; try done. intros lb Hlb. by apply Hwf1.
    + destruct s2. cbn in *. subst.
      split_and!; try done. intros lb Hlb. by apply Hwf1.
Qed.

(** [show_data] up to the live-averaging block, when nothing is raised:
    the overshoot check went through and the export was built. *)
Lemma show_data_unfold (self : DAQ_Viewer) (now now' : Qc) (data : list DataFromPlugins) :
  raised (snd (show_data self now now' data)) = false →
  ∃ u' vs' pre,
    forallb internal pre = true ∧
    (is_Some u' ↔ is_Some (ui self)) ∧
    (ui self = None → vs' = _viewers self) ∧
    (∀ u, ui self = Some u → _viewers self = ui_viewer_types u →
          vs' = dfp_dim <$> data) ∧
    show_data self now now' data
    = (let '(s, ok) := live_averaging_block (export_built self data u' vs') in
       if negb ok then (s, pre ++ [viewer_logger_exception]) else
       let '(s, out) := show_data_finish s now now' in (s, pre ++ out)).
Proof.
  unfold show_data.
  set (s0 := set_ui _ self).
  destruct (init_show_data_shape s0 data)
    as (u' & vs' & out_init & Hint & [-> | (-> & Hu & Hn & Hc)]).
  { cbn [negb snd]. intros Hr. exfalso.
    rewrite app_assoc, raised_pre_exception in Hr. discriminate. }
  intros _.
  exists u', vs', ((if tcp_connected (settings self) && _send_to_tcpip self
                    then [command_tcpip data] else []) ++ out_init).
  split; [by rewrite internal_app, out_tcp_internal, Hint|].
  split. { rewrite Hu. subst s0. cbn. by rewrite fmap_is_Some. }
  split. { intros Hnone. apply Hn. subst s0. cbn. by rewrite Hnone. }
  split. { intros u Hsome Hv. apply (Hc (mk_ui true (ui_viewer_types u))).
           - subst s0. cbn. by rewrite Hsome.
           - subst s0. cbn. exact Hv. }
  unfold new_object, export_built. cbn. fold s0.
  destruct (live_averaging_block _) as [s ok]. destruct ok; cbn.
  - destruct (show_data_finish s now now') as [s' out]. by rewrite <- !app_assoc.
  - by rewrite <- !app_assoc.
Qed.

(** [show_data] without an exception in its first half: it hands an open
    export to its second half. *)
Lemma show_data_cases (self : DAQ_Viewer) (now now' : Qc) (data : list DataFromPlugins) :
  raised (snd (show_data self now now' data)) = false →
  ∃ s3 l e pre,
    forallb internal pre = true ∧
    show_data self now now' data
    = (let '(s, out) := show_data_finish s3 now now' in (s, pre ++ out)) ∧
    _data_to_save_export s3 = Some l ∧
    heap s3 !! l = Some e ∧
    (length (heap self) ≤ l)%nat ∧
    carried_over self s3 ∧
    (∀ u, ui self = Some u → _viewers self = ui_viewer_types u →
          _viewers s3 = dfp_dim <$> data) ∧
    (live_averaging (settings self) = false → e = mk_dte (title self) data []).
Proof.
  intros Hr.
  destruct (show_data_unfold self now now' data Hr)
    as (u' & vs' & pre & Hpre & Hu & _ & Hc & Heq).
  rewrite Heq in Hr |- *. clear Heq.
  set (s2 := export_built self data u' vs') in *.
  set (e0 := mk_dte (title self) data []).
  assert (Hl2 : _data_to_save_export s2 = Some (length (heap self))) by done.
  assert (He2 : heap s2 !! length (heap self) = Some e0) by apply lookup_new_object.
  destruct (live_averaging_block_shape s2 _ e0 Hl2 He2)
    as [[Hb Hoff] | [[Hb Hon] | [Hb | (r & Hb & Hon & Hr')]]];
    rewrite Hb in Hr |- *; cbn [negb] in Hr |- *.
  - exists s2, (length (heap self)), e0, pre.
    repeat split; try done.
    all: try (cbn; apply Hu).
    all: intros l0 c Hc0; by apply lookup_old_object.
  - eexists _, (length (heap self)), e0, pre.
    split; [done|]. split; [reflexivity|].
    repeat split; try done.
    all: try (cbn; apply Hu).
    all: try (cbn; by apply lookup_old_object).
    all: try (cbn; intros l0 c Hc0; by do 2 apply lookup_old_object).
    all: cbn in Hon; congruence.
  - cbn in Hr. by rewrite raised_pre_exception in Hr.
  - eexists _, (S (length (heap s2))), r, pre.
    split; [done|]. split; [reflexivity|].
    repeat split; try done.
    all: try (cbn; apply Hu).
    all: try (cbn; apply lookup_second_new).
    all: try (cbn; rewrite length_app; cbn; lia).
    all: try (cbn; intros l0 c Hc0; change ([e0; r]) with ([e0] ++ [r]);
              rewrite !app_assoc; by do 3 apply lookup_old_object).
    all: cbn in Hon; congruence.
Qed.

Lemma carried_over_displays (self s : DAQ_Viewer) (now : Qc) :
  carried_over self s → displays s now = displays self now.
Proof.
  intros (Hu & _ & Hg & Ht & Hr & Hs & _). by apply displays_eq.
Qed.

(** [show_data] when nothing is raised, in terms of the objects. *)
Lemma show_data_outcome (self : DAQ_Viewer) (now now' : Qc) (data : list DataFromPlugins) :
  raised (snd (show_data self now now' data)) = false →
  (_take_bkg self = false → background_in_store self) →
  ∃ s1 out l e,
    show_data self now now' data = (s1, out) ∧
    _take_bkg s1 = false ∧
    _data_to_save_export s1 = Some l ∧ heap s1 !! l = Some e ∧
    (length (heap self) ≤ l)%nat ∧
    (∀ lb, _bkg s1 = Some lb → lb ≠ l) ∧
    (is_Some (ui s1) ↔ is_Some (ui self)) ∧ title s1 = title self ∧
    (∀ u, ui self = Some u → _viewers self = ui_viewer_types u →
          _viewers s1 = dfp_dim <$> data) ∧
    (live_averaging (settings self) = false → e = mk_dte (title self) data []) ∧
    let bk := if _take_bkg self then Some e else stored_background self in
    (if displays self now then
       _received_data s1 = 0 ∧ _do_save_data s1 = _do_save_data self ∧
       grab_dones out = [] ∧ saved out = [] ∧
       match (if _do_bkg self then bk else None) with
       | Some b =>
           ∃ r, fst (dte_subtract e b) = Some r ∧ shown out = dte_data r ∧
                stored_background s1 = Some (snd (dte_subtract e b))
       | None => shown out = dte_data e ∧ stored_background s1 = bk
       end
     else
       _grab_done s1 = true ∧
       shown out = [] ∧ grab_dones out = [(l, Some e)] ∧
       saved out = (if _do_save_data self then [(l, Some e)] else []) ∧
       stored_background s1 = bk).
Proof.
  intros Hr Hwf.
  destruct (show_data_cases self now now' data Hr)
    as (s3 & l & e & pre & Hpre & Heq & Hl & He & Hle & Hco & Hv & Hoff).
  rewrite Heq in Hr |- *. clear Heq.
  destruct (internal_quiet pre Hpre) as (Hg & Hsh & Hsv & Hrp).
  pose proof (carried_over_displays self s3 now Hco) as Hd3.
  destruct Hco as (Hu & Hti & _ & _ & _ & _ & Htb & Hdb & Hbk & Hds & Hh).
  assert (Hsb : _take_bkg self = false → stored_background s3 = stored_background self).
  { intros Ht. unfold stored_background. rewrite Hbk.
    destruct (_bkg self) as [lb|] eqn:Eb; [|done]. cbn.
    destruct (lookup_lt_is_Some_2 (heap self) lb (Hwf Ht lb Eb)) as [b Hb].
    rewrite Hb. by apply Hh. }
  assert (Hwf3 : _take_bkg s3 = false →
                 ∀ lb, _bkg s3 = Some lb → (lb < length (heap s3))%nat ∧ lb ≠ l).
  { rewrite Htb, Hbk. intros Ht lb Hlb. pose proof (Hwf Ht lb Hlb).
    apply lookup_lt_Some in He. lia. }
  assert (Hr3 : raised (snd (show_data_finish s3 now now')) = false).
  { destruct (show_data_finish s3 now now') as [s out]. cbn in *.
    rewrite raised_app in Hr. by apply orb_false_iff in Hr as [_ ?]. }
  destruct (show_data_finish_outcome s3 now now' l e Hl He Hwf3 Hr3)
    as (s1 & out & -> & H1 & H2 & H3 & H4 & H5 & H6 & H7 & Hout).
  exists s1, (pre ++ out), l, e. split; [done|].
  rewrite grab_dones_app, saved_app, shown_app, Hg, Hsh, Hsv. cbn [app].
  rewrite Hd3, Htb, Hdb, Hds in Hout.
  split_and!; try done.
  - by rewrite H5.
  - by rewrite H7.
  - intros u Hsome Hvs. rewrite H6. by apply (Hv u).
  - destruct (_take_bkg self) eqn:Ht; [exact Hout|].
    by rewrite (Hsb eq_refl) in Hout.
Qed.

(** [show_data] on the display path, when nothing was raised: the export
    is open, holds the batch, and nothing was reported or saved. *)
Lemma show_data_display (self : DAQ_Viewer) (now now' : Qc) (data : list DataFromPlugins) :
  displays self now = true →
  raised (snd (show_data self now now' data)) = false →
  (∀ lb, _bkg self = Some lb → (lb < length (heap self))%nat) →
  ∃ s' out l e,
    show_data self now now' data = (s', out) ∧
    _data_to_save_export s' = Some l ∧
    heap s' !! l = Some e ∧
    _received_data s' = 0 ∧
    grab_dones out = [] ∧ saved out = [] ∧
    is_Some (ui s') ∧
    title s' = title self ∧
    (live_averaging (settings self) = false → e = mk_dte (title self) data []) ∧
    (∀ l0 c, heap self !! l0 = Some c → _bkg s' ≠ Some l0 → heap s' !! l0 = Some c) ∧
    (∀ u, ui self = Some u → _viewers self = ui_viewer_types u →
          _viewers s' = dfp_dim <$> data).
Proof.
  intros Hd Hr Hwf.
  destruct (show_data_cases self now now' data Hr)
    as (s3 & l & e & pre & Hpre & Heq & Hl & He & Hle & Hco & Hv & Hoff).
  rewrite Heq. clear Heq.
  destruct (internal_quiet pre Hpre) as (Hg & _ & Hsv & Hrp).
  pose proof (carried_over_displays self s3 now Hco) as Hd3. rewrite Hd in Hd3.
  destruct Hco as (Hu & Ht & _ & _ & _ & _ & _ & _ & Hbk & _ & Hh).
  assert (Hbk3 : _bkg s3 ≠ Some l).
  { rewrite Hbk. intros Hb. apply Hwf in Hb. lia. }
  destruct (show_data_finish_display s3 now now' l e Hd3 Hl He Hbk3)
    as (s' & out & -> & H1 & H2 & H3 & H4 & H5 & H6 & H7 & H8 & _ & _ & H10).
  exists s', (pre ++ out), l, e. split; [done|].
  rewrite grab_dones_app, saved_app, Hg, Hsv, H4, H5, H6, H7, H8, Ht.
  repeat split; try done.
  - apply Hu. unfold displays in Hd. apply andb_prop in Hd as [Hd _].
    apply andb_prop in Hd as [Hd _]. by apply bool_decide_eq_true_1 in Hd.
  - intros l0 c Hc0 Hl0. apply H10; [by apply Hh|done].
Qed.

(** [show_data] on the other path, when nothing was raised: the export is
    reported at once, with no fragment when live averaging is off. *)
Lemma show_data_direct (self : DAQ_Viewer) (now now' : Qc) (data : list DataFromPlugins) :
  displays self now = false →
  raised (snd (show_data self now now' data)) = false →
  ∃ s' out l e,
    show_data self now now' data = (s', out) ∧
    _grab_done s' = true ∧
    grab_dones out = [(l, Some e)] ∧
    saved out = (if _do_save_data self then [(l, Some e)] else []) ∧
    _data_to_save_export s' = Some l ∧
    heap s' !! l = Some e ∧
    (live_averaging (settings self) = false → e = mk_dte (title self) data []).
Proof.
  intros Hd Hr.
  destruct (show_data_cases self now now' data Hr)
    as (s3 & l & e & pre & Hpre & Heq & Hl & He & Hle & Hco & Hv & Hoff).
  rewrite Heq. clear Heq.
  destruct (internal_quiet pre Hpre) as (Hg & _ & Hsv & Hrp).
  pose proof (carried_over_displays self s3 now Hco) as Hd3. rewrite Hd in Hd3.
  destruct Hco as (_ & _ & _ & _ & _ & _ & _ & _ & _ & Hds & _).
  destruct (show_data_finish_direct s3 now now' l e Hd3 Hl He)
    as (s' & out & -> & H1 & H2 & H3 & H4 & H5 & H6).
  exists s', (pre ++ out), l, e. split; [done|].
  rewrite grab_dones_app, saved_app, Hg, Hsv, H2, H3, Hds. done.
Qed.

(** One echo on an open export. *)
Lemma get_data_from_viewer_open (self : DAQ_Viewer) (l : nat) (e : DataToExport)
    (fragment : list DataFromPlugins) :
  _data_to_save_export self = Some l →
  heap self !! l = Some e →
  is_Some (ui self) →
  ∃ s' out,
    _get_data_from_viewer self fragment = (s', out) ∧
    _data_to_save_export s' = Some l ∧
    heap s' !! l = Some (appended self e fragment) ∧
    is_Some (ui s') ∧ title s' = title self ∧ _viewers s' = _viewers self ∧
    _received_data s' = _received_data self + 1 ∧
    grab_dones out
    = (if decide (_received_data self + 1 = Z.of_nat (length (_viewers self)))
       then [(l, Some (appended self e fragment))] else []).
Proof.
  intros Hl He [u Hu].
  destruct self as [ti ui0 vs vt se gr db tb gd st rd bk cd de ds tcp icg hp].
  cbn in Hl, He, Hu. subst de ui0.
  unfold _get_data_from_viewer, viewers, emit_grab_done, _save_export_data, appended,
    tagged. cbn.
  destruct (decide (length fragment ≠ 0%nat)) as [Hne|Hne]; cbn.
  - case_decide as Hk; cbn.
    + destruct ds; eexists _, _; (split; [reflexivity|]); simpl;
        rewrite ?list_lookup_alter, ?He; rewrite ?decide_True by done; done.
    + eexists _, _. split; [reflexivity|]. simpl.
      rewrite list_lookup_alter, He, decide_True by done. done.
  - case_decide as Hk; cbn.
    + destruct ds; eexists _, _; (split; [reflexivity|]); simpl; rewrite ?He; done.
    + eexists _, _. split; [reflexivity|]. simpl. done.
Qed.

(** An echo that does not bring the count to the number of viewers
    reports nothing, whatever the state and the fragment. *)
Lemma get_data_from_viewer_silent (self : DAQ_Viewer) (fragment : list DataFromPlugins) :
  _received_data self + 1 ≠ Z.of_nat (length (_viewers self)) →
  ∃ s' out,
    _get_data_from_viewer self fragment = (s', out) ∧
    grab_dones out = [] ∧ saved out = [] ∧
    _viewers s' = _viewers self ∧
    _received_data self ≤ _received_data s'.
Proof.
  intros Hk.
  destruct self as [ti ui0 vs vt se gr db tb gd st rd bk cd de ds tcp icg hp].
  cbn in Hk.
  unfold _get_data_from_viewer, viewers, emit_grab_done, _save_export_data.
  destruct de as [l|]; simpl.
  2: { eexists _, _. split; [reflexivity|]. simpl. repeat split; try done; lia. }
  case_decide; simpl; (destruct ui0 as [u|]; simpl;
    [rewrite decide_False by done|]);
    eexists _, _; (split; [reflexivity|]); simpl; repeat split; try done; lia.
Qed.

Lemma get_data_from_viewers_silent (extras : list (list DataFromPlugins)) :
  ∀ self : DAQ_Viewer,
    Z.of_nat (length (_viewers self)) ≤ _received_data self →
    Forall (λ out, grab_dones out = [] ∧ saved out = [])
           (snd (get_data_from_viewers self extras)).
Proof.
  induction extras as [|f extras IH]; intros self Hk; simpl; [by constructor|].
  destruct (get_data_from_viewer_silent self f) as (s' & out & -> & Hg & Hs & Hv & Hr); [lia|].
  specialize (IH s'). destruct (get_data_from_viewers s' extras) as [s'' outs].
  simpl in *. constructor; [done|]. apply IH. rewrite Hv. lia.
Qed.

(** The fragments of a cycle, aggregated: only the echo that brings the
    count to the number of viewers reports the export, which then holds
    every fragment received that was not empty. *)
Lemma get_data_from_viewers_complete (l : nat) (fragments : list (list DataFromPlugins)) :
  ∀ (self : DAQ_Viewer) (e : DataToExport),
    fragments ≠ [] →
    _data_to_save_export self = Some l →
    heap self !! l = Some e →
    is_Some (ui self) →
    _received_data self + Z.of_nat (length fragments)
    = Z.of_nat (length (_viewers self)) →
    ∃ s' outs,
      get_data_from_viewers self fragments = (s', outs) ∧
      grab_dones <$> outs
      = replicate (length fragments - 1) []
        ++ [[(l, Some (foldl (appended self) e fragments))]] ∧
      _data_to_save_export s' = Some l ∧
      heap s' !! l = Some (foldl (appended self) e fragments) ∧
      _viewers s' = _viewers self ∧
      _received_data s' = Z.of_nat (length (_viewers self)).
Proof.
  induction fragments as [|f rest IH]; intros self e Hne Hl He Hu Hk; [done|].
  destruct (get_data_from_viewer_open self l e f Hl He Hu)
    as (s1 & out & Hrun & Hl1 & He1 & Hu1 & Ht1 & Hv1 & Hr1 & Hg1).
  simpl get_data_from_viewers. rewrite Hrun.
  destruct rest as [|f' rest].
  - simpl in *. rewrite decide_True in Hg1 by lia.
    eexists _, _. split; [reflexivity|]. simpl. rewrite Hg1.
    repeat split; try done. lia.
  - rewrite decide_False in Hg1 by (simpl in Hk; lia).
    destruct (IH s1 (appended self e f)) as (s' & outs & Hrun' & Hout & Hl' & He' & Hv' & Hr');
      try done.
    { rewrite Hr1, Hv1. simpl length in *. lia. }
    rewrite Hrun'. eexists _, _. split; [reflexivity|].
    assert (Happ : appended s1 = appended self)
      by (unfold appended, tagged; by rewrite Ht1).
    rewrite Happ in *.
    rewrite fmap_cons, Hg1, Hout. simpl. rewrite Nat.sub_0_r.
    repeat split; try done; congruence.
Qed.

(** What a run of echoes leaves in the export: the fragments that were not
    empty, tagged, in order of arrival, after those it had. *)
Lemma appended_fragments (self : DAQ_Viewer) (fragments : list (list DataFromPlugins)) :
  ∀ e : DataToExport,
    dte_fragments (foldl (appended self) e fragments)
    = dte_fragments e ++ (tagged self <$> filter (λ f, f ≠ []) fragments) ∧
    dte_data (foldl (appended self) e fragments) = dte_data e ∧
    dte_name (foldl (appended self) e fragments) = dte_name e.
Proof.
  induction fragments as [|f rest IH]; intros e; simpl.
  - by rewrite app_nil_r.
  - destruct (IH (appended self e f)) as (H1 & H2 & H3). rewrite H1, H2, H3.
    unfold appended. rewrite filter_cons.
    destruct f as [|d f]; simpl; [done|].
    by rewrite <- app_assoc.
Qed.

End Pipeline.

(** ** The completion protocol *)

(** C2 (as amended).  Take a call of [show_data] that raised nothing, on a
    controller whose Background, if any, is an object of the store.
    - When the display branch is not taken (no UI, showing switched off, or
      a refresh that is not yet due) the export is reported at once, exactly
      once, and with zero fragments when live averaging is off.
    - When the display branch is taken, [show_data] reports nothing; with
      K >= 1 viewers each echoing once, whatever the echoes carry, the
      export is reported exactly once, by the K-th echo and by none before.
      It then holds what it held (nothing when live averaging is off) plus,
      in order, the fragments of the echoes that were not empty: an empty
      echo is counted and not appended.  No later echo, however many,
      reports it again.
    With a UI and an empty list of viewers nothing is ever reported. *)
Theorem export_reported_once_all_fragments_in `{ops : Foreign}
    (self : DAQ_Viewer) (now now' : Qc) (data : list DataFromPlugins) :
  raised (snd (show_data self now now' data)) = false →
  background_in_store self →
  (displays self now = false →
   ∃ l e, grab_dones (snd (show_data self now now' data)) = [(l, Some e)] ∧
          (live_averaging (settings self) = false → dte_fragments e = [])) ∧
  (displays self now = true →
   let s1 := fst (show_data self now now' data) in
   grab_dones (snd (show_data self now now' data)) = [] ∧
   ∃ l e,
     _data_to_save_export s1 = Some l ∧ heap s1 !! l = Some e ∧
     (live_averaging (settings self) = false → dte_fragments e = []) ∧
     ∀ fragments : list (list DataFromPlugins),
       (1 ≤ length (_viewers s1))%nat →
       length fragments = length (_viewers s1) →
       ∃ s2 outs e',
         get_data_from_viewers s1 fragments = (s2, outs) ∧
         grab_dones <$> outs = replicate (length fragments - 1) [] ++ [[(l, Some e')]] ∧
         dte_fragments e'
         = dte_fragments e ++ (tagged s1 <$> filter (λ f, f ≠ []) fragments) ∧
         dte_data e' = dte_data e ∧
         ∀ extras : list (list DataFromPlugins),
           Forall (λ out, grab_dones out = [] ∧ saved out = [])
                  (snd (get_data_from_viewers s2 extras))).
Proof.
  intros Hr Hwf. split.
  - intros Hd.
    destruct (show_data_direct self now now' data Hd Hr)
      as (s' & out & l & e & -> & _ & Hg & _ & _ & _ & Hoff).
    exists l, e. split; [done|]. intros H. by rewrite (Hoff H).
  - intros Hd.
    destruct (show_data_display self now now' data Hd Hr Hwf)
      as (s' & out & l & e & -> & Hl & He & Hrd & Hg & _ & Hu & _ & Hoff & _).
    cbn [fst snd]. split; [done|].
    exists l, e. split; [done|]. split; [done|].
    split; [intros H; by rewrite (Hoff H)|].
    intros fragments HK Hlen.
    destruct (get_data_from_viewers_complete l fragments s' e)
      as (s2 & outs & Hrun & Hout & Hl2 & He2 & Hv2 & Hr2); try done.
    { intros ->. simpl in Hlen. lia. }
    { rewrite Hrd, Hlen. lia. }
    destruct (appended_fragments s' fragments e) as (Hf & Hdt & _).
    exists s2, outs, (foldl (appended s') e fragments).
    split_and!; try done.
    intros extras. apply get_data_from_viewers_silent. rewrite Hr2, Hv2. lia.
Qed.

(** Witness of C2: a snap on a controller with two viewers; the first
    viewer echoes nothing, the second one a fragment.  The export is
    reported by the second echo and by none before. *)
Lemma export_reported_once_all_fragments_in_witness :
  let self := mk_viewer "Testing" (Some (mk_ui false [Data0D; Data0D]))
                [Data0D; Data0D] [Data0D; Data0D] default_settings
                false false false false (Qc_of_Z 0) 0 None None None false false 0 [] in
  let data := batch0D 5 ++ batch0D 6 in
  let s1 := fst (@show_data spec_ops self (Qc_of_Z 0) (Qc_of_Z 0) data) in
  let fragments := [[]; batch0D 7] in
  grab_dones (snd (@show_data spec_ops self (Qc_of_Z 0) (Qc_of_Z 0) data)) = [] ∧
  ∃ l e s2 outs e',
    heap s1 !! l = Some e ∧
    get_data_from_viewers s1 fragments = (s2, outs) ∧
    grab_dones <$> outs = replicate (length fragments - 1) [] ++ [[(l, Some e')]] ∧
    dte_fragments e'
    = dte_fragments e ++ (tagged s1 <$> filter (λ f, f ≠ []) fragments) ∧
    dte_data e' = dte_data e.
Proof.
  intros self data s1 fragments.
  assert (Hr : raised (snd (@show_data spec_ops self (Qc_of_Z 0) (Qc_of_Z 0) data))
               = false) by (vm_compute; reflexivity).
  assert (Hwf : background_in_store self) by (intros lb [=]).
  destruct (@export_reported_once_all_fragments_in spec_ops self
              (Qc_of_Z 0) (Qc_of_Z 0) data Hr Hwf) as [_ H].
  destruct (H ltac:(vm_compute; reflexivity)) as [Hg (l & e & Hl & He & Hoff & Hecho)].
  split; [exact Hg|].
  destruct (Hecho fragments ltac:(vm_compute; lia) ltac:(vm_compute; reflexivity))
    as (s2 & outs & e' & Hrun & Hout & Hf & Hd & _).
  exists l, e, s2, outs, e'. by split_and!.
Defined.

(** Counterexample to C2 as stated (K = 0): a controller with a UI and no
    viewer receives an empty batch.  The display branch is taken, nothing
    is raised, no export is reported by [show_data], and no echo that might
    still arrive reports one. *)
Lemma no_viewer_no_report :
  let self := mk_viewer "Testing" (Some (mk_ui false [])) [] [] default_settings
                false false false false (Qc_of_Z 0) 0 None None None false false 0 [] in
  let r := @show_data spec_ops self (Qc_of_Z 0) (Qc_of_Z 0) [] in
  length (_viewers (fst r)) = 0%nat ∧
  raised (snd r) = false ∧
  grab_dones (snd r) = [] ∧
  ∀ echoes, Forall (λ out, grab_dones out = [] ∧ saved out = [])
                   (snd (get_data_from_viewers (fst r) echoes)).
Proof.
  intros self r.
  split; [vm_compute; reflexivity|]. split; [vm_compute; reflexivity|].
  split; [vm_compute; reflexivity|].
  intros echoes. apply get_data_from_viewers_silent. vm_compute. discriminate.
Qed.

(** ** Background capture and subtraction *)

Section Background.

Context `{ops : Foreign}.

(** What [take_bkg] leaves of the controller. *)
Lemma take_bkg_armed (self : DAQ_Viewer) (t0 now : Qc) :
  let armed := fst (take_bkg self t0) in
  _take_bkg armed = true ∧
  displays armed now = bool_decide (is_Some (ui self)) && show_data_setting (settings self) ∧
  _do_bkg armed = _do_bkg self ∧
  title armed = title self ∧
  settings armed = settings self.
Proof.
  destruct self as [ti u vs vt se gr db tb gd st rd bk cd de ds tcp icg hp].
  unfold take_bkg, grab_data, displays, refresh_block. cbn.
  split_and!; try done.
  rewrite andb_true_r. f_equal. apply bool_decide_ext. by rewrite fmap_is_Some.
Qed.

(** An echo changes the fragments of the open export and nothing else
    on the heap; what it reports or saves is that export. *)
Lemma get_data_from_viewer_keeps (self : DAQ_Viewer) (l : nat) (e : DataToExport)
    (fragment : list DataFromPlugins) :
  _data_to_save_export self = Some l →
  heap self !! l = Some e →
  ∃ s' out,
    _get_data_from_viewer self fragment = (s', out) ∧
    _data_to_save_export s' = Some l ∧
    heap s' !! l = Some (appended self e fragment) ∧
    title s' = title self ∧
    _bkg s' = _bkg self ∧
    (∀ l0, l0 ≠ l → heap s' !! l0 = heap self !! l0) ∧
    (∀ x, x ∈ grab_dones out ++ saved out → x = (l, Some (appended self e fragment))).
Proof.
  intros Hl He.
  destruct self as [ti u vs vt se gr db tb gd st rd bk cd de ds tcp icg hp].
  simpl in Hl, He. subst de.
  unfold _get_data_from_viewer, viewers, emit_grab_done, _save_export_data, appended,
    tagged.
  simpl.
  case_decide as Hf; simpl; destruct u as [u|]; simpl;
    try case_decide; simpl; try destruct ds; simpl;
    eexists _, _; (split; [reflexivity|]); simpl;
    rewrite ?list_lookup_alter, ?He; rewrite ?decide_True by done; simpl;
    (split; [reflexivity|]); (split; [reflexivity|]); (split; [reflexivity|]);
    (split; [reflexivity|]);
    (split; [intros l0 Hne; rewrite ?list_lookup_alter;
             rewrite ?decide_False by done; reflexivity|]);
    intros x Hx; repeat (apply elem_of_cons in Hx as [-> | Hx]; [reflexivity|]);
    by apply elem_of_nil in Hx.
Qed.

Lemma get_data_from_viewers_keep (fragments : list (list DataFromPlugins)) (l : nat) :
  ∀ (self : DAQ_Viewer) (e : DataToExport),
    _data_to_save_export self = Some l →
    heap self !! l = Some e →
    _bkg (fst (get_data_from_viewers self fragments)) = _bkg self ∧
    (∀ l0, l0 ≠ l →
       heap (fst (get_data_from_viewers self fragments)) !! l0 = heap self !! l0) ∧
    Forall (λ out, ∀ x, x ∈ grab_dones out ++ saved out →
                        ∃ k, k `prefix_of` fragments ∧
                             x = (l, Some (foldl (appended self) e k)))
           (snd (get_data_from_viewers self fragments)).
Proof.
  induction fragments as [|f rest IH]; intros self e Hl He; simpl.
  - split_and!; [done|done|constructor].
  - destruct (get_data_from_viewer_keeps self l e f Hl He)
      as (s1 & out & -> & Hl1 & He1 & Ht1 & Hb1 & Hh1 & Hx1).
    destruct (IH s1 (appended self e f) Hl1 He1) as (Hb & Hh & Hall).
    assert (Happ : appended s1 = appended self)
      by (unfold appended, tagged; by rewrite Ht1).
    destruct (get_data_from_viewers s1 rest) as [s2 outs]. simpl in *.
    split_and!.
    + congruence.
    + intros l0 Hne. rewrite Hh by done. by apply Hh1.
    + constructor.
      * intros x Hx. rewrite (Hx1 x Hx). exists [f]. split; [|done].
        by apply prefix_cons, prefix_nil.
      * eapply Forall_impl; [exact Hall|]. simpl.
        intros o Ho x Hx. destruct (Ho x Hx) as (k & Hk & ->).
        exists (f :: k). split; [by apply prefix_cons|]. by rewrite Happ.
Qed.

(** Echoes leave the Background alone. *)
Lemma get_data_from_viewers_background (fragments : list (list DataFromPlugins))
    (self : DAQ_Viewer) (l : nat) (e : DataToExport) :
  _data_to_save_export self = Some l →
  heap self !! l = Some e →
  (∀ lb, _bkg self = Some lb → lb ≠ l) →
  stored_background (fst (get_data_from_viewers self fragments)) = stored_background self.
Proof.
  intros Hl He Hne.
  destruct (get_data_from_viewers_keep fragments l self e Hl He) as (Hb & Hh & _).
  unfold stored_background. rewrite Hb.
  destruct (_bkg self) as [lb|] eqn:E; [|done]. cbn. apply Hh. by apply Hne.
Qed.

End Background.

(** C7 (as amended).  After [take_bkg] has armed the one-shot flag, the
    next call of [show_data] that raises nothing clears the flag and stores
    as the Background a deep copy of the export it builds, a new object
    distinct from the export; with live averaging off the export holds the
    incoming batch.  The batch is not held back.  With a UI and showing
    enabled it is handed to the viewers: as it is when background
    subtraction is off, and after the Background just captured has been
    subtracted from it (the batch minus itself) when subtraction is on, the
    Background then holding what [-=] left in its right operand.  Without
    display the export is reported at once on [grab_done_signal]. *)
Theorem background_captured_batch_still_shown `{ops : Foreign}
    (self : DAQ_Viewer) (t0 now now' : Qc) (data : list DataFromPlugins) :
  let armed := fst (take_bkg self t0) in
  raised (snd (show_data armed now now' data)) = false →
  _take_bkg armed = true ∧
  ∃ s1 out l lb e,
    show_data armed now now' data = (s1, out) ∧
    _take_bkg s1 = false ∧
    _data_to_save_export s1 = Some l ∧
    heap s1 !! l = Some e ∧
    (live_averaging (settings self) = false → e = mk_dte (title self) data []) ∧
    _bkg s1 = Some lb ∧
    lb ≠ l ∧
    if bool_decide (is_Some (ui self)) && show_data_setting (settings self) then
      grab_dones out = [] ∧
      if _do_bkg self then
        ∃ r, fst (dte_subtract e e) = Some r ∧
             shown out = dte_data r ∧
             heap s1 !! lb = Some (snd (dte_subtract e e))
      else shown out = dte_data e ∧ heap s1 !! lb = Some e
    else
      shown out = [] ∧ grab_dones out = [(l, Some e)] ∧ heap s1 !! lb = Some e.
Proof.
  intros armed Hr.
  destruct (take_bkg_armed self t0 now) as (Ht & Hd & Hdb & Hti & Hse).
  fold armed in Ht, Hd, Hdb, Hti, Hse.
  split; [exact Ht|].
  destruct (show_data_outcome armed now now' data Hr)
    as (s1 & out & l & e & Hrun & H1 & H2 & H3 & _ & H4 & _ & _ & _ & Hoff & Hout).
  { intros Hf. congruence. }
  cbn zeta in Hout. rewrite Ht, Hd, Hdb in Hout.
  assert (Hbk : ∀ c, stored_background s1 = Some c →
                ∃ lb, _bkg s1 = Some lb ∧ lb ≠ l ∧ heap s1 !! lb = Some c).
  { unfold stored_background. intros c Hc.
    destruct (_bkg s1) as [lb|] eqn:E; [|discriminate].
    exists lb. split; [done|]. split; [by apply H4|exact Hc]. }
  destruct (bool_decide (is_Some (ui self)) && show_data_setting (settings self)).
  - destruct Hout as (_ & _ & Hg & _ & Hout).
    destruct (_do_bkg self).
    + destruct Hout as (r & Hr1 & Hr2 & Hr3).
      destruct (Hbk _ Hr3) as (lb & Hlb & Hne & Hc).
      exists s1, out, l, lb, e. split_and!; try done.
      exists r. by split_and!.
    + destruct Hout as (Hs & Hb).
      destruct (Hbk _ Hb) as (lb & Hlb & Hne & Hc).
      exists s1, out, l, lb, e. by split_and!.
  - destruct Hout as (_ & Hs & Hg & _ & Hb).
    destruct (Hbk _ Hb) as (lb & Hlb & Hne & Hc).
    exists s1, out, l, lb, e. by split_and!.
Qed.

(** Witness of C7: a controller with a UI and one viewer, subtraction
    off. *)
Lemma background_captured_batch_still_shown_witness :
  let armed := fst (take_bkg viewer_with_ui (Qc_of_Z 0)) in
  _take_bkg armed = true ∧
  ∃ s1 out l lb e,
    @show_data spec_ops armed (Qc_of_Z 1) (Qc_of_Z 1) (batch0D 5) = (s1, out) ∧
    _take_bkg s1 = false ∧
    _data_to_save_export s1 = Some l ∧
    heap s1 !! l = Some e ∧
    (live_averaging (settings viewer_with_ui) = false →
     e = mk_dte (title viewer_with_ui) (batch0D 5) []) ∧
    _bkg s1 = Some lb ∧
    lb ≠ l ∧
    grab_dones out = [] ∧ shown out = dte_data e ∧ heap s1 !! lb = Some e.
Proof.
  intros armed.
  exact (@background_captured_batch_still_shown spec_ops viewer_with_ui
           (Qc_of_Z 0) (Qc_of_Z 1) (Qc_of_Z 1) (batch0D 5) eq_refl).
Defined.

(** Counterexample to C7 as stated: the batch that is captured as the
    Background is also handed to the viewer. *)
Lemma background_batch_is_shown :
  let armed := fst (take_bkg viewer_with_ui (Qc_of_Z 0)) in
  let r := @show_data spec_ops armed (Qc_of_Z 1) (Qc_of_Z 1) (batch0D 5) in
  _take_bkg armed = true ∧
  (dte_data <$> (_bkg (fst r) ≫= (heap (fst r) !!.))) = Some (batch0D 5) ∧
  viewer_show_data 0 (mk_dfp "CH0" Data0D "" [[Qc_of_Z 5]]) ∈ snd r ∧
  shown (snd r) = batch0D 5.
Proof.
  cbv zeta. split; [reflexivity|]. split; [vm_compute; reflexivity|].
  split; [|vm_compute; reflexivity].
  apply list_elem_of_In. vm_compute. tauto.
Qed.

(** C10.  Take a call of [show_data] that raises nothing, with background
    subtraction enabled and a Background stored.  The Background [bk] in
    force for the batch is the stored one, or the copy of the export just
    captured when [take_bkg] had armed the flag.
    - The export [e] built from the batch (the batch itself when live
      averaging is off) is what the controller holds afterwards.
    - When the batch is displayed, the viewers receive the data of the
      difference, computed by [-=] in the deep copy made for them; nothing
      is reported or saved by the call, and the Background holds what [-=]
      left in its right operand.
    - When it is not displayed (showing off, no UI, refresh not due) the
      viewers receive nothing, the export [e] itself is reported on
      [grab_done_signal] and handed to saving when a save is pending, and
      the Background holds [bk].
    - Whatever is reported or saved afterwards, by any echoes of the
      viewers, is the export [e] with fragments appended to it, its data
      being those of [e], and the echoes leave the Background as it is. *)
Theorem subtraction_only_in_the_displayed_copy `{ops : Foreign}
    (self : DAQ_Viewer) (now now' : Qc) (data : list DataFromPlugins)
    (lb : nat) (b : DataToExport) :
  _do_bkg self = true →
  _bkg self = Some lb →
  heap self !! lb = Some b →
  raised (snd (show_data self now now' data)) = false →
  ∃ s1 out l e,
    show_data self now now' data = (s1, out) ∧
    _data_to_save_export s1 = Some l ∧
    heap s1 !! l = Some e ∧
    (live_averaging (settings self) = false → e = mk_dte (title self) data []) ∧
    let bk := if _take_bkg self then e else b in
    (if displays self now then
       (∃ r, fst (dte_subtract e bk) = Some r ∧ shown out = dte_data r) ∧
       grab_dones out = [] ∧ saved out = [] ∧
       stored_background s1 = Some (snd (dte_subtract e bk))
     else
       shown out = [] ∧
       grab_dones out = [(l, Some e)] ∧
       saved out = (if _do_save_data self then [(l, Some e)] else []) ∧
       stored_background s1 = Some bk) ∧
    ∀ fragments : list (list DataFromPlugins),
      stored_background (fst (get_data_from_viewers s1 fragments)) = stored_background s1 ∧
      Forall (λ o, ∀ x, x ∈ grab_dones o ++ saved o →
                        ∃ k, k `prefix_of` fragments ∧
                             x = (l, Some (foldl (appended s1) e k)) ∧
                             dte_data (foldl (appended s1) e k) = dte_data e)
             (snd (get_data_from_viewers s1 fragments)).
Proof.
  intros Hdb Hbk Hb Hr.
  assert (Hwf : _take_bkg self = false → background_in_store self).
  { intros _ lb' Hlb'. rewrite Hbk in Hlb'. injection Hlb' as <-.
    by eapply lookup_lt_Some. }
  destruct (show_data_outcome self now now' data Hr Hwf)
    as (s1 & out & l & e & Hrun & H1 & H2 & H3 & _ & H4 & _ & _ & _ & Hoff & Hout).
  cbn zeta in Hout. rewrite Hdb in Hout.
  assert (Hsb : stored_background self = Some b)
    by (unfold stored_background; rewrite Hbk; exact Hb).
  rewrite Hsb in Hout.
  exists s1, out, l, e. split_and!; try done.
  cbn zeta. split.
  - destruct (displays self now).
    + destruct Hout as (_ & _ & Hg & Hs & Hout).
      destruct (_take_bkg self); destruct Hout as (r & Hr1 & Hr2 & Hr3);
        (split_and!; [by exists r|done|done|done]).
    + destruct Hout as (_ & Hs & Hg & Hsv & Hbg).
      destruct (_take_bkg self); by split_and!.
  - intros fragments. split.
    + by apply (get_data_from_viewers_background fragments s1 l e).
    + eapply Forall_impl; [by apply (get_data_from_viewers_keep fragments l s1 e)|].
      simpl. intros o Ho x Hx. destruct (Ho x Hx) as (k & Hk & ->).
      exists k. split_and!; try done.
      by destruct (appended_fragments s1 k e) as (_ & ? & _).
Qed.

(** Witness of C10: a controller holding the Background [1] displays the
    batch [5]. *)
Lemma subtraction_only_in_the_displayed_copy_witness :
  let bkg := mk_dte "Testing" (batch0D 1) [] in
  let self := mk_viewer "Testing" (Some (mk_ui false [Data0D])) [Data0D] [Data0D]
                default_settings false true false false (Qc_of_Z 0) 0 (Some 0%nat) None None
                false false 0 [bkg] in
  ∃ s1 out l e,
    @show_data spec_ops self (Qc_of_Z 1) (Qc_of_Z 1) (batch0D 5) = (s1, out) ∧
    _data_to_save_export s1 = Some l ∧
    heap s1 !! l = Some e ∧
    (live_averaging (settings self) = false → e = mk_dte (title self) (batch0D 5) []) ∧
    ((∃ r, fst (@dte_subtract spec_ops e bkg) = Some r ∧ shown out = dte_data r) ∧
     grab_dones out = [] ∧ saved out = [] ∧
     stored_background s1 = Some (snd (@dte_subtract spec_ops e bkg))) ∧
    ∀ fragments : list (list DataFromPlugins),
      stored_background (fst (get_data_from_viewers s1 fragments)) = stored_background s1 ∧
      Forall (λ o, ∀ x, x ∈ grab_dones o ++ saved o →
                        ∃ k, k `prefix_of` fragments ∧
                             x = (l, Some (foldl (appended s1) e k)) ∧
                             dte_data (foldl (appended s1) e k) = dte_data e)
             (snd (get_data_from_viewers s1 fragments)).
Proof.
  intros bkg self.
  exact (@subtraction_only_in_the_displayed_copy spec_ops self (Qc_of_Z 1) (Qc_of_Z 1)
           (batch0D 5) 0%nat bkg eq_refl eq_refl eq_refl eq_refl).
Defined.

(** The witness evaluated: the viewer receives [5 - 1 = 4], the stored
    export holds [5] and the Background [1]. *)
Lemma subtraction_evaluated :
  let bkg := mk_dte "Testing" (batch0D 1) [] in
  let self := mk_viewer "Testing" (Some (mk_ui false [Data0D])) [Data0D] [Data0D]
                default_settings false true false false (Qc_of_Z 0) 0 (Some 0%nat) None None
                false false 0 [bkg] in
  let r := @show_data spec_ops self (Qc_of_Z 1) (Qc_of_Z 1) (batch0D 5) in
  shown (snd r) = batch0D 4 ∧
  (dte_data <$> stored_export (fst r)) = Some (batch0D 5) ∧
  stored_background (fst r) = Some bkg.
Proof.
  cbv zeta. apply (bool_decide_unpack _). vm_compute. exact I.
Qed.

(** ** Further properties of the worker *)

Section WorkerExtras.

Context `{ops : Foreign}.

(** One iteration of a single-grab loop under software averaging: a
    sample is delivered, then [processEvents()] returns. *)
Lemma single_grab_iteration (m : Thread) (f : frame) (tl : list activation)
    (N k : Z) (s : batch) :
  stack m = in_grab_data f :: tl →
  hardware_averaging (worker m) = false →
  live_mode_available (worker m) = false →
  single_grab (worker m) = true →
  grab_state (worker m) = true →
  ind_average (worker m) = k →
  Naverage (worker m) = Some N →
  (k + 1 < N → average_done (worker m) = false) →
  k + 1 ≤ N →
  (1 ≤ outstanding m)%nat →
  ∃ m' out,
    run m [deliver_data s; events_done] = (m', out) ∧
    datas (worker m') = datas (fst (data_ready (worker m) s)) ∧
    hardware_averaging (worker m') = false ∧
    live_mode_available (worker m') = false ∧
    single_grab (worker m') = true ∧
    grab_state (worker m') = true ∧
    Naverage (worker m') = Some N ∧
    (if decide (k + 1 = N)
     then stack m' = tl ∧ emitted out = [datas (worker m')] ∧ requests out = 0%nat ∧
          last out = Some (status_sig "grab_stopped") ∧
          outstanding m' = Nat.pred (outstanding m) ∧
          ind_average (worker m') = 0
     else stack m' = stack m ∧ emitted out = [] ∧ requests out = 1%nat ∧
          ind_average (worker m') = k + 1 ∧ average_done (worker m') = false ∧
          outstanding m' = outstanding m).
Proof.
  intros Hst Hhw Hlm Hsg Hgs Hk HN Had Hle Ho.
  destruct m as [w st o]. simpl in *. subst st.
  destruct (data_ready_software w s Hhw) as (d' & out1 & Hrun & Hem & Hrq & _).
  unfold run, step. simpl. rewrite Hrun. simpl.
  rewrite Hgs, Hsg, Hlm, Hk, HN in *. simpl. rewrite app_nil_r.
  apply no_request_filter in Hrq.
  unfold loop_tail. simpl.
  destruct (decide (k + 1 = N)) as [Hr|Hr].
  - rewrite bool_decide_eq_true_2 in * by congruence. simpl.
    eexists _, _. split; [reflexivity|]. simpl.
    rewrite !emitted_app, !requests_app, Hem, Hrq. simpl.
    repeat split; try done.
    apply last_snoc.
  - rewrite bool_decide_eq_false_2 in * by congruence.
    rewrite Had by lia. simpl.
    eexists _, _. split; [reflexivity|]. simpl.
    rewrite !emitted_app, !requests_app, Hem, Hrq. simpl.
    repeat split; try done. lia.
Qed.

(** A single-grab loop under software averaging, from any point of the
    cycle to its end: every sample but the last is followed by a new
    request, the last one by the emission and the end of the loop. *)
Lemma single_grab_run (N : Z) (rest : list batch) :
  ∀ (m : Thread) (f : frame) (tl : list activation) (k : Z),
    rest ≠ [] →
    stack m = in_grab_data f :: tl →
    hardware_averaging (worker m) = false →
    live_mode_available (worker m) = false →
    single_grab (worker m) = true →
    grab_state (worker m) = true →
    ind_average (worker m) = k →
    Naverage (worker m) = Some N →
    (k + 1 < N → average_done (worker m) = false) →
    k + Z.of_nat (length rest) = N →
    (1 ≤ outstanding m)%nat →
    ∃ m' out,
      run m (answered rest) = (m', out) ∧
      stack m' = tl ∧
      emitted out = [datas (worker m')] ∧
      requests out = (length rest - 1)%nat ∧
      last out = Some (status_sig "grab_stopped") ∧
      outstanding m' = Nat.pred (outstanding m) ∧
      ind_average (worker m') = 0.
Proof.
  induction rest as [|s rest IH];
    intros m f tl k Hne Hst Hhw Hlm Hsg Hgs Hk HN Had Hlen Ho; [done|].
  destruct (single_grab_iteration m f tl N k s Hst Hhw Hlm Hsg Hgs Hk HN Had)
    as (m1 & out1 & Hrun1 & Hd1 & Hhw1 & Hlm1 & Hsg1 & Hgs1 & HN1 & Hcase);
    [simpl in Hlen; lia | done |].
  change (answered (s :: rest)) with ([deliver_data s; events_done] ++ answered rest).
  rewrite run_app, Hrun1. cbn [fst snd].
  destruct rest as [|s' rest].
  - simpl in Hlen. rewrite decide_True in Hcase by lia.
    destruct Hcase as (Hst1 & Hem1 & Hrq1 & Hlast1 & Ho1 & Hi1).
    eexists _, _. split; [reflexivity|]. cbn [answered run fst snd mbind].
    rewrite app_nil_r, Hem1.
    by split_and!.
  - rewrite decide_False in Hcase by (simpl in Hlen; lia).
    destruct Hcase as (Hst1 & Hem1 & Hrq1 & Hi1 & Had1 & Ho1).
    destruct (IH m1 f tl (k + 1))
      as (m' & out & Hrun & Hst' & Hem & Hrq & Hlast & Ho' & Hi'); try done.
    + congruence.
    + simpl length in *. lia.
    + lia.
    + rewrite Hrun. cbn [fst snd].
      eexists _, _. split; [reflexivity|].
      rewrite emitted_app, requests_app, Hem1, Hem, Hrq1, Hrq, Ho', Ho1.
      split_and!; try done.
      * simpl length. lia.
      * rewrite last_app, Hlast. done.
Qed.

(** The state in which [grab] and [single] reach their first
    [processEvents()]. *)
Lemma enter_loop_state (m : Thread) (N : Z) (live sg : bool) :
  let w := worker m in
  let kw := if live_mode_available w then wait_time w else 0 in
  ∃ ad',
    enter_loop N live (set_grab_state true (set_single_grab sg w)) m
    = (mk_thread
         (mk_detector true true sg (datas w) 0 (Some N) ad' (hardware_averaging w)
            (show_averaging w) (wait_time w) (live_mode_available w))
         (in_grab_data (mk_frame N live kw) :: stack m) (outstanding m + 1),
       [status_sig "grab"; detector_grab_data N live kw]) ∧
    (1 < N → ad' = false) ∧
    (N ≤ 1 → ad' = average_done w).
Proof.
  destruct m as [w st o]. destruct w as [wfd gs sg0 dd ia Na ad hw sa wt lm].
  unfold enter_loop, grab_data_enter, loop_head. simpl.
  destruct (decide (1 < N)); simpl; eexists; (split; [reflexivity|]); split; intros; try done; lia.
Qed.

End WorkerExtras.

(** X1.  A snap on a software-averaging worker whose plugin has no live
    mode: the [single] command with target N, each of the N requests being
    answered by one callback, whatever the batches are, sends exactly N
    requests to the plugin, emits exactly one batch, the data the worker
    then holds, after the N-th callback, then leaves the loop and reports
    [grab_stopped]; the counter is back to 0, the activations suspended
    before the command are as they were and no request is left
    unanswered. *)
Theorem snap_requests_and_emits_once `{ops : Foreign}
    (m : Thread) (N : Z) (samples : list batch) :
  hardware_averaging (worker m) = false →
  live_mode_available (worker m) = false →
  1 ≤ N →
  Z.of_nat (length samples) = N →
  ∃ m' out,
    run m (deliver_command (single N) :: answered samples) = (m', out) ∧
    stack m' = stack m ∧
    emitted out = [datas (worker m')] ∧
    requests out = length samples ∧
    last out = Some (status_sig "grab_stopped") ∧
    outstanding m' = outstanding m ∧
    ind_average (worker m') = 0.
Proof.
  intros Hhw Hlm HN Hlen.
  destruct samples as [|s0 rest]; [simpl in Hlen; lia|].
  destruct (enter_loop_state m N false true) as (ad' & Hent & Had' & _).
  change (run m (deliver_command (single N) :: answered (s0 :: rest)))
    with (let '(m0, out0) := queue_command (single N) m in
          let '(m1, outs) := run m0 (answered (s0 :: rest)) in (m1, out0 ++ outs)).
  unfold queue_command. rewrite Hent. clear Hent. rewrite Hlm.
  match goal with
  | |- context [run ?m0 (answered (s0 :: rest))] =>
      destruct (single_grab_run N (s0 :: rest) m0
                  (mk_frame N false 0) (stack m) 0)
        as (m' & out & Hrun & Hst & Hem & Hrq & Hlast & Ho & Hi);
        try solve [ done | simpl; lia
                  | simpl; intros ?; apply Had'; lia ]
  end.
  rewrite Hrun. eexists _, _. split; [reflexivity|]. simpl in Ho.
  rewrite emitted_app, requests_app, Hrq, last_app, Hlast, Hst, Ho, Hem.
  simpl. rewrite Nat.sub_0_r.
  split_and!; try done. lia.
Qed.

(** Witness of X1: a snap of two samples. *)
Lemma snap_requests_and_emits_once_witness :
  let samples := [batch0D 1; batch0D 3] in
  ∃ m' out,
    run (idle_thread 0 false) (deliver_command (single 2) :: answered samples)
    = (m', out) ∧
    stack m' = stack (idle_thread 0 false) ∧
    emitted out = [datas (worker m')] ∧
    requests out = length samples ∧
    last out = Some (status_sig "grab_stopped") ∧
    outstanding m' = outstanding (idle_thread 0 false) ∧
    ind_average (worker m') = 0.
Proof.
  intros samples.
  apply (snap_requests_and_emits_once (idle_thread 0 false) 2 samples);
    try reflexivity; lia.
Defined.

(** X2. The averaging cycle is driven by the count of callbacks alone.  On
    a software-averaging worker at the start of a cycle with target N, any
    N batches, of whatever shapes (also batches the incremental formula
    cannot combine, where the exception is logged), give exactly one
    emission, at the N-th callback, of the data the worker then holds; the
    counter is back to 0, [average_done] is set and no callback sends a
    request to the plugin. *)
Theorem averaging_cycle_counts_callbacks `{ops : Foreign}
    (self : DAQ_Detector) (N : Z) (samples : list batch) :
  hardware_averaging self = false →
  Naverage self = Some N →
  ind_average self = 0 →
  samples ≠ [] →
  Z.of_nat (length samples) = N →
  ∃ self' outs,
    data_ready_all self samples = (self', outs) ∧
    emitted <$> outs = replicate (length samples - 1) [] ++ [[datas self']] ∧
    ind_average self' = 0 ∧
    average_done self' = true ∧
    Forall (λ out, requests out = 0%nat) outs.
Proof.
  intros Hhw HN Hk Hne Hlen.
  apply (data_ready_all_counts samples self N); try done; rewrite Hk; lia.
Qed.

(** Witness of X2: two batches of different shapes (one panel against two
    panels of other lengths). *)
Lemma averaging_cycle_counts_callbacks_witness :
  let self := set_Naverage (Some 2) (worker (idle_thread 0 false)) in
  let samples := [[mk_dfp "A" Data1D "" [[Qc_of_Z 1; Qc_of_Z 2]]];
                  [mk_dfp "A" Data1D "" [[Qc_of_Z 1; Qc_of_Z 2; Qc_of_Z 3]];
                   mk_dfp "B" Data0D "" [[Qc_of_Z 4]]]] in
  ∃ self' outs,
    data_ready_all self samples = (self', outs) ∧
    emitted <$> outs = replicate (length samples - 1) [] ++ [[datas self']] ∧
    ind_average self' = 0 ∧
    average_done self' = true ∧
    Forall (λ out, requests out = 0%nat) outs.
Proof.
  intros self samples.
  apply (averaging_cycle_counts_callbacks self 2 samples); done.
Defined.

Section WorkerLoops.

Context `{ops : Foreign}.

Lemma run_cons (m : Thread) (e : event) (es : list event) :
  run m (e :: es)
  = (fst (run (fst (step m e)) es), snd (step m e) ++ snd (run (fst (step m e)) es)).
Proof. simpl. destruct (step m e) as [m1 o1]. simpl. by destruct (run m1 es). Qed.

Lemma data_ready_hardware (self : DAQ_Detector) (new : batch) :
  hardware_averaging self = true →
  data_ready self new
  = (set_waiting_for_data false self,
     data_detector_sig (Some new) :: (if grab_state self then [] else [detector_stop])).
Proof. intros H. unfold data_ready. rewrite H. reflexivity. Qed.

Lemma data_ready_keeps_mode (self : DAQ_Detector) (new : batch) :
  hardware_averaging (fst (data_ready self new)) = hardware_averaging self ∧
  live_mode_available (fst (data_ready self new)) = live_mode_available self.
Proof.
  destruct (hardware_averaging self) eqn:Hhw.
  - rewrite data_ready_hardware by done. by destruct self.
  - destruct (data_ready_software self new Hhw) as (d' & out & -> & _). done.
Qed.

Lemma data_ready_no_stop (self : DAQ_Detector) (new : batch) :
  grab_state self = true → detector_stop ∉ snd (data_ready self new).
Proof.
  intros Hgs. destruct (hardware_averaging self) eqn:Hhw.
  - rewrite data_ready_hardware, Hgs by done. simpl.
    apply not_elem_of_cons. split; [done|apply not_elem_of_nil].
  - destruct (data_ready_software self new Hhw) as (d' & out & -> & _ & _ & Hs).
    rewrite Hgs. simpl. by rewrite app_nil_r.
Qed.

(** Callbacks of a streaming plugin while [grab_state] is set. *)
Lemma streamed_run (samples : list batch) :
  ∀ m : Thread,
    grab_state (worker m) = true →
    stack (fst (run m (streamed samples))) = stack m ∧
    requests (snd (run m (streamed samples))) = 0%nat ∧
    (detector_stop ∉ snd (run m (streamed samples))) ∧
    (hardware_averaging (worker m) = true →
     emitted (snd (run m (streamed samples))) = Some <$> samples).
Proof.
  induction samples as [|s rest IH]; intros m Hgs.
  - simpl. repeat split; try done. apply not_elem_of_nil.
  - change (streamed (s :: rest)) with (deliver_data s :: streamed rest).
    rewrite run_cons. cbn [fst snd].
    pose proof (data_ready_grab_state (worker m) s) as Hg.
    pose proof (data_ready_no_request (worker m) s) as Hr.
    pose proof (data_ready_no_stop (worker m) s Hgs) as Hs.
    pose proof (data_ready_keeps_mode (worker m) s) as [Hm _].
    assert (Hstep : step m (deliver_data s)
                    = (mk_thread (fst (data_ready (worker m) s)) (stack m)
                         (Nat.pred (outstanding m)),
                       snd (data_ready (worker m) s))).
    { unfold step. by destruct (data_ready (worker m) s). }
    rewrite Hstep. cbn [fst snd].
    destruct (IH (mk_thread (fst (data_ready (worker m) s)) (stack m)
                    (Nat.pred (outstanding m)))) as (H1 & H2 & H3 & H4).
    { simpl. by rewrite Hg. }
    repeat split.
    + exact H1.
    + rewrite requests_app, H2, (no_request_filter _ Hr). done.
    + intros Hx. apply elem_of_app in Hx as [Hx|Hx]; [by apply Hs|by apply H3].
    + intros Hhw. rewrite emitted_app, H4 by (simpl; congruence).
      rewrite data_ready_hardware, Hgs by done. reflexivity.
Qed.




(** A continuous grab with a streaming plugin, up to the first return of
    [processEvents()]. *)
Lemma live_grab_prefix (m : Thread) (N : Z) :
  live_mode_available (worker m) = true →
  ∃ w',
    run m [deliver_command (grab N); events_done]
    = (mk_thread w' (stack m) (outstanding m + 1),
       [status_sig "grab"; detector_grab_data N true (wait_time (worker m));
        msleep (wait_time (worker m)); status_sig "grab_stopped"]) ∧
    grab_state w' = true ∧
    hardware_averaging w' = hardware_averaging (worker m).
Proof.
  intros Hlm.
  destruct (enter_loop_state m N true false) as (ad' & Hent & _).
  rewrite run_cons.
  change (step m (deliver_command (grab N)))
    with (enter_loop N true (set_grab_state true (set_single_grab false (worker m))) m).
  rewrite Hent, Hlm. cbn [fst snd]. simpl.
  eexists. split; [reflexivity|]. done.
Qed.

End WorkerLoops.

(** X3. A snap on a worker whose plugin averages in hardware: the [single]
    command sends one request carrying the target N (and the wait time of
    the plugin's mode), the batch of the callback is emitted as it is, the
    loop is left at the next return of [processEvents()] and
    [grab_stopped] is reported; the data the worker holds from software
    averaging are not touched. *)
Theorem snap_with_hardware_averaging `{ops : Foreign} (m : Thread) (N : Z) (s : batch) :
  hardware_averaging (worker m) = true →
  ∃ m' out,
    run m [deliver_command (single N); deliver_data s; events_done] = (m', out) ∧
    out = [status_sig "grab";
           detector_grab_data N false
             (if live_mode_available (worker m) then wait_time (worker m) else 0);
           data_detector_sig (Some s);
           status_sig "grab_stopped"] ∧
    stack m' = stack m ∧
    outstanding m' = outstanding m ∧
    datas (worker m') = datas (worker m) ∧
    ind_average (worker m') = 0.
Proof.
  intros Hhw.
  destruct (enter_loop_state m N false true) as (ad' & Hent & _).
  rewrite run_cons.
  change (step m (deliver_command (single N)))
    with (enter_loop N false (set_grab_state true (set_single_grab true (worker m))) m).
  rewrite Hent, Hhw. cbn [fst snd]. simpl.
  eexists _, _. split; [reflexivity|]. simpl.
  repeat split; try done. lia.
Qed.

(** Witness of X3: a worker set to hardware averaging by [ini_detector]. *)
Lemma snap_with_hardware_averaging_witness :
  let m := mk_thread (set_hardware_averaging true (worker (idle_thread 0 false))) [] 0 in
  ∃ m' out,
    run m [deliver_command (single 5); deliver_data (batch0D 7); events_done] = (m', out) ∧
    out = [status_sig "grab";
           detector_grab_data 5 false
             (if live_mode_available (worker m) then wait_time (worker m) else 0);
           data_detector_sig (Some (batch0D 7));
           status_sig "grab_stopped"] ∧
    stack m' = stack m ∧
    outstanding m' = outstanding m ∧
    datas (worker m') = datas (worker m) ∧
    ind_average (worker m') = 0.
Proof.
  intros m. apply (snap_with_hardware_averaging m 5 (batch0D 7)). reflexivity.
Defined.

(** X4. Continuous grab with a plugin that streams by itself
    ([live_mode_available]): the loop of [grab_data] sends one request, with
    [live] set and the worker's wait time, and is left as soon as
    [processEvents()] returns; the callbacks that follow never send another
    request nor stop the plugin, and under hardware averaging each of their
    batches is emitted as it is, in order. *)
Theorem live_mode_grab_requests_once `{ops : Foreign} (m : Thread) (N : Z) (samples : list batch) :
  live_mode_available (worker m) = true →
  ∃ m' out,
    run m (deliver_command (grab N) :: events_done :: streamed samples) = (m', out) ∧
    stack m' = stack m ∧
    filter (λ s, is_grab_request s = true) out
    = [detector_grab_data N true (wait_time (worker m))] ∧
    (detector_stop ∉ out) ∧
    (hardware_averaging (worker m) = true → emitted out = Some <$> samples).
Proof.
  intros Hlm.
  destruct (live_grab_prefix m N Hlm) as (w' & Hpre & Hgs & Hhw').
  change (deliver_command (grab N) :: events_done :: streamed samples)
    with ([deliver_command (grab N); events_done] ++ streamed samples).
  rewrite run_app, Hpre. cbn [fst snd].
  destruct (streamed_run samples (mk_thread w' (stack m) (outstanding m + 1)) Hgs)
    as (H1 & H2 & H3 & H4).
  cbn [stack worker] in *.
  eexists _, _. split; [reflexivity|]. repeat split.
  - exact H1.
  - unfold requests in H2. apply length_zero_iff_nil in H2.
    rewrite filter_app, H2. reflexivity.
  - intros Hx. apply elem_of_app in Hx as [Hx|Hx]; [|done].
    repeat (apply elem_of_cons in Hx as [Hx|Hx]; [done|]).
    by apply elem_of_nil in Hx.
  - intros Hhw. rewrite emitted_app, H4 by congruence. reflexivity.
Qed.

(** Witness of X4: a streaming plugin with hardware averaging. *)
Lemma live_mode_grab_requests_once_witness :
  let m := mk_thread (mk_detector false false false None 0 None false true false 20 true)
             [] 0 in
  ∃ m' out,
    run m (deliver_command (grab 1) :: events_done :: streamed [batch0D 1; batch0D 2])
    = (m', out) ∧
    stack m' = stack m ∧
    filter (λ s, is_grab_request s = true) out
    = [detector_grab_data 1 true (wait_time (worker m))] ∧
    (detector_stop ∉ out) ∧
    (hardware_averaging (worker m) = true → emitted out = Some <$> [batch0D 1; batch0D 2]).
Proof.
  intros m. apply (live_mode_grab_requests_once m 1 [batch0D 1; batch0D 2]). reflexivity.
Defined.



Section WorkerRegrab.

Context `{ops : Foreign}.

(** One turn of a continuous-grab loop that emits every batch: the
    callback, then the return of [processEvents()]. *)
Lemma regrab_iteration (N : Z) (f : frame) (tl : list activation) (o : nat)
    (d : option batch) (ad hw sa : bool) (wt : Z) (s : batch) :
  hw = true ∨ N = 1 →
  ∃ d' ad',
    run (mk_thread (mk_detector true true false d 0 (Some N) ad hw sa wt false)
           (in_grab_data f :: tl) (S o))
        [deliver_data s; events_done]
    = (mk_thread (mk_detector true true false d' 0 (Some N) ad' hw sa wt false)
         (in_grab_data f :: tl) (S o),
       [data_detector_sig (Some s); msleep wt;
        detector_grab_data (fr_Naverage f) (fr_live f) (fr_wait_time f)]).
Proof.
  intros [-> | ->].
  - eexists _, _. simpl. rewrite Nat.add_1_r. reflexivity.
  - destruct hw.
    + eexists _, _. simpl. rewrite Nat.add_1_r. reflexivity.
    + eexists _, _. simpl. rewrite Nat.add_1_r. reflexivity.
Qed.

Lemma regrab_run (N : Z) (f : frame) (tl : list activation) (hw sa : bool) (wt : Z)
    (samples : list batch) :
  hw = true ∨ N = 1 →
  ∀ (o : nat) (d : option batch) (ad : bool),
    ∃ d' ad' out,
      run (mk_thread (mk_detector true true false d 0 (Some N) ad hw sa wt false)
             (in_grab_data f :: tl) (S o))
          (answered samples)
      = (mk_thread (mk_detector true true false d' 0 (Some N) ad' hw sa wt false)
           (in_grab_data f :: tl) (S o), out) ∧
      emitted out = Some <$> samples ∧
      filter (λ x, is_grab_request x = true) out
      = replicate (length samples)
          (detector_grab_data (fr_Naverage f) (fr_live f) (fr_wait_time f)) ∧
      length (filter (λ x, x = msleep wt) out) = length samples.
Proof.
  intros Hmode. induction samples as [|s rest IH]; intros o d ad.
  - eexists _, _, _. split; [reflexivity|]. done.
  - change (answered (s :: rest)) with ([deliver_data s; events_done] ++ answered rest).
    destruct (regrab_iteration N f tl o d ad hw sa wt s Hmode) as (d1 & ad1 & H1).
    destruct (IH o d1 ad1) as (d' & ad' & out & H2 & He & Hr & Hs).
    rewrite run_app, H1. cbn [fst snd]. rewrite H2. cbn [fst snd].
    eexists _, _, _. split; [reflexivity|].
    rewrite emitted_app, !filter_app, length_app, He, Hr, Hs.
    repeat split.
    rewrite !filter_cons, decide_False, decide_True, decide_False by done.
    reflexivity.
Qed.

End WorkerRegrab.

(** X6. Continuous grab with a plugin without live mode, when every batch
    is to be emitted (hardware averaging, or a target of one sample): the
    [grab] command sends a first request and, each time a callback has been
    served and [processEvents()] returns, the loop pauses for the wait time
    and sends the next one.  Every batch is emitted as it came, in order;
    the loop is still running at the end, one request outstanding. *)
Theorem continuous_grab_regrabs `{ops : Foreign} (m : Thread) (N : Z) (samples : list batch) :
  live_mode_available (worker m) = false →
  hardware_averaging (worker m) = true ∨ N = 1 →
  ∃ m' out,
    run m (deliver_command (grab N) :: answered samples) = (m', out) ∧
    stack m' = in_grab_data (mk_frame N true 0) :: stack m ∧
    emitted out = Some <$> samples ∧
    filter (λ s, is_grab_request s = true) out
    = replicate (S (length samples)) (detector_grab_data N true 0) ∧
    length (filter (λ x, x = msleep (wait_time (worker m))) out) = length samples ∧
    outstanding m' = S (outstanding m) ∧
    waiting_for_data (worker m') = true.
Proof.
  intros Hlm Hmode.
  destruct (enter_loop_state m N true false) as (ad' & Hent & _).
  rewrite run_cons.
  change (step m (deliver_command (grab N)))
    with (enter_loop N true (set_grab_state true (set_single_grab false (worker m))) m).
  rewrite Hent, Hlm. cbn [fst snd]. rewrite Nat.add_1_r.
  destruct (regrab_run N (mk_frame N true 0) (stack m) (hardware_averaging (worker m))
              (show_averaging (worker m)) (wait_time (worker m)) samples Hmode
              (outstanding m) (datas (worker m)) ad')
    as (d' & ad'' & out & Hrun & He & Hr & Hs).
  rewrite Hrun. cbn [fst snd].
  eexists _, _. split; [reflexivity|]. cbn [stack worker outstanding waiting_for_data].
  rewrite emitted_app, He. repeat split; try done.
  rewrite filter_app, Hr. reflexivity.
Qed.

(** Witness of X6: three batches during a continuous grab. *)
Lemma continuous_grab_regrabs_witness :
  let m := idle_thread 100 false in
  let samples := [batch0D 1; batch0D 2; batch0D 3] in
  ∃ m' out,
    run m (deliver_command (grab 1) :: answered samples) = (m', out) ∧
    stack m' = in_grab_data (mk_frame 1 true 0) :: stack m ∧
    emitted out = Some <$> samples ∧
    filter (λ s, is_grab_request s = true) out
    = replicate (S (length samples)) (detector_grab_data 1 true 0) ∧
    length (filter (λ x, x = msleep (wait_time (worker m))) out) = length samples ∧
    outstanding m' = S (outstanding m) ∧
    waiting_for_data (worker m') = true.
Proof.
  intros m samples. apply (continuous_grab_regrabs m 1 samples); [reflexivity|by right].
Defined.

(** X7. [grab_data] clears [average_done] only for a target above one
    sample.  A snap of one sample on a software-averaging worker whose flag
    is still set from an earlier cycle therefore leaves its loop, and
    reports [grab_stopped], at the first return of [processEvents()],
    whether or not the callback has been served: the request is still
    outstanding, and the batch is emitted when its callback comes. *)
Theorem single_sample_snap_may_end_before_data `{ops : Foreign} (m : Thread) (s : batch) :
  hardware_averaging (worker m) = false →
  average_done (worker m) = true →
  ∃ m' out,
    run m [deliver_command (single 1); events_done] = (m', out) ∧
    out = [status_sig "grab";
           detector_grab_data 1 false
             (if live_mode_available (worker m) then wait_time (worker m) else 0);
           status_sig "grab_stopped"] ∧
    stack m' = stack m ∧
    outstanding m' = S (outstanding m) ∧
    snd (step m' (deliver_data s)) = [data_detector_sig (Some s)].
Proof.
  intros Hhw Had.
  destruct (enter_loop_state m 1 false true) as (ad' & Hent & _ & Had').
  rewrite run_cons.
  change (step m (deliver_command (single 1)))
    with (enter_loop 1 false (set_grab_state true (set_single_grab true (worker m))) m).
  rewrite Hent, Hhw, Had', Had by lia. cbn [fst snd]. simpl.
  eexists _, _. split; [reflexivity|]. simpl.
  repeat split; try done. lia.
Qed.

(** Witness of X7: the worker as a first one-sample snap leaves it. *)
Lemma single_sample_snap_may_end_before_data_witness :
  let m := fst (run (idle_thread 0 false)
                  [deliver_command (single 1); deliver_data (batch0D 1); events_done]) in
  ∃ m' out,
    run m [deliver_command (single 1); events_done] = (m', out) ∧
    out = [status_sig "grab";
           detector_grab_data 1 false
             (if live_mode_available (worker m) then wait_time (worker m) else 0);
           status_sig "grab_stopped"] ∧
    stack m' = stack m ∧
    outstanding m' = S (outstanding m) ∧
    snd (step m' (deliver_data (batch0D 2))) = [data_detector_sig (Some (batch0D 2))].
Proof.
  intros m. apply (single_sample_snap_may_end_before_data m (batch0D 2)); reflexivity.
Defined.

(** X8. [stop_all] received while a [grab_data] loop is suspended: the
    plugin is stopped at once, before anything else; [Update_Status] is
    reported when the nested [processEvents()] returns, and the loop is
    left, with [grab_stopped], when its own [processEvents()] returns.
    Whatever callbacks and settings commands arrive in between, no further
    request is sent to the plugin. *)
Theorem stop_all_stops_plugin_then_loop `{ops : Foreign}
    (m : Thread) (f : frame) (rest : list activation) (es es' : list event) :
  stack m = in_grab_data f :: rest →
  forallb quiet es = true →
  forallb quiet es' = true →
  ∃ m' out,
    run m (deliver_command stop_all :: es ++ events_done :: es' ++ [events_done])
    = (m', out) ∧
    stack m' = rest ∧
    head out = Some detector_stop ∧
    status_sig "Update_Status" ∈ out ∧
    last out = Some (status_sig "grab_stopped") ∧
    requests out = 0%nat ∧
    grab_state (worker m') = false.
Proof.
  intros Hst Hq Hq'.
  rewrite run_cons. cbn [step queue_command fst snd].
  set (m1 := mk_thread (set_grab_state false (worker m)) (in_stop_all :: stack m)
               (outstanding m)).
  assert (Hg1 : grab_state (worker m1) = false) by (by destruct m as [[] ? ?]).
  destruct (quiet_run es m1 Hq Hg1) as (Hs2 & Hg2 & Hr2).
  rewrite run_app. cbn [fst snd].
  destruct (run m1 es) as [m2 out2]. cbn [fst snd] in *.
  rewrite run_cons.
  assert (Hstep : step m2 events_done
                  = (mk_thread (worker m2) (in_grab_data f :: rest) (outstanding m2),
                     [status_sig "Update_Status"])).
  { unfold step. rewrite Hs2. subst m1. cbn [stack]. by rewrite Hst. }
  rewrite Hstep. cbn [fst snd].
  set (m3 := mk_thread (worker m2) (in_grab_data f :: rest) (outstanding m2)).
  destruct (quiet_run es' m3 Hq' Hg2) as (Hs4 & Hg4 & Hr4).
  rewrite run_app. cbn [fst snd].
  destruct (run m3 es') as [m4 out4]. cbn [fst snd] in *.
  destruct (loop_tail_stopped (worker m4) Hg4) as (Hb & Hr5).
  assert (Hlast : run m4 [events_done]
                  = (mk_thread (worker m4) rest (outstanding m4),
                     (snd (loop_tail (worker m4)) ++ [status_sig "grab_stopped"]) ++ [])).
  { unfold run, step. rewrite Hs4. subst m3. cbn [stack].
    destruct (loop_tail (worker m4)) as [brk out5]. simpl in Hb. by subst brk. }
  rewrite Hlast. cbn [fst snd].
  eexists _, _. split; [reflexivity|]. cbn [stack worker].
  repeat split; try done.
  - apply elem_of_cons. right. apply elem_of_app. right. by left.
  - rewrite app_nil_r, !app_assoc. apply last_snoc.
  - rewrite !requests_app.
    rewrite (no_request_filter _ Hr2), (no_request_filter _ Hr4), (no_request_filter _ Hr5).
    reflexivity.
Qed.

(** Witness of X8: a continuous grab waiting for data receives [stop_all];
    the late callback arrives during the nested [processEvents()]. *)
Lemma stop_all_stops_plugin_then_loop_witness :
  let m := fst (step (idle_thread 0 false) (deliver_command (grab 1))) in
  ∃ m' out,
    run m (deliver_command stop_all :: [deliver_data (batch0D 1)] ++ events_done
           :: [deliver_command (update_wait_time 5)] ++ [events_done])
    = (m', out) ∧
    stack m' = [] ∧
    head out = Some detector_stop ∧
    status_sig "Update_Status" ∈ out ∧
    last out = Some (status_sig "grab_stopped") ∧
    requests out = 0%nat ∧
    grab_state (worker m') = false.
Proof.
  intros m.
  apply (stop_all_stops_plugin_then_loop m (mk_frame 1 true 0) []
           [deliver_data (batch0D 1)] [deliver_command (update_wait_time 5)]);
    reflexivity.
Defined.

(** ** Data objects whose subscript raises *)

Section RaisingSubscript.

Context `{ops : Foreign}.

Hypothesis getitem_raises : ∀ p, getitem_data p = None.

(** Inside a cycle, after its first callback, the callbacks leave the data
    held by the worker as they are. *)
Lemma data_ready_all_keeps_datas (samples : list batch) :
  ∀ (self : DAQ_Detector) (N : Z),
    hardware_averaging self = false →
    Naverage self = Some N →
    1 ≤ ind_average self →
    ind_average self + Z.of_nat (length samples) ≤ N →
    datas (fst (data_ready_all self samples)) = datas self.
Proof.
  induction samples as [|s rest IH]; intros self N Hhw HN Hk Hlen; [done|].
  pose proof (data_ready_raising self s getitem_raises Hhw) as Hd.
  rewrite decide_False in Hd by lia.
  destruct (data_ready_software self s Hhw) as (d' & out & Hrun & _).
  simpl. rewrite Hrun in *. cbn [fst datas] in Hd. subst d'.
  destruct rest as [|s' rest]; [done|].
  rewrite HN. rewrite bool_decide_eq_false_2
    by (intros [= E]; simpl in Hlen; lia).
  match goal with
  | |- context [data_ready_all ?w (s' :: rest)] =>
      specialize (IH w N); destruct (data_ready_all w (s' :: rest)) as [self' outs]
  end.
  cbn [fst] in *. rewrite IH; try done; simpl in *; lia.
Qed.

(** What [_init_show_data] and [show_data] do when the overshoot check is
    enabled and the batch is not empty. *)
Lemma init_show_data_raises (self : DAQ_Viewer) (data : list DataFromPlugins) :
  stop_overshoot (settings self) = true →
  data ≠ [] →
  _init_show_data self data = (self, [], false).
Proof.
  intros Hen Hne. unfold _init_show_data.
  rewrite process_overshoot_raises by done.
  by rewrite bool_decide_eq_false_2.
Qed.

End RaisingSubscript.

(** X9.  The running mean on data objects whose subscript ['data'] raises.
    On a software-averaging worker at the start of a cycle with target N,
    the first callback stores its batch; every later callback of the cycle
    leaves the stored batch as it is (the averaging loop raises at its
    first subscript when the incoming batch is not empty, and has nothing
    to do when it is).  The one emission of the cycle, at the N-th
    callback, therefore carries the first batch received, whatever the
    other N - 1 batches are. *)
Theorem raising_subscript_emits_first_sample `{ops : Foreign}
    (self : DAQ_Detector) (N : Z) (s0 : batch) (rest : list batch) :
  (∀ p, getitem_data p = None) →
  hardware_averaging self = false →
  Naverage self = Some N →
  ind_average self = 0 →
  Z.of_nat (length (s0 :: rest)) = N →
  ∃ self' outs,
    data_ready_all self (s0 :: rest) = (self', outs) ∧
    emitted <$> outs = replicate (length rest) [] ++ [[Some s0]] ∧
    datas self' = Some s0 ∧
    ind_average self' = 0.
Proof.
  intros Hraise Hhw HN Hk Hlen.
  destruct (data_ready_all_counts (s0 :: rest) self N)
    as (self' & outs & Hrun & Hem & Hi & _); try done; try lia.
  assert (Hd : datas self' = Some s0).
  { change self' with (fst (self', outs)). rewrite <- Hrun.
    pose proof (data_ready_raising self s0 Hraise Hhw) as Hd.
    rewrite decide_True in Hd by lia.
    destruct (data_ready_software self s0 Hhw) as (d' & out & Hstep & _).
    simpl. rewrite Hstep in *. cbn [fst datas] in Hd. subst d'.
    destruct rest as [|s1 rest]; [done|].
    rewrite HN. rewrite bool_decide_eq_false_2
      by (intros [= E]; simpl in Hlen; lia).
    match goal with
    | |- context [data_ready_all ?w (s1 :: rest)] =>
        pose proof (data_ready_all_keeps_datas Hraise (s1 :: rest) w N) as Hkeep;
        destruct (data_ready_all w (s1 :: rest)) as [w' outs']
    end.
    cbn [fst] in *. rewrite Hkeep; try done; simpl in *; lia. }
  exists self', outs. split; [done|]. split; [|done].
  rewrite Hem, Hd. simpl. by rewrite Nat.sub_0_r.
Qed.

(** Witness of X9: a cycle of three callbacks on the worker of a snap. *)
Lemma raising_subscript_emits_first_sample_witness :
  let self := set_Naverage (Some 3) (worker (idle_thread 0 false)) in
  ∃ self' outs,
    @data_ready_all spec_ops self [batch0D 1; batch0D 3; batch0D 8] = (self', outs) ∧
    emitted <$> outs = [[]; []; [Some (batch0D 1)]] ∧
    datas self' = Some (batch0D 1) ∧
    ind_average self' = 0.
Proof.
  intros self.
  apply (@raising_subscript_emits_first_sample spec_ops self 3 (batch0D 1)
           [batch0D 3; batch0D 8]); done.
Defined.

(** X10.  The overshoot check on data objects whose subscript ['data']
    raises.  With the check enabled and a batch that is not empty,
    [show_data] ends in its exception handler before anything else is
    done: the exception is logged, no alert is fired, nothing is sent to
    the viewers, no export is built or reported, and a background capture
    that [take_bkg] had armed stays armed, the Background being what it
    was.  Only the copy of the batch to the TCP/IP client, which comes
    first, is still sent. *)
Theorem raising_overshoot_check_ends_show_data `{ops : Foreign}
    (self : DAQ_Viewer) (now now' : Qc) (data : list DataFromPlugins) :
  (∀ p, getitem_data p = None) →
  stop_overshoot (settings self) = true →
  data ≠ [] →
  let r := show_data self now now' data in
  snd r = (if tcp_connected (settings self) && _send_to_tcpip self
           then [command_tcpip data] else []) ++ [viewer_logger_exception] ∧
  alerts (snd r) = 0%nat ∧
  shown (snd r) = [] ∧
  grab_dones (snd r) = [] ∧
  _take_bkg (fst r) = _take_bkg self ∧
  _bkg (fst r) = _bkg self ∧
  _data_to_save_export (fst r) = _data_to_save_export self ∧
  heap (fst r) = heap self.
Proof.
  intros Hraise Hen Hne r. subst r. unfold show_data.
  rewrite (init_show_data_raises Hraise) by (by destruct self).
  cbn [negb fst snd app].
  destruct self as [ti u vs vt se gr db tb gd st rd bk cd de ds tcp icg hp].
  cbn. destruct (tcp_connected se && tcp); by split_and!.
Qed.

(** Witness of X10: a capture armed by [take_bkg], threshold 3, batch [5]. *)
Lemma raising_overshoot_check_ends_show_data_witness :
  let self := fst (take_bkg (set_settings (mk_settings false false 0 50 true true
                                             (Qc_of_Z 3) 1) viewer_with_ui) (Qc_of_Z 0)) in
  let r := @show_data spec_ops self (Qc_of_Z 1) (Qc_of_Z 1) (batch0D 5) in
  snd r = [viewer_logger_exception] ∧
  alerts (snd r) = 0%nat ∧
  shown (snd r) = [] ∧
  grab_dones (snd r) = [] ∧
  _take_bkg (fst r) = true ∧
  _bkg (fst r) = None ∧
  _data_to_save_export (fst r) = None ∧
  heap (fst r) = [].
Proof.
  intros self.
  exact (@raising_overshoot_check_ends_show_data spec_ops self (Qc_of_Z 1) (Qc_of_Z 1)
           (batch0D 5) (λ _, eq_refl) eq_refl ltac:(discriminate)).
Defined.

(** ** More on the initialisation *)

Section InitialisationExtras.

Lemma union_keeps_entry (e m : gmap string value) (k : string) :
  is_Some (m !! k) → is_Some ((e ∪ m) !! k).
Proof. intros H. apply lookup_union_is_Some. by right. Qed.

End InitialisationExtras.

(** Every key of the initial status is still there after insertions and
    updates. *)
Ltac ini_keys :=
  repeat match goal with
         | |- is_Some ((_ ∪ _) !! _) => apply union_keeps_entry
         | |- is_Some (<[_ := _]> _ !! _) => apply lookup_insert_is_Some'; right
         end;
  by eexists.

(** One step through the body of [ini_detector]: a lookup of a key the
    status holds, or a case analysis on what the foreign code does. *)
Ltac ini_step :=
  first
    [ match goal with
      | |- context [match ?M !! ?k with Some _ => _ | None => _ end] =>
          let x := fresh "x" in
          let Hx := fresh "Hx" in
          assert (is_Some (M !! k)) as [x Hx] by ini_keys;
          rewrite Hx; simpl
      end
    | match goal with
      | |- context [decide (?a = VNone)] => destruct (decide (a = VNone)); simpl
      end
    | match goal with
      | |- context [match ?o with returns _ => _ | raises _ => _ end] =>
          is_var o; destruct o; simpl
      end ].

(** X11.  [ini_detector] is total and its status is well formed: whatever
    the plugin does (looking it up, constructing it, connecting its
    signals, initialising it, reading its controller or its
    [hardware_averaging] attribute may each raise, and the initialiser may
    return anything), [ini_detector] returns the [status] dictionary, and
    that dictionary has the four entries it was created with:
    [initialized], [info], [x_axis] and [y_axis]. *)
Theorem ini_detector_status_well_formed
    (plugin : Plugin) (self : DAQ_Detector) (controller : option nat) :
  ∃ s st,
    ini_detector plugin self controller = (s, returns st) ∧
    st = status s ∧
    is_Some (st !! "initialized") ∧
    is_Some (st !! "info") ∧
    is_Some (st !! "x_axis") ∧
    is_Some (st !! "y_axis").
Proof.
  destruct plugin as [lookup construct connect init ctrl hw].
  unfold ini_detector, ini_detector_body, try_except, ini_bind, call, status_assign,
    status_set, status_update, status_get, ini_emit, ini_set_hardware_averaging,
    ini_ret, item. simpl.
  destruct lookup as [[]|e0]; simpl; [destruct construct as [[]|e1]; simpl|];
    [destruct connect as [[]|e2]; simpl| |];
    [destruct (init controller) as [[e|[i0|] [i1|]]|e3]; simpl| | |];
    try (destruct ctrl as [c|e4]; simpl).
  all: repeat ini_step.
  all: eexists _, _; (split; [reflexivity|]); simpl; (split; [reflexivity|]).
  all: split_and!; ini_keys.
Qed.

(** X12.  A successful initialisation: the plugin is found, constructed,
    connected and initialised without an exception, and its initialiser
    hands back an [edict].  The status returned is the initial status with
    the controller of the plugin, updated with that [edict] (whose entries
    win); the worker takes over the [hardware_averaging] attribute of the
    plugin class; [x_axis] and [y_axis] are reported on [status_sig], in
    this order, each when the status holds one; nothing is logged. *)
Theorem ini_detector_success
    (plugin : Plugin) (self : DAQ_Detector) (controller : option nat)
    (e : gmap string value) (c : value) (h : bool) :
  get_viewer_plugins plugin = returns tt →
  class_ plugin = returns tt →
  connect_signals plugin = returns tt →
  detector_ini_detector plugin controller = returns (infos_edict e) →
  detector_controller plugin = returns c →
  class_hardware_averaging plugin = returns h →
  let st := e ∪ <["controller" := c]> initial_status in
  ∃ s,
    ini_detector plugin self controller = (s, returns st) ∧
    status s = st ∧
    ini_self s = set_hardware_averaging h self ∧
    ini_out s
    = (if decide (default VNone (e !! "x_axis") = VNone) then [] else [status_sig "x_axis"])
      ++ (if decide (default VNone (e !! "y_axis") = VNone) then []
          else [status_sig "y_axis"]).
Proof.
  intros Hl Hc Hco Hi Hct Hhw st.
  destruct plugin as [lookup construct connect init ctrl hw]. simpl in *. subst.
  unfold ini_detector, ini_detector_body, try_except, ini_bind, call, status_assign,
    status_set, status_update, status_get, ini_emit, ini_set_hardware_averaging,
    ini_ret, item. simpl. rewrite Hi. simpl.
  assert (Hx : (e ∪ <["controller" := c]> initial_status) !! "x_axis"
               = Some (default VNone (e !! "x_axis"))).
  { rewrite lookup_union. destruct (e !! "x_axis"); reflexivity. }
  assert (Hy : (e ∪ <["controller" := c]> initial_status) !! "y_axis"
               = Some (default VNone (e !! "y_axis"))).
  { rewrite lookup_union. destruct (e !! "y_axis"); reflexivity. }
  rewrite Hx. simpl.
  destruct (decide (default VNone (e !! "x_axis") = VNone)); simpl; rewrite Hy; simpl;
    destruct (decide (default VNone (e !! "y_axis") = VNone)); simpl;
    eexists; split_and!; reflexivity.
Qed.

(** Witness of X12: a plugin for 1D data that averages in hardware. *)
Lemma ini_detector_success_witness :
  let e : gmap string value :=
    {[ "initialized" := VBool true; "x_axis" := VAxis [Qc_of_Z 0; Qc_of_Z 1] ]} in
  let plugin := mk_plugin (returns tt) (returns tt) (returns tt)
                  (λ _, returns (infos_edict e)) (returns (VHandle 1)) (returns true) in
  let self := worker (idle_thread 0 false) in
  let st := e ∪ <["controller" := VHandle 1]> initial_status in
  ∃ s,
    ini_detector plugin self None = (s, returns st) ∧
    status s = st ∧
    ini_self s = set_hardware_averaging true self ∧
    ini_out s = [status_sig "x_axis"].
Proof.
  intros e plugin self st.
  exact (ini_detector_success plugin self None e (VHandle 1) true
           eq_refl eq_refl eq_refl eq_refl eq_refl eq_refl).
Defined.

(** ** Data objects that answer the subscript *)

(** No exception is logged among the signals of a list that is known. *)
Ltac not_logged :=
  let Hx := fresh "Hx" in
  intros Hx; simpl in Hx;
  repeat (apply elem_of_cons in Hx as [Hx|Hx]; [discriminate|]);
  by apply elem_of_nil in Hx.

Section AnsweringSubscript.

Context `{ops : Foreign}.

Hypothesis answering : subscripts_answer.
Hypothesis no_rounding : arithmetic_exact.

Open Scope Qc_scope.

Lemma Qc_of_Z_nonzero (k : Z) : (k ≠ 0)%Z → Qc_of_Z k ≠ 0.
Proof. intros Hk E. apply Hk. apply Z2Qc_inj. rewrite E. apply Qc_is_canon. reflexivity. Qed.

(** One step of the incremental formula on a mean kept as [sum / k]. *)
Lemma incremental_step (k : Z) (x y : Qc) :
  (1 ≤ k)%Z →
  (Qc_of_Z (k + 1 - 1) * (x / Qc_of_Z k) + y) / Qc_of_Z (k + 1)
  = (x + y) / Qc_of_Z (k + 1).
Proof.
  intros Hk. rewrite Z.add_simpl_r.
  field. split; apply Qc_of_Z_nonzero; lia.
Qed.

Lemma exact_binop_same_length (f : Qc → Qc → Qc) (a b : array) :
  length a = length b → exact_binop f a b = Some (zip_with f a b).
Proof.
  intros Hl. unfold exact_binop.
  destruct a as [|x [|x' a]], b as [|y [|y' b]]; simpl in *; try discriminate; try reflexivity.
  all: case_decide; simpl in *; congruence.
Qed.

Lemma incremental_mean_same_length (n : Z) (old new : array) :
  length old = length new → incremental_mean n old new = Some (mean2 n old new).
Proof.
  intros Hl. destruct no_rounding as (Hmul & Hadd & Hdiv & _).
  unfold incremental_mean, mean2.
  rewrite Hmul. simpl. rewrite Hadd. unfold exact_add.
  rewrite exact_binop_same_length by (unfold exact_scale; rewrite length_map; exact Hl).
  simpl. rewrite Hdiv. f_equal. unfold exact_div, exact_scale.
  clear Hl. revert new. induction old as [|o old IH]; intros [|x new]; simpl; try reflexivity.
  f_equal. apply IH.
Qed.

Lemma averaged_channels_same_shape (n : Z) (b : batch) (i : nat)
    (p dic : DataFromPlugins) :
  b !! i = Some p →
  length <$> dfp_data p = length <$> dfp_data dic →
  averaged_channels n (Some b) i dic
  = Some (zip_with (mean2 n) (dfp_data p) (dfp_data dic)).
Proof.
  intros Hp Hs. destruct answering as (Hget & _).
  unfold averaged_channels. rewrite Hget. simpl. apply mapM_Some.
  assert (Hlen : length (dfp_data p) = length (dfp_data dic)).
  { apply (f_equal length) in Hs. by rewrite !length_fmap in Hs. }
  apply Forall2_same_length_lookup_2.
  - rewrite length_seq, length_zip_with. lia.
  - intros j ind r Hj Hr. apply lookup_seq in Hj as [-> Hj]. simpl in *.
    rewrite Hp. simpl. rewrite !Hget. simpl.
    apply lookup_zip_with_Some in Hr as (o & x & -> & Ho & Hx).
    rewrite Ho, Hx. simpl.
    apply incremental_mean_same_length.
    assert (H1 : (length <$> dfp_data p) !! j = Some (length o))
      by (by rewrite list_lookup_fmap, Ho).
    rewrite Hs, list_lookup_fmap, Hx in H1. simpl in H1. congruence.
Qed.

Lemma average_loop_same_shape (n : Z) (new done todo : batch) :
  shape todo = shape new →
  average_loop n (length done) new (Some (done ++ todo))
  = (Some (done ++ zip_with (panel_mean n) todo new), false).
Proof.
  destruct answering as (_ & Hset).
  revert done todo. induction new as [|dic new IH]; intros done todo Hs.
  - destruct todo; [|discriminate]. reflexivity.
  - destruct todo as [|p todo]; [discriminate|].
    injection Hs as Hp Hs. simpl.
    assert (Hl : (done ++ p :: todo) !! length done = Some p)
      by (by rewrite list_lookup_middle).
    rewrite (averaged_channels_same_shape n _ _ p dic Hl Hp). simpl.
    unfold setitem. rewrite Hl. simpl. rewrite Hset. simpl.
    rewrite insert_app_r_alt by lia. rewrite Nat.sub_diag. simpl.
    replace (done ++ with_data p (zip_with (mean2 n) (dfp_data p) (dfp_data dic)) :: todo)
      with ((done ++ [panel_mean n p dic]) ++ todo)
      by (by rewrite <- app_assoc).
    replace (S (length done)) with (length (done ++ [panel_mean n p dic]))
      by (rewrite length_app; simpl; lia).
    rewrite (IH _ _ Hs). by rewrite <- app_assoc.
Qed.

Lemma shape_batch_div (S : batch) (c : Qc) : shape (batch_div S c) = shape S.
Proof.
  unfold shape, batch_div. rewrite <- list_fmap_compose.
  apply list_fmap_ext. intros _ p _. simpl.
  rewrite <- list_fmap_compose. apply list_fmap_ext. intros _ a _. simpl.
  unfold exact_div. by rewrite length_map.
Qed.

Lemma shape_batch_sum (S s : batch) : shape S = shape s → shape (batch_sum S s) = shape S.
Proof.
  revert s. induction S as [|p S IH]; intros [|q s] Hs; try discriminate; [reflexivity|].
  injection Hs as Hp Hs. simpl. f_equal; [|by apply IH].
  clear IH Hs. destruct p as [? ? ? dp], q as [? ? ? dq]. simpl in *.
  revert dq Hp. induction dp as [|a dp IH]; intros [|b dq] Hp; try discriminate; [reflexivity|].
  injection Hp as Ha Hp. simpl. f_equal; [|by apply IH].
  rewrite length_zip_with. lia.
Qed.

Lemma batch_div_1 (s : batch) : batch_div s (Qc_of_Z 1) = s.
Proof.
  unfold batch_div. rewrite <- (list_fmap_id s) at 2.
  apply list_fmap_ext. intros _ [? ? ? d] _. unfold with_data. simpl. f_equal.
  rewrite <- (list_fmap_id d) at 2.
  apply list_fmap_ext. intros _ a _. simpl. unfold exact_div.
  rewrite <- (map_id a) at 2. apply map_ext. intros x.
  rewrite Z2Qc_inj_1. field. discriminate.
Qed.

Lemma mean2_step (k : Z) (a b : array) :
  (1 ≤ k)%Z →
  mean2 (k + 1) (exact_div a (Qc_of_Z k)) b
  = exact_div (zip_with Qcplus a b) (Qc_of_Z (k + 1)).
Proof.
  intros Hk. unfold mean2, exact_div. revert b.
  induction a as [|x a IH]; intros [|y b]; simpl; try reflexivity.
  f_equal; [by apply incremental_step | apply IH].
Qed.

Lemma panel_mean_step (k : Z) (p q : DataFromPlugins) :
  (1 ≤ k)%Z →
  panel_mean (k + 1) (with_data p ((λ a, exact_div a (Qc_of_Z k)) <$> dfp_data p)) q
  = with_data (panel_sum p q)
      ((λ a, exact_div a (Qc_of_Z (k + 1))) <$> dfp_data (panel_sum p q)).
Proof.
  intros Hk. unfold panel_mean, panel_sum, with_data. simpl. f_equal.
  generalize (dfp_data q). induction (dfp_data p) as [|a d IH]; intros [|b e]; simpl; try reflexivity.
  f_equal; [by apply mean2_step | apply IH].
Qed.

Lemma batch_mean_step (k : Z) (S s : batch) :
  (1 ≤ k)%Z →
  zip_with (panel_mean (k + 1)) (batch_div S (Qc_of_Z k)) s
  = batch_div (batch_sum S s) (Qc_of_Z (k + 1)).
Proof.
  intros Hk. unfold batch_div, batch_sum. revert s.
  induction S as [|p S IH]; intros [|q s]; simpl; try reflexivity.
  f_equal; [by apply panel_mean_step | apply IH].
Qed.

(** What one callback does to a worker that already holds the mean of
    [k >= 1] samples. *)
Lemma data_ready_running (self : DAQ_Detector) (k : Z) (S s : batch) :
  hardware_averaging self = false →
  ind_average self = k → (1 ≤ k)%Z →
  datas self = Some (batch_div S (Qc_of_Z k)) →
  shape S = shape s →
  ∃ self' out,
    data_ready self s = (self', out) ∧
    hardware_averaging self' = false ∧
    Naverage self' = Naverage self ∧
    datas self' = Some (batch_div (batch_sum S s) (Qc_of_Z (k + 1))) ∧
    (if decide (Some (k + 1)%Z = Naverage self)
     then emitted out = [datas self'] ∧ ind_average self' = 0%Z ∧
          average_done self' = true
     else emitted out = [] ∧ ind_average self' = (k + 1)%Z) ∧
    (logger_exception ∉ out).
Proof.
  intros Hhw Hk Hk1 Hd Hs. destruct self as [wfd gs sg d ia Na ad hw sa wt lm].
  simpl in *. subst hw ia d.
  unfold data_ready. simpl.
  destruct (decide (k + 1 = 1)%Z) as [E|_]; [lia|].
  pose proof (average_loop_same_shape (k + 1) s [] (batch_div S (Qc_of_Z k))) as Hloop.
  simpl in Hloop. rewrite Hloop by (by rewrite shape_batch_div).
  rewrite batch_mean_step by done.
  destruct sa; simpl; destruct (decide (Some (k + 1)%Z = Na)); simpl;
    destruct gs; simpl; eexists _, _; (split; [reflexivity|]); simpl;
    split_and!; try reflexivity; try (unfold emitted; by rewrite ?omap_app);
    not_logged.
Qed.

Lemma data_ready_all_running (N : Z) (shp : list (list nat)) (rest : list batch) :
  ∀ (self : DAQ_Detector) (k : Z) (S : batch),
    rest ≠ [] →
    hardware_averaging self = false →
    Naverage self = Some N →
    ind_average self = k → (1 ≤ k)%Z →
    (k + Z.of_nat (length rest))%Z = N →
    datas self = Some (batch_div S (Qc_of_Z k)) →
    shape S = shp →
    Forall (λ s, shape s = shp) rest →
    ∃ self' outs,
      data_ready_all self rest = (self', outs) ∧
      emitted <$> outs
      = replicate (length rest - 1) []
        ++ [[Some (batch_div (foldl batch_sum S rest) (Qc_of_Z N))]] ∧
      ind_average self' = 0%Z ∧ average_done self' = true ∧
      datas self' = Some (batch_div (foldl batch_sum S rest) (Qc_of_Z N)) ∧
      Forall (λ out, logger_exception ∉ out) outs.
Proof.
  induction rest as [|s rest IH]; intros self k S Hne Hhw HN Hk Hk1 Hlen Hd HS Hall; [done|].
  apply Forall_cons in Hall as [Hs Hall].
  destruct (data_ready_running self k S s Hhw Hk Hk1 Hd) as
    (self1 & out & Hrun & Hhw1 & HN1 & Hd1 & Hemit & Hlog); [congruence|].
  simpl. rewrite Hrun. rewrite HN in Hemit.
  destruct rest as [|s' rest].
  - simpl in *. destruct (decide (Some (k + 1)%Z = Some N)) as [_|Hn]; [|exfalso; apply Hn; f_equal; lia].
    destruct Hemit as (He & Hi & Ha).
    replace N with (k + 1)%Z by lia.
    eexists _, _. split; [reflexivity|]. simpl. rewrite He, Hd1.
    split_and!; try done. by constructor.
  - destruct (decide (Some (k + 1)%Z = Some N)) as [E|_].
    { injection E as E. simpl in Hlen. lia. }
    destruct Hemit as (He & Hi).
    destruct (IH self1 (k + 1)%Z (batch_sum S s))
      as (self' & outs & Hrun' & Hout & Hi' & Ha' & Hd' & Hl');
      try done.
    + congruence.
    + lia.
    + simpl in *. lia.
    + rewrite shape_batch_sum; congruence.
    + rewrite Hrun'. eexists _, _. split; [reflexivity|].
      rewrite fmap_cons, He, Hout. simpl. rewrite Nat.sub_0_r.
      split_and!; try done. by constructor.
Qed.

(** The alerts of the loop over the arrays of one data object. *)
Lemma overshoot_channels_answer (value : Qc) (channels : list array) :
  overshoot_channels value channels
  = (replicate (length (filter (λ channel, exact_any_ge channel value = true) channels))
       (overshoot_signal true), true).
Proof.
  destruct no_rounding as (_ & _ & _ & Hge).
  induction channels as [|channel rest IH]; [done|].
  simpl. rewrite Hge, IH. rewrite filter_cons.
  destruct (exact_any_ge channel value) eqn:E.
  - by rewrite decide_True.
  - by rewrite decide_False.
Qed.

Lemma overshoot_loop_answer (value : Qc) (data : list DataFromPlugins) :
  overshoot_loop value data
  = (replicate (length (overshooting value data)) (overshoot_signal true), true).
Proof.
  destruct answering as (Hget & _). unfold overshooting.
  induction data as [|p data IH]; [done|].
  simpl. rewrite Hget, overshoot_channels_answer, IH.
  rewrite filter_app, length_app, replicate_add. reflexivity.
Qed.

End AnsweringSubscript.

(** X13.  The running mean on data objects that answer the subscript, in
    exact arithmetic.  In a software-averaging cycle (counter at 0, target
    N >= 1) fed with N batches of one shape, [data_ready] emits exactly
    once, at the N-th callback and not before; the batch emitted is the
    elementwise arithmetic mean of the N batches, reached through the
    incremental formula; no exception is logged, and the counter is 0
    after the emission with [average_done] set. *)
Theorem answering_subscript_emits_mean `{ops : Foreign}
    (self : DAQ_Detector) (N : Z) (samples : list batch) (shp : list (list nat)) :
  subscripts_answer →
  arithmetic_exact →
  hardware_averaging self = false →
  ind_average self = 0 →
  Naverage self = Some N →
  1 ≤ N →
  Z.of_nat (length samples) = N →
  Forall (λ s, shape s = shp) samples →
  ∃ mean self' outs,
    arithmetic_mean samples = Some mean ∧
    data_ready_all self samples = (self', outs) ∧
    emitted <$> outs = replicate (length samples - 1) [] ++ [[Some mean]] ∧
    Forall (λ out, logger_exception ∉ out) outs ∧
    ind_average self' = 0 ∧
    average_done self' = true.
Proof.
  intros Hans Hex Hhw Hi HN HN1 Hlen Hall.
  destruct samples as [|s rest]; [simpl in Hlen; lia|].
  apply Forall_cons in Hall as [Hs Hall].
  assert (Hfirst : ∃ self1 out,
    data_ready self s = (self1, out) ∧ hardware_averaging self1 = false ∧
    Naverage self1 = Some N ∧
    ind_average self1 = (if decide (N = 1) then 0 else 1) ∧
    average_done self1 = (if decide (N = 1) then true else average_done self) ∧
    datas self1 = Some (batch_div s (Qc_of_Z 1)) ∧
    emitted out = (if decide (N = 1) then [Some (batch_div s (Qc_of_Z 1))] else []) ∧
    logger_exception ∉ out).
  { destruct self as [wfd gs sg d ia Na ad hw sa wt lm]. simpl in *. subst hw ia Na.
    unfold data_ready. simpl. rewrite batch_div_1 by done.
    destruct (decide (N = 1)) as [->|HN'].
    - rewrite decide_True by done.
      destruct gs; eexists _, _; (split; [reflexivity|]); simpl;
        split_and!; try done; not_logged.
    - rewrite decide_False by (intros [= E]; lia).
      destruct gs; eexists _, _; (split; [reflexivity|]); simpl;
        split_and!; try done; not_logged. }
  destruct Hfirst as (self1 & out & Hrun & Hhw1 & HN1' & Hi1 & Ha1 & Hd1 & He & Hlog).
  destruct rest as [|s' rest].
  - (* N = 1: the first sample is stored and emitted at once *)
    simpl in Hlen. subst N. destruct (decide (Z.of_nat 1 = 1)) as [_|]; [|done].
    eexists _, self1, [out]. simpl arithmetic_mean.
    split; [reflexivity|]. simpl. rewrite Hrun.
    split; [reflexivity|]. simpl. rewrite He.
    split_and!; try done. by constructor.
  - (* N > 1: the first sample is stored, the others are averaged in *)
    assert (HNgt : N ≠ 1) by (simpl length in Hlen; lia).
    destruct (decide (N = 1)) as [|_]; [done|].
    eexists _. simpl arithmetic_mean.
    destruct (data_ready_all_running Hans Hex N shp (s' :: rest) self1 1 s)
      as (self' & outs & Hrun' & Hout & Hi' & Ha' & Hd' & Hl'); try done.
    { simpl length in *. lia. }
    change (data_ready_all self (s :: s' :: rest)) with
      (let '(self0, out) := data_ready self s in
       let '(self0, outs) := data_ready_all self0 (s' :: rest) in (self0, out :: outs)).
    rewrite Hrun, Hrun'. eexists _, _. split; [reflexivity|]. split; [reflexivity|].
    rewrite fmap_cons, He, Hout. rewrite <- Hlen.
    simpl length. simpl. rewrite Nat.sub_0_r.
    split_and!; try done. by constructor.
Qed.

(** Witness of X13: target 3 and the batches [1,1,1], [2,2,2], [3,3,3];
    the batch emitted at the third callback is [2,2,2]. *)
Lemma answering_subscript_emits_mean_witness :
  let self := mk_detector false true true None 0 (Some 3) false false false 0 false in
  let sample (v : Z) := [mk_dfp "CH0" Data1D "" [[Qc_of_Z v; Qc_of_Z v; Qc_of_Z v]]] in
  let samples := [sample 1; sample 2; sample 3] in
  arithmetic_mean samples = Some (sample 2) ∧
  ∃ mean self' outs,
    arithmetic_mean samples = Some mean ∧
    @data_ready_all dict_ops self samples = (self', outs) ∧
    emitted <$> outs = replicate (length samples - 1) [] ++ [[Some mean]] ∧
    Forall (λ out, logger_exception ∉ out) outs ∧
    ind_average self' = 0 ∧
    average_done self' = true.
Proof.
  intros self sample samples.
  split; [apply (bool_decide_unpack _); vm_compute; exact I|].
  apply (@answering_subscript_emits_mean dict_ops self 3 samples [[3%nat]]);
    try reflexivity; [by split | by split_and! | lia | repeat constructor].
Defined.

(** X14.  The overshoot check on data objects that answer the subscript,
    with an exact comparison: [_process_overshoot] fires one alert for each
    array of the batch that holds a value at or above the threshold, so
    none when every value is below it and several when several arrays
    reach it; it never raises, keeps nothing from one batch to the next,
    and fires nothing when the check is switched off. *)
Theorem overshoot_alert_per_array `{ops : Foreign}
    (self : DAQ_Viewer) (data : list DataFromPlugins) :
  subscripts_answer →
  arithmetic_exact →
  _process_overshoot self data
  = (if stop_overshoot (settings self)
     then replicate (length (overshooting (overshoot_value (settings self)) data))
            (overshoot_signal true)
     else [],
     true).
Proof.
  intros Hans Hex. unfold _process_overshoot.
  destruct (stop_overshoot (settings self)); [|done].
  by apply overshoot_loop_answer.
Qed.

(** Witness of X14: threshold 3; one data object with the arrays [5], [1]
    and [3, 0] gives two alerts. *)
Lemma overshoot_alert_per_array_witness :
  let self := set_settings (mk_settings false false 0 50 true true (Qc_of_Z 3) 1)
                viewer_with_ui in
  let data := [mk_dfp "CH0" Data1D "" [[Qc_of_Z 5]; [Qc_of_Z 1]; [Qc_of_Z 3; Qc_of_Z 0]]] in
  @_process_overshoot dict_ops self data = ([overshoot_signal true; overshoot_signal true], true).
Proof.
  intros self data.
  rewrite (@overshoot_alert_per_array dict_ops self data);
    [reflexivity | by split | by split_and!].
Defined.
